(** * MinSoTextStream AI interface (ai-interface/python/minso-ai.py)

    A shallow embedding of the [MinSoAI] client class and of the command
    dispatcher [main], followed by the properties of the client that the
    specification states: authentication gate, transport failures, token
    persistence, response validation, display shaping and exit statuses.

    Python objects are mutated in place and keep their changes when an
    exception unwinds, so every method is a function from the state (the
    client object and the process environment) to a result and a new state.

    Standing assumptions on the environment: [print] does not fail, the
    process is not interrupted, and the path [~/.minso-token], when it
    exists, is a regular file that the process may read, write and remove.
    What the file holds, what the locale's encoding can represent and what
    the [requests] library does are not assumed: text that cannot be
    encoded, bytes that do not decode and exceptions out of the library are
    part of the model. *)

From Stdlib Require Import List String Ascii ZArith NArith Bool Lia.
From Stdlib Require Import DecimalString SpecFloat.
Import ListNotations.
Open Scope string_scope.
Open Scope list_scope.
Open Scope Z_scope.

(** ** Python strings

    A Python [str] is a sequence of Unicode code points; [len], slicing and
    [strip] count code points, so this is the representation used for every
    string that is data (tokens, JSON strings, arguments, URLs).  Literal
    text of the script that is only ever printed is kept as a Rocq [string]. *)

Definition str := list N.

Definition lit (s : string) : str := map N_of_ascii (list_ascii_of_string s).

Definition str_eq_dec : forall a b : str, {a = b} + {a <> b} :=
  list_eq_dec N.eq_dec.

Definition str_eqb (a b : str) : bool := if str_eq_dec a b then true else false.

Fixpoint starts_with (p s : str) : bool :=
  match p, s with
  | [], _ => true
  | _ :: _, [] => false
  | a :: p', b :: s' => N.eqb a b && starts_with p' s'
  end.

(** [p in s] on two strings: substring test. *)
Fixpoint is_infix (p s : str) : bool :=
  starts_with p s || match s with [] => false | _ :: s' => is_infix p s' end.

(** [str.isspace] on one code point (CPython's [_PyUnicode_IsWhitespace]). *)
Definition is_space (c : N) : bool :=
  ((9 <=? c) && (c <=? 13) || (28 <=? c) && (c <=? 32)
   || (c =? 133) || (c =? 160) || (c =? 5760)
   || (8192 <=? c) && (c <=? 8202)
   || (c =? 8232) || (c =? 8233) || (c =? 8239) || (c =? 8287)
   || (c =? 12288))%N.

Fixpoint lstrip (s : str) : str :=
  match s with
  | c :: s' => if is_space c then lstrip s' else s
  | [] => []
  end.

Definition rstrip (s : str) : str := rev (lstrip (rev s)).

(** [s.strip()] with no argument. *)
Definition strip (s : str) : str := rstrip (lstrip s).

Definition is_ascii (c : N) : bool := (c <? 128)%N.

(** A surrogate code point (U+D800 to U+DFFF).  A Python [str] may hold one
    on its own (an argument or a JSON string with an unpaired escape), and no
    strict codec encodes it. *)
Definition is_surrogate (c : N) : bool := ((55296 <=? c) && (c <=? 57343))%N.

Definition ascii_upper (c : N) : N :=
  if ((97 <=? c) && (c <=? 122))%N then (c - 32)%N else c.

Definition ascii_lower (c : N) : N :=
  if ((65 <=? c) && (c <=? 90))%N then (c + 32)%N else c.

(** [str(n)] for an [int]. *)
Definition str_of_int (n : Z) : str := lit (NilZero.string_of_int (Z.to_int n)).

(** ** Values produced by [response.json()]

    [json.loads] yields [None], [bool], [int], [float], [str], [list] and
    [dict] (string keys).  A dict is kept as an association list in insertion
    order, read with first-match lookup. *)

#[local] Set Warnings "-register-all".

Inductive pyval : Type :=
| PNone
| PBool (b : bool)
| PInt (n : Z)
| PFloat (f : spec_float)
| PStr (s : str)
| PList (l : list pyval)
| PDict (d : list (str * pyval)).

Fixpoint lookup {A : Type} (k : str) (d : list (str * A)) : option A :=
  match d with
  | [] => None
  | (k', v) :: d' => if str_eqb k k' then Some v else lookup k d'
  end.

Definition keys {A : Type} (d : list (str * A)) : list str := map fst d.

(** [d[k] = v]: an existing key keeps its place, a new one goes last. *)
Fixpoint set_item {A : Type} (k : str) (v : A) (d : list (str * A)) : list (str * A) :=
  match d with
  | [] => [(k, v)]
  | (k', v') :: d' => if str_eqb k k' then (k', v) :: d' else (k', v') :: set_item k v d'
  end.

(** Python truth value of an object ([bool(v)]). *)
Definition truthy (v : pyval) : bool :=
  match v with
  | PNone => false
  | PBool b => b
  | PInt n => negb (n =? 0)
  | PFloat (S754_zero _) => false
  | PFloat _ => true
  | PStr s => match s with [] => false | _ => true end
  | PList l => match l with [] => false | _ => true end
  | PDict d => match d with [] => false | _ => true end
  end.

(** [not self.token] for an [Optional[str]]. *)
Definition token_truthy (t : option str) : bool :=
  match t with
  | Some (_ :: _) => true
  | _ => false
  end.

(** ** Exceptions *)

Inductive exn : Type :=
| Exception_ (msg : string)              (* raise Exception("...") *)
| ValueError (msg : string) (arg : str)  (* message and the value it quotes *)
| KeyError (key : str)
| TypeError
| AttributeError
| RequestException (detail : str)        (* any failure while sending *)
| HTTPError (status_code : Z)            (* from raise_for_status() *)
| JSONDecodeError                        (* from response.json() *)
| UnicodeEncodeError                     (* str.encode, strict, on text the codec lacks *)
| UnicodeDecodeError                     (* bytes.decode, strict, on ill-formed bytes *)
| SystemExit (code : Z).                 (* from sys.exit(code) *)

(** [SystemExit] derives from [BaseException] only; every other exception
    here derives from [Exception]. *)
Definition is_Exception (e : exn) : bool :=
  match e with
  | SystemExit _ => false
  | _ => true
  end.

Inductive result (A : Type) : Type :=
| Ret (a : A)
| Raise (e : exn).
Arguments Ret {A} a.
Arguments Raise {A} e.

(** ** Operations on values, as the interpreter performs them *)

(** [v.get(k, default)]: a dict method, absent on every other type. *)
Definition py_get (v : pyval) (k : str) (default : pyval) : result pyval :=
  match v with
  | PDict d => Ret (match lookup k d with Some x => x | None => default end)
  | _ => Raise AttributeError
  end.

(** [v[k]] with a string key. *)
Definition py_getitem (v : pyval) (k : str) : result pyval :=
  match v with
  | PDict d => match lookup k d with Some x => Ret x | None => Raise (KeyError k) end
  | _ => Raise TypeError
  end.

(** [k in v] with a string [k]. *)
Definition py_contains (k : str) (v : pyval) : result bool :=
  match v with
  | PDict d => Ret (match lookup k d with Some _ => true | None => false end)
  | PList l =>
      Ret (existsb (fun x => match x with PStr s => str_eqb k s | _ => false end) l)
  | PStr s => Ret (is_infix k s)
  | _ => Raise TypeError
  end.

(** [len(v)]; a dict counts its distinct keys. *)
Definition py_len (v : pyval) : result Z :=
  match v with
  | PStr s => Ret (Z.of_nat (List.length s))
  | PList l => Ret (Z.of_nat (List.length l))
  | PDict d => Ret (Z.of_nat (List.length (nodup str_eq_dec (keys d))))
  | _ => Raise TypeError
  end.

(** [v[:100] + "..."], reached only when [len(v) > 100].  A list cannot be
    concatenated with a string, and a dict cannot be sliced (a [TypeError]
    up to CPython 3.11; later versions raise [KeyError] instead, and nothing
    below depends on which). *)
Definition py_truncate (v : pyval) : result pyval :=
  match v with
  | PStr s => Ret (PStr (firstn 100 s ++ lit "..."))
  | _ => Raise TypeError
  end.

(** ** URL quoting

    [urllib.parse.quote(s)] with its defaults: the string is encoded as
    UTF-8 with strict error handling, then every byte outside the letters,
    the digits and [_.-~/] becomes [%XX] in upper-case hexadecimal (the tilde
    is left alone from Python 3.7 on). *)

Definition utf8 (c : N) : list N :=
  (if c <? 128 then [c]
   else if c <? 2048 then [192 + c / 64; 128 + c mod 64]
   else if c <? 65536 then
     [224 + c / 4096; 128 + (c / 64) mod 64; 128 + c mod 64]
   else
     [240 + c / 262144; 128 + (c / 4096) mod 64; 128 + (c / 64) mod 64;
      128 + c mod 64])%N.

Definition url_safe (b : N) : bool :=
  ((48 <=? b) && (b <=? 57) || (65 <=? b) && (b <=? 90) || (97 <=? b) && (b <=? 122)
   || (b =? 95) || (b =? 46) || (b =? 45) || (b =? 126) || (b =? 47))%N.

Definition hex_digit (n : N) : N := (if n <? 10 then 48 + n else 55 + n)%N.

Definition percent_encode (b : N) : str :=
  if url_safe b then [b] else [37%N; hex_digit (b / 16); hex_digit (b mod 16)].

Definition quote (s : str) : result str :=
  if existsb is_surrogate s then Raise UnicodeEncodeError
  else Ret (flat_map percent_encode (flat_map utf8 s)).

(** ** Console output

    One [line] per call of [print]; an f-string is the list of its literal
    pieces and of the values it interpolates, left unrendered. *)

Inductive frag : Type :=
| Lit (s : string)
| Fmt (v : pyval)
| FmtExn (e : exn).

Definition line := list frag.

(** ** HTTP, as seen through the [requests] library *)

Inductive http_method := GET | POST | PUT | DELETE.

Record request := mkRequest {
  req_method : http_method;
  req_url : str;
  req_headers : list (str * str);
  req_json : option pyval             (* the [json=] argument, when given *)
}.

(** What [requests.get]/[post]/[put]/[delete] ends with: one of the
    library's own exceptions while sending ([ConnectionError], [Timeout],
    [InvalidURL], [InvalidHeader], ...: a [RequestException]); an exception
    of any other class derived from [Exception] that the library lets
    through (a header value outside latin-1 ends in [UnicodeEncodeError]
    before anything is on the wire); or a response with its status code and
    its body, already decoded ([None] when the body is not valid JSON). *)
Inductive http_reply : Type :=
| SendFails (detail : str)
| CallRaises (e : exn) (ordinary : is_Exception e = true)
| Response (status_code : Z) (body : option pyval).

(** ** What the script takes from its runtime

    The remote API and the [requests] library, and the parts of Python whose
    tables are not reproduced here. *)

Record runtime := mkRuntime {
  (* the library and the server: how the call for a request ends, given the
     requests attempted before it *)
  server : list request -> request -> http_reply;
  (* requests >= 2.27 raises its own JSONDecodeError, a RequestException;
     older versions let the json module's ValueError through *)
  json_error_is_request_exception : bool;
  (* os.linesep is "\r\n" rather than "\n" *)
  crlf_platform : bool;
  (* str.upper / str.lower on strings that hold non-ASCII characters *)
  unicode_upper : str -> str;
  unicode_lower : str -> str;
  (* the non-ASCII characters that the locale's encoding has *)
  locale_encodes : N -> bool;
  (* int(s): None when s is not an integer literal *)
  parse_int : str -> option Z;
  (* str(v) for a value that is not a string *)
  repr : pyval -> str
}.

Definition upper (rt : runtime) (s : str) : str :=
  if forallb is_ascii s then map ascii_upper s else unicode_upper rt s.

Definition lower (rt : runtime) (s : str) : str :=
  if forallb is_ascii s then map ascii_lower s else unicode_lower rt s.

(** [f"{v}"] inside a URL. *)
Definition format_value (rt : runtime) (v : pyval) : str :=
  match v with
  | PStr s => s
  | _ => repr rt v
  end.

Definition is_RequestException (rt : runtime) (e : exn) : bool :=
  match e with
  | RequestException _ | HTTPError _ => true
  | JSONDecodeError => json_error_is_request_exception rt
  | _ => false
  end.

(** ** Text files

    The token file is opened in text mode with the default [newline=None]:
    on writing, every ["\n"] becomes [os.linesep]; on reading, ["\r\n"] and a
    lone ["\r"] both become ["\n"].

    It is also opened with the locale's encoding and the default strict
    error handling.  The content of the file is kept as the text its bytes
    stand for, a byte sequence that does not decode being kept the way the
    [surrogateescape] handler would keep it, as lone surrogates; so the file
    decodes exactly when its content is text that the encoding can encode.
    The encoding is an extension of ASCII. *)

Definition encodable (rt : runtime) (c : N) : bool :=
  negb (is_surrogate c) && (is_ascii c || locale_encodes rt c).

(** [s.encode()] and, on the content of a file, [.decode()] succeed. *)
Definition encodes (rt : runtime) (s : str) : bool := forallb (encodable rt) s.

Definition LF : N := 10%N.
Definition CR : N := 13%N.

Definition os_linesep (rt : runtime) : str :=
  if crlf_platform rt then [CR; LF] else [LF].

Definition text_write (rt : runtime) (s : str) : str :=
  flat_map (fun c => if N.eqb c LF then os_linesep rt else [c]) s.

Fixpoint text_read (s : str) : str :=
  match s with
  | [] => []
  | c :: s' =>
      if N.eqb c CR
      then LF :: match s' with
                 | c' :: s'' => if N.eqb c' LF then text_read s'' else text_read s'
                 | [] => []
                 end
      else c :: text_read s'
  end.

(** ** State *)

(** The [MinSoAI] object.  [username] and [user_id] are copied from a
    response, so they hold whatever JSON value the server sent; [PNone] is
    Python's [None]. *)
Record client := mkClient {
  base_url : str;
  token : option str;
  username : pyval;
  user_id : pyval
}.

(** The process environment: the file [~/.minso-token] ([None] when it does
    not exist), what has been printed, and the HTTP requests attempted. *)
Record world := mkWorld {
  token_file : option str;
  stdout : list line;
  sent : list request
}.

Definition state := (client * world)%type.

Definition M (A : Type) : Type := state -> result A * state.

Definition ret {A} (a : A) : M A := fun s => (Ret a, s).

Definition raise {A} (e : exn) : M A := fun s => (Raise e, s).

Definition bind {A B} (m : M A) (k : A -> M B) : M B :=
  fun s =>
    match m s with
    | (Ret a, s') => k a s'
    | (Raise e, s') => (Raise e, s')
    end.

Declare Scope py_scope.
Delimit Scope py_scope with py.
Notation "x <- m ;; k" := (bind m (fun x => k))
  (at level 61, m at next level, right associativity) : py_scope.
Notation "m ;; k" := (bind m (fun _ => k))
  (at level 61, right associativity) : py_scope.
Open Scope py_scope.

(** A pure expression that may raise. *)
Definition lift {A} (r : result A) : M A := fun s => (r, s).

(** [try: body / except <classes> as e: handler e]. *)
Definition try_except {A} (body : M A) (catches : exn -> bool)
    (handler : exn -> M A) : M A :=
  fun s =>
    match body s with
    | (Raise e, s') => if catches e then handler e s' else (Raise e, s')
    | r => r
    end.

(** [for x in l: body x]. *)
Fixpoint for_each {A} (l : list A) (body : A -> M unit) : M unit :=
  match l with
  | [] => ret tt
  | x :: l' => body x ;; for_each l' body
  end.

Definition get_self : M client := fun s => (Ret (fst s), s).

Definition set_token (t : option str) : M unit :=
  fun '(c, w) => (Ret tt, (mkClient (base_url c) t (username c) (user_id c), w)).

Definition set_username (v : pyval) : M unit :=
  fun '(c, w) => (Ret tt, (mkClient (base_url c) (token c) v (user_id c), w)).

Definition set_user_id (v : pyval) : M unit :=
  fun '(c, w) => (Ret tt, (mkClient (base_url c) (token c) (username c) v, w)).

Definition print (l : line) : M unit :=
  fun '(c, w) => (Ret tt, (c, mkWorld (token_file w) (stdout w ++ [l]) (sent w))).

Definition sys_exit {A} (code : Z) : M A := raise (SystemExit code).

(** [os.path.exists(token_file)]. *)
Definition token_file_exists : M bool :=
  fun '(c, w) => (Ret (match token_file w with Some _ => true | None => false end), (c, w)).

(** [with open(token_file, 'r') as f: f.read()], on an existing file:
    [UnicodeDecodeError] when the bytes of the file do not decode. *)
Definition read_token_file (rt : runtime) : M str :=
  fun '(c, w) =>
    match token_file w with
    | Some s =>
        if encodes rt s then (Ret (text_read s), (c, w))
        else (Raise UnicodeDecodeError, (c, w))
    | None => (Ret [], (c, w))
    end.

(** [open(token_file, 'w')] creates or empties the file. *)
Definition open_token_file_w : M unit :=
  fun '(c, w) => (Ret tt, (c, mkWorld (Some []) (stdout w) (sent w))).

(** [f.write(text)] on the file just opened: the text is encoded as a
    whole, and [UnicodeEncodeError] leaves the file as [open] made it. *)
Definition write_token_file (rt : runtime) (text : str) : M unit :=
  fun '(c, w) =>
    if encodes rt text then
      (Ret tt,
       (c, mkWorld (Some (match token_file w with Some s => s | None => [] end
                          ++ text_write rt text))
             (stdout w) (sent w)))
    else (Raise UnicodeEncodeError, (c, w)).

(** [os.remove(token_file)]. *)
Definition remove_token_file : M unit :=
  fun '(c, w) => (Ret tt, (c, mkWorld None (stdout w) (sent w))).

(** One call into [requests]: the attempt is recorded, then the runtime
    decides between an exception and a response object. *)
Definition requests_call (rt : runtime) (m : http_method) (url : str)
    (headers : list (str * str)) (json : option pyval) : M (Z * option pyval) :=
  fun '(c, w) =>
    let req := mkRequest m url headers json in
    let w' := mkWorld (token_file w) (stdout w) (sent w ++ [req]) in
    match server rt (sent w) req with
    | SendFails detail => (Raise (RequestException detail), (c, w'))
    | CallRaises e _ => (Raise e, (c, w'))
    | Response status body => (Ret (status, body), (c, w'))
    end.

(** [response.raise_for_status()]. *)
Definition raise_for_status (response : Z * option pyval) : M unit :=
  if (400 <=? fst response) && (fst response <? 600)
  then raise (HTTPError (fst response))
  else ret tt.

(** [response.json()]. *)
Definition response_json (response : Z * option pyval) : M pyval :=
  match snd response with
  | Some v => ret v
  | None => raise JSONDecodeError
  end.

(** A pure expression evaluated in sequence, stopping at the first raise. *)
Definition rbind {A B} (r : result A) (k : A -> result B) : result B :=
  match r with
  | Ret a => k a
  | Raise e => Raise e
  end.

Notation "x <~ r ;; k" := (rbind r (fun x => k))
  (at level 61, r at next level, right associativity) : py_scope.

(** ** Display shaping

    The same expressions occur in [get_posts], [get_post], [get_trending]
    and [search]; they are written once here. *)

(** [post.get("username") or post.get("author", {}).get("username", "unknown")] *)
Definition display_username (post : pyval) : result pyval :=
  u <~ py_get post (lit "username") PNone ;;
  if truthy u then Ret u
  else
    a <~ py_get post (lit "author") (PDict []) ;;
    py_get a (lit "username") (PStr (lit "unknown")).

(** [post.get(field) or post.get(alt, 0)] *)
Definition display_count (post : pyval) (field alt : str) : result pyval :=
  n <~ py_get post field PNone ;;
  if truthy n then Ret n else py_get post alt (PInt 0).

Definition display_likes (post : pyval) : result pyval :=
  display_count post (lit "likes") (lit "likeCount").

Definition display_comments (post : pyval) : result pyval :=
  display_count post (lit "comments") (lit "commentCount").

(** [content = post["content"]]
    [if len(content) > 100: content = content[:100] + "..."] *)
Definition display_content (post : pyval) : result pyval :=
  content <~ py_getitem post (lit "content") ;;
  n <~ py_len content ;;
  if 100 <? n then py_truncate content else Ret content.

(** ** class MinSoAI *)

Section MinSoAI.

Variable rt : runtime.

Definition default_base_url : str := lit "http://localhost:5000/api".

Definition _load_token : M unit :=
  present <- token_file_exists ;;
  if (present : bool) then
    text <- read_token_file rt ;;
    set_token (Some (strip text))
  else ret tt.

(** [__init__]: a fresh object, then [_load_token]; an exception raised
    there leaves the constructor. *)
Definition MinSoAI (url : str) (w : world) : result unit * state :=
  _load_token (mkClient url None PNone PNone, w).

(** The argument is annotated [str] but is [response["token"]] at both call
    sites; [f.write] raises [TypeError] on anything that is not a [str] and
    [UnicodeEncodeError] on a string that cannot be encoded, in both cases
    after [open] has emptied the file and before [self.token] is set. *)
Definition _save_token (tok : pyval) : M unit :=
  open_token_file_w ;;
  match tok with
  | PStr s => write_token_file rt s ;; set_token (Some s)
  | _ => raise TypeError
  end.

Definition _request (method endpoint : str) (data : option pyval)
    (auth_required : bool) : M pyval :=
  self <- get_self ;;
  let url := base_url self ++ endpoint in
  let headers := [(lit "Content-Type", lit "application/json")] in
  if auth_required && negb (token_truthy (token self)) then
    raise (Exception_ "Authentication required but no token available")
  else
    let headers :=
      match token self with
      | Some (c :: t) => set_item (lit "Authorization") (lit "Bearer " ++ c :: t) headers
      | _ => headers
      end in
    try_except
      (response <-
         (if str_eqb (upper rt method) (lit "GET") then
            requests_call rt GET url headers None
          else if str_eqb (upper rt method) (lit "POST") then
            requests_call rt POST url headers data
          else if str_eqb (upper rt method) (lit "PUT") then
            requests_call rt PUT url headers data
          else if str_eqb (upper rt method) (lit "DELETE") then
            requests_call rt DELETE url headers None
          else raise (ValueError "Unsupported HTTP method: " method)) ;;
       raise_for_status response ;;
       response_json response)
      (is_RequestException rt)
      (fun e =>
         print [Lit "❌ API request failed: "; FmtExn e] ;;
         sys_exit 1).

Definition register (username password bio : str) : M pyval :=
  print [Lit "ℹ️  Registering AI agent '"; Fmt (PStr username); Lit "'..."] ;;
  let data := PDict [(lit "username", PStr username);
                     (lit "password", PStr password);
                     (lit "bio", PStr bio);
                     (lit "isAI", PBool true)] in
  response <- _request (lit "POST") (lit "/auth/register") (Some data) false ;;
  user <- lift (py_get response (lit "user") PNone) ;;
  if truthy user then
    tok <- lift (py_getitem response (lit "token")) ;;
    _save_token tok ;;
    name <- lift (u <~ py_getitem response (lit "user") ;; py_getitem u (lit "username")) ;;
    set_username name ;;
    uid <- lift (u <~ py_getitem response (lit "user") ;; py_getitem u (lit "id")) ;;
    set_user_id uid ;;
    print [Lit "✅ Registration successful!"] ;;
    print [Lit "ℹ️  Username: "; Fmt name] ;;
    print [Lit "ℹ️  User ID: "; Fmt uid] ;;
    ret response
  else raise (Exception_ "Registration failed").

Definition login (username password : str) : M pyval :=
  print [Lit "ℹ️  Logging in as '"; Fmt (PStr username); Lit "'..."] ;;
  let data := PDict [(lit "username", PStr username);
                     (lit "password", PStr password)] in
  response <- _request (lit "POST") (lit "/auth/login") (Some data) false ;;
  user <- lift (py_get response (lit "user") PNone) ;;
  if truthy user then
    tok <- lift (py_getitem response (lit "token")) ;;
    _save_token tok ;;
    name <- lift (u <~ py_getitem response (lit "user") ;; py_getitem u (lit "username")) ;;
    set_username name ;;
    uid <- lift (u <~ py_getitem response (lit "user") ;; py_getitem u (lit "id")) ;;
    set_user_id uid ;;
    print [Lit "✅ Login successful!"] ;;
    print [Lit "ℹ️  Welcome back, "; Fmt name; Lit "!"] ;;
    ret response
  else raise (Exception_ "Login failed").

Definition logout : M unit :=
  present <- token_file_exists ;;
  (if (present : bool) then remove_token_file else ret tt) ;;
  set_token None ;;
  set_username PNone ;;
  set_user_id PNone ;;
  print [Lit "✅ Logged out successfully"].

Definition post (content : str) : M pyval :=
  print [Lit "ℹ️  Creating post..."] ;;
  let data := PDict [(lit "content", PStr content)] in
  response <- _request (lit "POST") (lit "/posts") (Some data) true ;;
  id <- lift (py_get response (lit "id") PNone) ;;
  if truthy id then
    print [Lit "✅ Post created successfully!"] ;;
    id <- lift (py_getitem response (lit "id")) ;;
    print [Lit "ℹ️  Post ID: "; Fmt id] ;;
    ret response
  else raise (Exception_ "Post creation failed").

Definition get_posts (limit offset : Z) : M pyval :=
  print [Lit "ℹ️  Fetching "; Fmt (PInt limit); Lit " posts..."] ;;
  response <- _request (lit "GET")
                (lit "/posts?limit=" ++ str_of_int limit
                 ++ lit "&offset=" ++ str_of_int offset) None false ;;
  match response with
  | PList posts =>
      print [Lit "✅ Posts retrieved successfully!"] ;;
      for_each posts (fun post =>
        content <- lift (display_content post) ;;
        username <- lift (display_username post) ;;
        likes <- lift (display_likes post) ;;
        comments <- lift (display_comments post) ;;
        print [Lit "📝 @"; Fmt username; Lit ": "; Fmt content] ;;
        id <- lift (py_getitem post (lit "id")) ;;
        print [Lit "   ❤️  "; Fmt likes; Lit " likes | 💬 "; Fmt comments;
               Lit " comments | 🆔 "; Fmt id] ;;
        print []) ;;
      ret response
  | _ => raise (Exception_ "Failed to fetch posts")
  end.

Definition get_post (post_id : str) : M pyval :=
  print [Lit "ℹ️  Fetching post "; Fmt (PStr post_id); Lit "..."] ;;
  response <- _request (lit "GET") (lit "/posts/" ++ post_id) None false ;;
  id <- lift (py_get response (lit "id") PNone) ;;
  if truthy id then
    print [Lit "✅ Post retrieved successfully!"] ;;
    username <- lift (display_username response) ;;
    likes <- lift (display_likes response) ;;
    comments <- lift (display_comments response) ;;
    content <- lift (py_getitem response (lit "content")) ;;
    print [Lit "📝 @"; Fmt username; Lit ": "; Fmt content] ;;
    print [Lit "   ❤️  "; Fmt likes; Lit " likes | 💬 "; Fmt comments; Lit " comments"] ;;
    created <- lift (py_getitem response (lit "createdAt")) ;;
    print [Lit "   📅 Created: "; Fmt created] ;;
    ret response
  else raise (Exception_ "Failed to fetch post").

Definition like_post (post_id : str) : M pyval :=
  print [Lit "ℹ️  Toggling like for post "; Fmt (PStr post_id); Lit "..."] ;;
  response <- _request (lit "POST") (lit "/posts/" ++ post_id ++ lit "/like") None true ;;
  has <- lift (py_contains (lit "isLiked") response) ;;
  if (has : bool) then
    liked <- lift (py_getitem response (lit "isLiked")) ;;
    (if truthy liked then print [Lit "✅ Post liked! ❤️"]
     else print [Lit "✅ Post unliked! 💔"]) ;;
    ret response
  else raise (Exception_ "Like failed").

Definition comment (post_id content : str) : M pyval :=
  print [Lit "ℹ️  Adding comment to post "; Fmt (PStr post_id); Lit "..."] ;;
  let data := PDict [(lit "content", PStr content)] in
  response <- _request (lit "POST") (lit "/posts/" ++ post_id ++ lit "/comments")
                (Some data) true ;;
  id <- lift (py_get response (lit "id") PNone) ;;
  if truthy id then
    print [Lit "✅ Comment added successfully!"] ;;
    id <- lift (py_getitem response (lit "id")) ;;
    print [Lit "ℹ️  Comment ID: "; Fmt id] ;;
    ret response
  else raise (Exception_ "Comment failed").

Definition follow_user (username : str) : M pyval :=
  print [Lit "ℹ️  Toggling follow for user "; Fmt (PStr username); Lit "..."] ;;
  response <- _request (lit "POST") (lit "/users/" ++ username ++ lit "/follow") None true ;;
  has <- lift (py_contains (lit "isFollowing") response) ;;
  if (has : bool) then
    following <- lift (py_getitem response (lit "isFollowing")) ;;
    (if truthy following
     then print [Lit "✅ Now following @"; Fmt (PStr username); Lit "! 👥"]
     else print [Lit "✅ Unfollowed @"; Fmt (PStr username); Lit "! ❌"]) ;;
    ret response
  else raise (Exception_ "Follow failed").

Definition send_dm (username message : str) : M pyval :=
  print [Lit "ℹ️  Sending DM to @"; Fmt (PStr username); Lit "..."] ;;
  let data := PDict [(lit "recipientUsername", PStr username);
                     (lit "content", PStr message)] in
  response <- _request (lit "POST") (lit "/messages") (Some data) true ;;
  id <- lift (py_get response (lit "id") PNone) ;;
  if truthy id then
    print [Lit "✅ Message sent successfully!"] ;;
    id <- lift (py_getitem response (lit "id")) ;;
    print [Lit "ℹ️  Message ID: "; Fmt id] ;;
    ret response
  else raise (Exception_ "Message failed").

Definition get_trending (limit : Z) : M pyval :=
  print [Lit "ℹ️  Fetching "; Fmt (PInt limit); Lit " trending posts..."] ;;
  response <- _request (lit "GET")
                (lit "/posts/trending?limit=" ++ str_of_int limit) None false ;;
  match response with
  | PList posts =>
      print [Lit "✅ Trending posts retrieved!"] ;;
      for_each posts (fun post =>
        content <- lift (display_content post) ;;
        username <- lift (display_username post) ;;
        likes <- lift (display_likes post) ;;
        comments <- lift (display_comments post) ;;
        score <- lift (py_get post (lit "trendingScore") (PStr (lit "N/A"))) ;;
        print [Lit "🔥 @"; Fmt username; Lit ": "; Fmt content] ;;
        print [Lit "   ❤️  "; Fmt likes; Lit " likes | 💬 "; Fmt comments;
               Lit " comments | 📈 Score: "; Fmt score] ;;
        print []) ;;
      ret response
  | _ => raise (Exception_ "Failed to fetch trending posts")
  end.

Definition search (query : str) (limit : Z) : M pyval :=
  print [Lit "ℹ️  Searching for '"; Fmt (PStr query); Lit "'..."] ;;
  encoded_query <- lift (quote query) ;;
  response <- _request (lit "GET")
                (lit "/search?q=" ++ encoded_query
                 ++ lit "&limit=" ++ str_of_int limit) None false ;;
  match response with
  | PList posts =>
      print [Lit "✅ Search results for '"; Fmt (PStr query); Lit "':"] ;;
      for_each posts (fun post =>
        content <- lift (display_content post) ;;
        username <- lift (display_username post) ;;
        likes <- lift (display_likes post) ;;
        comments <- lift (display_comments post) ;;
        print [Lit "🔍 @"; Fmt username; Lit ": "; Fmt content] ;;
        id <- lift (py_getitem post (lit "id")) ;;
        print [Lit "   ❤️  "; Fmt likes; Lit " likes | 💬 "; Fmt comments;
               Lit " comments | 🆔 "; Fmt id] ;;
        print []) ;;
      ret response
  | _ => raise (Exception_ "Search failed")
  end.

(** [username or self.username] *)
Definition profile_target (name : option str) (self : client) : pyval :=
  match name with
  | Some (c :: u) => PStr (c :: u)
  | _ => username self
  end.

Definition get_profile (name : option str) : M pyval :=
  self <- get_self ;;
  let target := profile_target name self in
  if negb (truthy target) then
    raise (Exception_ "No username provided and not logged in")
  else
    print [Lit "ℹ️  Fetching profile for @"; Fmt target; Lit "..."] ;;
    response <- _request (lit "GET") (lit "/users/" ++ format_value rt target) None false ;;
    id <- lift (py_get response (lit "id") PNone) ;;
    if truthy id then
      print [Lit "✅ Profile retrieved!"] ;;
      uname <- lift (py_getitem response (lit "username")) ;;
      print [Lit "👤 @"; Fmt uname] ;;
      bio <- lift (py_getitem response (lit "bio")) ;;
      print [Lit "📝 "; Fmt bio] ;;
      followers <- lift (py_getitem response (lit "followersCount")) ;;
      following <- lift (py_getitem response (lit "followingCount")) ;;
      print [Lit "👥 "; Fmt followers; Lit " followers | "; Fmt following; Lit " following"] ;;
      posts <- lift (py_getitem response (lit "postsCount")) ;;
      print [Lit "📝 "; Fmt posts; Lit " posts"] ;;
      created <- lift (py_getitem response (lit "createdAt")) ;;
      print [Lit "📅 Joined: "; Fmt created] ;;
      is_ai <- lift (py_get response (lit "isAI") PNone) ;;
      (if truthy is_ai then print [Lit "🤖 AI Agent"] else ret tt) ;;
      ret response
    else raise (Exception_ "Failed to fetch profile").

Definition icon_map : list (str * string) :=
  [(lit "like", "❤️"); (lit "comment", "💬"); (lit "follow", "👥"); (lit "mention", "📢")].

(** [icon_map.get(kind, "🔔")]: a list or a dict cannot be hashed. *)
Definition notification_icon (kind : pyval) : result string :=
  match kind with
  | PStr s => Ret (match lookup s icon_map with Some i => i | None => "🔔" end)
  | PList _ | PDict _ => Raise TypeError
  | _ => Ret "🔔"
  end.

Definition get_notifications : M pyval :=
  print [Lit "ℹ️  Fetching notifications..."] ;;
  response <- _request (lit "GET") (lit "/notifications") None true ;;
  match response with
  | PList notifications =>
      print [Lit "✅ Notifications retrieved!"] ;;
      for_each notifications (fun notification =>
        icon <- lift (kind <~ py_get notification (lit "type") PNone ;;
                      notification_icon kind) ;;
        message <- lift (py_getitem notification (lit "message")) ;;
        print [Lit icon; Lit " "; Fmt message] ;;
        read <- lift (py_get notification (lit "read") PNone) ;;
        (if negb (truthy read) then print [Lit "   📍 Unread"] else ret tt) ;;
        print []) ;;
      ret response
  | _ => raise (Exception_ "Failed to fetch notifications")
  end.

Definition health_check : M pyval :=
  print [Lit "ℹ️  Checking API health..."] ;;
  response <- _request (lit "GET") (lit "/health") None false ;;
  status <- lift (py_get response (lit "status") PNone) ;;
  if truthy status then
    print [Lit "✅ API is healthy! 🚀"] ;;
    status <- lift (py_getitem response (lit "status")) ;;
    print [Lit "ℹ️  Status: "; Fmt status] ;;
    uptime <- lift (py_get response (lit "uptime") (PStr (lit "N/A"))) ;;
    print [Lit "ℹ️  Uptime: "; Fmt uptime] ;;
    version <- lift (py_get response (lit "version") (PStr (lit "N/A"))) ;;
    print [Lit "ℹ️  Version: "; Fmt version] ;;
    ret response
  else raise (Exception_ "API health check failed").

(** ** main *)

Definition usage : list line :=
  [ [Lit "Usage: python minso-ai.py <command> [args...]"];
    [Lit "
Commands:"];
    [Lit "  register <username> <password> [bio]"];
    [Lit "  login <username> <password>"];
    [Lit "  logout"];
    [Lit "  post <content>"];
    [Lit "  get-posts [limit]"];
    [Lit "  like <post_id>"];
    [Lit "  follow <username>"];
    [Lit "  trending [limit]"];
    [Lit "  search <query>"];
    [Lit "  profile [username]"];
    [Lit "  health"];
    [Lit "
Example:"];
    [Lit "  python minso-ai.py register my_ai_bot secret123 'I am an AI assistant'"];
    [Lit "  python minso-ai.py login my_ai_bot secret123"];
    [Lit "  python minso-ai.py post 'Hello MinSoTextStream!'"] ].

(** [sys.argv[i]], used only below a test of [len(sys.argv)]. *)
Definition arg (argv : list str) (i : nat) : str := nth i argv [].

(** [int(sys.argv[2]) if len(sys.argv) > 2 else 10] *)
Definition limit_arg (argv : list str) : M Z :=
  if (2 <? List.length argv)%nat then
    match parse_int rt (arg argv 2) with
    | Some n => ret n
    | None => raise (ValueError "invalid literal for int() with base 10: " (arg argv 2))
    end
  else ret 10.

(** The body of the [try] block.  A [return] inside it leaves [main]
    normally; every branch ends the block, so it is a plain result here. *)
Definition dispatch (argv : list str) : M unit :=
  let command := lower rt (arg argv 1) in
  let argc := List.length argv in
  if str_eqb command (lit "register") then
    if (argc <? 4)%nat then print [Lit "❌ Usage: register <username> <password> [bio]"]
    else
      let bio := if (4 <? argc)%nat then arg argv 4
                 else lit "AI Agent created via Python" in
      register (arg argv 2) (arg argv 3) bio ;; ret tt
  else if str_eqb command (lit "login") then
    if (argc <? 4)%nat then print [Lit "❌ Usage: login <username> <password>"]
    else login (arg argv 2) (arg argv 3) ;; ret tt
  else if str_eqb command (lit "logout") then
    logout
  else if str_eqb command (lit "post") then
    if (argc <? 3)%nat then print [Lit "❌ Usage: post <content>"]
    else post (arg argv 2) ;; ret tt
  else if str_eqb command (lit "get-posts") then
    limit <- limit_arg argv ;;
    get_posts limit 0 ;; ret tt
  else if str_eqb command (lit "like") then
    if (argc <? 3)%nat then print [Lit "❌ Usage: like <post_id>"]
    else like_post (arg argv 2) ;; ret tt
  else if str_eqb command (lit "follow") then
    if (argc <? 3)%nat then print [Lit "❌ Usage: follow <username>"]
    else follow_user (arg argv 2) ;; ret tt
  else if str_eqb command (lit "trending") then
    limit <- limit_arg argv ;;
    get_trending limit ;; ret tt
  else if str_eqb command (lit "search") then
    if (argc <? 3)%nat then print [Lit "❌ Usage: search <query>"]
    else search (arg argv 2) 10 ;; ret tt
  else if str_eqb command (lit "profile") then
    get_profile (if (2 <? argc)%nat then Some (arg argv 2) else None) ;; ret tt
  else if str_eqb command (lit "health") then
    health_check ;; ret tt
  else
    print [Lit "❌ Unknown command: "; Fmt (PStr command)] ;;
    print [Lit "Use 'python minso-ai.py' to see available commands"].

Definition print_all (ls : list line) (w : world) : world :=
  mkWorld (token_file w) (stdout w ++ ls) (sent w).

Definition main (argv : list str) (w : world) : result unit * world :=
  if (List.length argv <? 2)%nat then (Ret tt, print_all usage w)
  else
    match MinSoAI default_base_url w with
    | (Raise e, (_, w')) => (Raise e, w')
    | (Ret _, ai) =>
        let '(r, (_, w')) :=
          try_except (dispatch argv) is_Exception
            (fun e => print [Lit "❌ Error: "; FmtExn e] ;; sys_exit 1) ai in
        (r, w')
    end.

(** The exit status of the interpreter running [main()]: 0 when it returns,
    the code of a [SystemExit], 1 for any other exception left uncaught. *)
Definition exit_status (r : result unit) : Z :=
  match r with
  | Ret _ => 0
  | Raise (SystemExit code) => code
  | Raise _ => 1
  end.

End MinSoAI.

Arguments _request : simpl never.
Arguments lit : simpl never.

(** * Vocabulary of the properties *)

(** ** The executor, reply by reply *)

Definition add_line (l : line) (w : world) : world :=
  mkWorld (token_file w) (stdout w ++ [l]) (sent w).

Definition add_request (q : request) (w : world) : world :=
  mkWorld (token_file w) (stdout w) (sent w ++ [q]).

(** The error of the authentication gate (the specification's
    [AuthenticationError]; the script raises a plain [Exception]). *)
Definition AuthenticationError : exn :=
  Exception_ "Authentication required but no token available".

(** Which function of [requests] a method string selects. *)
Definition verb (rt : runtime) (method : str) : option http_method :=
  if str_eqb (upper rt method) (lit "GET") then Some GET
  else if str_eqb (upper rt method) (lit "POST") then Some POST
  else if str_eqb (upper rt method) (lit "PUT") then Some PUT
  else if str_eqb (upper rt method) (lit "DELETE") then Some DELETE
  else None.

Definition request_headers (c : client) : list (str * str) :=
  match token c with
  | Some (x :: t) =>
      [(lit "Content-Type", lit "application/json");
       (lit "Authorization", lit "Bearer " ++ x :: t)]
  | _ => [(lit "Content-Type", lit "application/json")]
  end.

(** The request the executor sends, when it sends one. *)
Definition request_of (rt : runtime) (c : client) (method endpoint : str)
    (data : option pyval) : option request :=
  match verb rt method with
  | Some v =>
      Some (mkRequest v (base_url c ++ endpoint) (request_headers c)
              (match v with POST | PUT => data | _ => None end))
  | None => None
  end.

(** The [except] branch of the executor: one line, then [sys.exit(1)]. *)
Definition failed (e : exn) (c : client) (w : world) : result pyval * state :=
  (Raise (SystemExit 1), (c, add_line [Lit "❌ API request failed: "; FmtExn e] w)).

Definition is_http_error (status : Z) : bool := (400 <=? status) && (status <? 600).

(** What the executor makes of the reply to request [q]. *)
Definition outcome (rt : runtime) (c : client) (w : world) (q : request)
  : result pyval * state :=
  let w' := add_request q w in
  match server rt (sent w) q with
  | SendFails detail => failed (RequestException detail) c w'
  | CallRaises e _ =>
      if is_RequestException rt e then failed e c w' else (Raise e, (c, w'))
  | Response status body =>
      if is_http_error status then failed (HTTPError status) c w'
      else match body with
           | Some v => (Ret v, (c, w'))
           | None =>
               if json_error_is_request_exception rt then failed JSONDecodeError c w'
               else (Raise JSONDecodeError, (c, w'))
           end
  end.

(** The process is being terminated: a [SystemExit] is unwinding. *)
Definition terminates_process {A} (r : result A) : Prop :=
  exists code, r = Raise (SystemExit code).

(** An error the caller can catch with [except Exception]. *)
Definition fails_with_error {A} (r : result A) : Prop :=
  exists e, r = Raise e /\ is_Exception e = true.

(** ** Domain operations *)

Inductive operation : Type :=
| Register (username password bio : str)
| Login (username password : str)
| CreatePost (content : str)
| ListPosts (limit offset : Z)
| GetPost (post_id : str)
| ToggleLike (post_id : str)
| AddComment (post_id content : str)
| ToggleFollow (username : str)
| SendMessage (username message : str)
| Trending (limit : Z)
| Search (query : str) (limit : Z)
| GetProfile (name : option str)
| ListNotifications
| HealthCheck.

Definition run (rt : runtime) (op : operation) : M pyval :=
  match op with
  | Register u p b => register rt u p b
  | Login u p => login rt u p
  | CreatePost c => post rt c
  | ListPosts l o => get_posts rt l o
  | GetPost i => get_post rt i
  | ToggleLike i => like_post rt i
  | AddComment i c => comment rt i c
  | ToggleFollow u => follow_user rt u
  | SendMessage u m => send_dm rt u m
  | Trending l => get_trending rt l
  | Search q l => search rt q l
  | GetProfile n => get_profile rt n
  | ListNotifications => get_notifications rt
  | HealthCheck => health_check rt
  end.

(** The [auth_required] argument of the operation's call of [_request]. *)
Definition auth_required (op : operation) : bool :=
  match op with
  | CreatePost _ | ToggleLike _ | AddComment _ _ | ToggleFollow _
  | SendMessage _ _ | ListNotifications => true
  | _ => false
  end.

(** The operation gets as far as sending its request: a token when one is
    required, somebody to look up for [get_profile], and a query that can be
    quoted for [search]. *)
Definition ready (op : operation) (c : client) : bool :=
  (negb (auth_required op) || token_truthy (token c))
  && match op with
     | GetProfile name => truthy (profile_target name c)
     | Search query _ => negb (existsb is_surrogate query)
     | _ => true
     end.

(** The marker of each operation, as the specification tabulates them. *)
Inductive marker : Type :=
| Field (name : str)
| IsArray.

Definition marker_of (op : operation) : marker :=
  match op with
  | Register _ _ _ | Login _ _ => Field (lit "user")
  | CreatePost _ | GetPost _ | AddComment _ _ | SendMessage _ _ | GetProfile _ =>
      Field (lit "id")
  | ToggleLike _ => Field (lit "isLiked")
  | ToggleFollow _ => Field (lit "isFollowing")
  | HealthCheck => Field (lit "status")
  | ListPosts _ _ | Trending _ | Search _ _ | ListNotifications => IsArray
  end.

(** The specification's test: the marker field is there (the response is an
    array). *)
Definition marker_present (op : operation) (v : pyval) : bool :=
  match marker_of op, v with
  | Field k, PDict d => match lookup k d with Some _ => true | None => false end
  | IsArray, PList _ => true
  | _, _ => false
  end.

(** The script's test: [isLiked] and [isFollowing] are looked for with [in];
    every other field is read with [.get] and must moreover be truthy. *)
Definition marker_accepted (op : operation) (v : pyval) : bool :=
  match marker_of op, v with
  | Field k, PDict d =>
      match lookup k d with
      | Some x => match op with
                  | ToggleLike _ | ToggleFollow _ => true
                  | _ => truthy x
                  end
      | None => false
      end
  | IsArray, PList _ => true
  | _, _ => false
  end.

(** Responses on which the marker test itself is well defined: any value
    for the array test, a JSON object for a field test. *)
Definition shape_checked (op : operation) (v : pyval) : bool :=
  match marker_of op, v with
  | IsArray, _ => true
  | Field _, PDict _ => true
  | _, _ => false
  end.

Definition failure_message (op : operation) : string :=
  match op with
  | Register _ _ _ => "Registration failed"
  | Login _ _ => "Login failed"
  | CreatePost _ => "Post creation failed"
  | ListPosts _ _ => "Failed to fetch posts"
  | GetPost _ => "Failed to fetch post"
  | ToggleLike _ => "Like failed"
  | AddComment _ _ => "Comment failed"
  | ToggleFollow _ => "Follow failed"
  | SendMessage _ _ => "Message failed"
  | Trending _ => "Failed to fetch trending posts"
  | Search _ _ => "Search failed"
  | GetProfile _ => "Failed to fetch profile"
  | ListNotifications => "Failed to fetch notifications"
  | HealthCheck => "API health check failed"
  end.

(** The specification's [ResponseShapeError]: a plain [Exception] whose
    message names the operation. *)
Definition ResponseShapeError (op : operation) : exn :=
  Exception_ (failure_message op).

Definition is_ret {A} (r : result A) : bool :=
  match r with
  | Ret _ => true
  | Raise _ => false
  end.

Definition value_of (r : result pyval) : pyval :=
  match r with
  | Ret v => v
  | Raise _ => PNone
  end.

Definition has_key (k : str) (v : pyval) : bool := is_ret (py_getitem v k).

(** Every expression evaluated while one post of a listing is shown has a
    value. *)
Definition shows_in_listing (post : pyval) : bool :=
  is_ret (display_content post) && is_ret (display_username post)
  && is_ret (display_likes post) && is_ret (display_comments post).

Definition notification_shows (n : pyval) : bool :=
  is_ret (kind <~ py_get n (lit "type") PNone ;; notification_icon kind)
  && has_key (lit "message") n && is_ret (py_get n (lit "read") PNone).

(** Operations that read nothing but their marker make no demand; the
    others also read the fields they print or store, and [register] and
    [login] write the token to the file. *)
Definition reads_succeed (rt : runtime) (op : operation) (v : pyval) : bool :=
  match op, v with
  | (Register _ _ _ | Login _ _), PDict d =>
      match lookup (lit "token") d, lookup (lit "user") d with
      | Some (PStr t), Some u =>
          encodes rt t && has_key (lit "username") u && has_key (lit "id") u
      | _, _ => false
      end
  | GetPost _, _ =>
      is_ret (display_username v) && is_ret (display_likes v)
      && is_ret (display_comments v)
      && has_key (lit "content") v && has_key (lit "createdAt") v
  | GetProfile _, _ =>
      has_key (lit "username") v && has_key (lit "bio") v
      && has_key (lit "followersCount") v && has_key (lit "followingCount") v
      && has_key (lit "postsCount") v && has_key (lit "createdAt") v
  | (ListPosts _ _ | Search _ _), PList posts =>
      forallb (fun p => shows_in_listing p && has_key (lit "id") p) posts
  | Trending _, PList posts =>
      forallb (fun p => shows_in_listing p
                        && is_ret (py_get p (lit "trendingScore")
                                     (PStr (lit "N/A")))) posts
  | ListNotifications, PList ns => forallb notification_shows ns
  | (CreatePost _ | AddComment _ _ | SendMessage _ _ | ToggleLike _
     | ToggleFollow _ | HealthCheck), _ => true
  | _, _ => false
  end.

(** A runtime for concrete runs: the given server, no case tables, a
    locale encoding that has every character (UTF-8), no integer parsing. *)
Definition runtime_with (srv : list request -> request -> http_reply)
    (json_is_request_exception crlf : bool) : runtime :=
  mkRuntime srv json_is_request_exception crlf
    (fun s => s) (fun s => s) (fun _ => true) (fun _ => None) (fun _ => []).

(** A server that answers every request the same way. *)
Definition always (reply : http_reply) : list request -> request -> http_reply :=
  fun _ _ => reply.

Definition fresh_client : client := mkClient default_base_url None PNone PNone.

Definition empty_world : world := mkWorld None [] [].

(** ** Postconditions

    [wp m Q s]: running [m] from [s] ends in a result and a state that
    satisfy [Q], whether it returns or raises. *)
Definition wp {A} (m : M A) (Q : result A -> state -> Prop) (s : state) : Prop :=
  Q (fst (m s)) (snd (m s)).

(** The token file is absent, or holds bytes that decode. *)
Definition readable (rt : runtime) (w : world) : bool :=
  match token_file w with
  | Some text => encodes rt text
  | None => true
  end.

(** The token a new client finds on disk, when the file is readable. *)
Definition loaded_token (w : world) : option str :=
  match token_file w with
  | Some text => Some (strip (text_read text))
  | None => None
  end.

(** The client [main] starts from, when the file is readable. *)
Definition started_client (w : world) : client :=
  mkClient default_base_url (loaded_token w) PNone PNone.

(** ** Token strings *)

Definition no_carriage_return (s : str) : bool :=
  forallb (fun c => negb (N.eqb c CR)) s.

(** Neither the first nor the last character is whitespace. *)
Definition edge_space_free (s : str) : bool :=
  match s with
  | [] => true
  | c :: _ => negb (is_space c) && negb (is_space (last s c))
  end.

(** The request has the header [Authorization: Bearer <tok>]. *)
Definition carries_bearer (tok : str) (q : request) : Prop :=
  lookup (lit "Authorization") (req_headers q) = Some (lit "Bearer " ++ tok).

(** The registration response of the specification's example. *)
Definition mock_register_response : pyval :=
  PDict [(lit "user", PDict [(lit "username", PStr (lit "bot1"));
                             (lit "id", PStr (lit "u1"))]);
         (lit "token", PStr (lit "tok123"))].

Definition register_request (c : client) (username password bio : str) : request :=
  mkRequest POST (base_url c ++ lit "/auth/register") (request_headers c)
    (Some (PDict [(lit "username", PStr username);
                  (lit "password", PStr password);
                  (lit "bio", PStr bio);
                  (lit "isAI", PBool true)])).

(** ** Display shaping, as the specification words it

    Modelled on the words of the display rule: a field is used when it is
    present, the next one is tried when it is absent. *)

Definition specified_username (post : list (str * pyval)) : pyval :=
  match lookup (lit "username") post with
  | Some u => u
  | None =>
      match lookup (lit "author") post with
      | Some (PDict a) =>
          match lookup (lit "username") a with
          | Some u => u
          | None => PStr (lit "unknown")
          end
      | _ => PStr (lit "unknown")
      end
  end.

Definition specified_count (post : list (str * pyval)) (field alt : str) : pyval :=
  match lookup field post with
  | Some n => n
  | None =>
      match lookup alt post with
      | Some n => n
      | None => PInt 0
      end
  end.

(** The field is absent, or present with a truthy value. *)
Definition absent_or_truthy (k : str) (post : list (str * pyval)) : bool :=
  match lookup k post with
  | Some v => truthy v
  | None => true
  end.

(** The field is present with a falsy value ([""], [0], [null], [[]], ...). *)
Definition present_but_falsy (k : str) (post : list (str * pyval)) : bool :=
  match lookup k post with
  | Some v => negb (truthy v)
  | None => false
  end.

(** [author], when there is one, is a JSON object. *)
Definition author_is_object (post : list (str * pyval)) : bool :=
  match lookup (lit "author") post with
  | Some (PDict _) | None => true
  | Some _ => false
  end.

(** ** What the operations print *)

(** The three lines [get_posts] and [search] print for one post. *)
Definition listing_lines (head : string) (p : pyval) : list line :=
  [ [Lit head; Fmt (value_of (display_username p)); Lit ": ";
     Fmt (value_of (display_content p))];
    [Lit "   ❤️  "; Fmt (value_of (display_likes p)); Lit " likes | 💬 ";
     Fmt (value_of (display_comments p)); Lit " comments | 🆔 ";
     Fmt (value_of (py_getitem p (lit "id")))];
    [] ].

(** The three lines [get_trending] prints for one post. *)
Definition trending_lines (p : pyval) : list line :=
  [ [Lit "🔥 @"; Fmt (value_of (display_username p)); Lit ": ";
     Fmt (value_of (display_content p))];
    [Lit "   ❤️  "; Fmt (value_of (display_likes p)); Lit " likes | 💬 ";
     Fmt (value_of (display_comments p)); Lit " comments | 📈 Score: ";
     Fmt (value_of (py_get p (lit "trendingScore") (PStr (lit "N/A"))))];
    [] ].

(** The lines [get_post] prints once the response is accepted. *)
Definition get_post_lines (v : pyval) : list line :=
  [ [Lit "✅ Post retrieved successfully!"];
    [Lit "📝 @"; Fmt (value_of (display_username v)); Lit ": ";
     Fmt (value_of (py_getitem v (lit "content")))];
    [Lit "   ❤️  "; Fmt (value_of (display_likes v)); Lit " likes | 💬 ";
     Fmt (value_of (display_comments v)); Lit " comments"];
    [Lit "   📅 Created: "; Fmt (value_of (py_getitem v (lit "createdAt")))] ].

(** Starting from [w], the lines [ls] are what was printed next, whatever
    was printed after them. *)
Definition printed_next (w : world) (ls : list line) (w' : world) : Prop :=
  exists more, stdout w' = stdout w ++ ls ++ more.

(** The request of an operation that uses GET. *)
Definition get_request (c : client) (endpoint : str) : request :=
  mkRequest GET (base_url c ++ endpoint) (request_headers c) None.

(** A string of [n] letters x. *)
Definition xs (n : nat) : str := repeat 120%N n.

(** The post of the specification's example: 150 characters of content,
    the author under [author.username], the likes under [likeCount]. *)
Definition example_post : pyval :=
  PDict [(lit "id", PStr (lit "p1"));
         (lit "content", PStr (xs 150));
         (lit "author", PDict [(lit "username", PStr (lit "alice"))]);
         (lit "likeCount", PInt 3)].

(** ** The command line *)

(** An expression that raises, if at all, an ordinary exception. *)
Definition pure {A} (r : result A) : Prop :=
  forall e, r = Raise e -> is_Exception e = true.

(** A [SystemExit] on its way out carries status 1 and comes right after
    the executor's line. *)
Definition exits_cleanly {A} (r : result A) (s : state) : Prop :=
  forall code, r = Raise (SystemExit code) ->
    code = 1
    /\ exists e w0, snd s = add_line [Lit "❌ API request failed: "; FmtExn e] w0.



(** ** The session

    What outlives an operation: the client object and the token file. *)
Definition session (s : state) : client * option str :=
  (fst s, token_file (snd s)).

(** [register] and [login], the two operations that store a token. *)
Definition signs_in (op : operation) : bool :=
  match op with
  | Register _ _ _ | Login _ _ => true
  | _ => false
  end.

Definition is_str (v : pyval) : bool :=
  match v with
  | PStr _ => true
  | _ => false
  end.

(** The methods the executor knows, in upper case. *)
Definition supported_methods : list str :=
  [lit "GET"; lit "POST"; lit "PUT"; lit "DELETE"].

(** The exceptions the interpreter raises on ill-shaped data. *)
Definition interpreter_error (e : exn) : bool :=
  match e with
  | KeyError _ | TypeError | AttributeError => true
  | _ => false
  end.

(** The requests sent grew by nothing, or by one GET or POST to a URL under
    the client's base URL with the client's headers. *)
Definition at_most_one_request (c : client) (before after : list request) : Prop :=
  after = before
  \/ exists q,
       after = before ++ [q]
       /\ (req_method q = GET \/ req_method q = POST)
       /\ req_headers q = request_headers c
       /\ exists endpoint, req_url q = base_url c ++ endpoint.

(** The lines [get_notifications] prints for one notification: the icon and
    the message, a mark when it is unread, and an empty line. *)
Definition notification_lines (n : pyval) : list line :=
  [ [Lit (match kind <~ py_get n (lit "type") PNone ;; notification_icon kind with
          | Ret icon => icon
          | Raise _ => ""
          end);
     Lit " "; Fmt (value_of (py_getitem n (lit "message")))] ]
  ++ (if truthy (value_of (py_get n (lit "read") PNone)) then []
      else [[Lit "   📍 Unread"]])
  ++ [ [] ].

(** The endpoint and the JSON body of the operations that need a token and
    send a POST. *)
Definition posted (op : operation) : option (str * option pyval) :=
  match op with
  | CreatePost content =>
      Some (lit "/posts", Some (PDict [(lit "content", PStr content)]))
  | ToggleLike post_id => Some (lit "/posts/" ++ post_id ++ lit "/like", None)
  | AddComment post_id content =>
      Some (lit "/posts/" ++ post_id ++ lit "/comments",
            Some (PDict [(lit "content", PStr content)]))
  | ToggleFollow username => Some (lit "/users/" ++ username ++ lit "/follow", None)
  | SendMessage username message =>
      Some (lit "/messages",
            Some (PDict [(lit "recipientUsername", PStr username);
                         (lit "content", PStr message)]))
  | _ => None
  end.

(** * Properties *)

(** ** Running the monad *)

Lemma bind_print {B} l (k : unit -> M B) c w :
  bind (print l) k (c, w) = k tt (c, add_line l w).
Proof. reflexivity. Qed.

(** ** The executor *)

Lemma request_headers_eq c :
  match token c with
  | Some (x :: t) =>
      set_item (lit "Authorization") (lit "Bearer " ++ x :: t)
        [(lit "Content-Type", lit "application/json")]
  | _ => [(lit "Content-Type", lit "application/json")]
  end = request_headers c.
Proof. unfold request_headers. destruct (token c) as [[|x t]|]; reflexivity. Qed.

(** The executor in one equation: the gate, the choice of the call, and
    what becomes of the reply. *)
Lemma _request_spec rt method endpoint data auth c w :
  _request rt method endpoint data auth (c, w) =
  if auth && negb (token_truthy (token c)) then (Raise AuthenticationError, (c, w))
  else match request_of rt c method endpoint data with
       | Some q => outcome rt c w q
       | None => (Raise (ValueError "Unsupported HTTP method: " method), (c, w))
       end.
Proof.
  unfold _request, request_of, verb, bind, get_self. cbn [fst].
  destruct (auth && negb (token_truthy (token c))); [reflexivity|].
  rewrite request_headers_eq.
  unfold try_except, outcome, failed, requests_call, raise_for_status,
    response_json, is_http_error, bind, raise, ret, sys_exit, print,
    add_line, add_request.
  repeat match goal with
         | |- context [str_eqb ?a ?b] => destruct (str_eqb a b)
         end; cbn;
  try (destruct (server rt (sent w) _) as [d|e He|st [v|]]; cbn;
       [ reflexivity
       | destruct (is_RequestException rt e); reflexivity
       | destruct ((400 <=? st) && (st <? 600)); cbn; reflexivity
       | destruct ((400 <=? st) && (st <? 600)); cbn; [reflexivity|];
         destruct (json_error_is_request_exception rt); reflexivity ]).
  reflexivity.
Qed.

Lemma bind_request {B} rt m ep d a (k : pyval -> M B) c w :
  bind (_request rt m ep d a) k (c, w) =
  match (if a && negb (token_truthy (token c))
         then (Raise AuthenticationError, (c, w))
         else match request_of rt c m ep d with
              | Some q => outcome rt c w q
              | None => (Raise (ValueError "Unsupported HTTP method: " m), (c, w))
              end) with
  | (Ret v, s') => k v s'
  | (Raise e, s') => (Raise e, s')
  end.
Proof. unfold bind. rewrite _request_spec. reflexivity. Qed.

Lemma token_unset_or_empty (t : option str) :
  t = None \/ t = Some [] <-> token_truthy t = false.
Proof.
  destruct t as [[|x t]|]; cbn; split; intros H; auto;
    try discriminate; destruct H; discriminate.
Qed.

(** ** C1: the authentication gate *)

(** C1. With [auth_required=True] and a token that is unset or empty, the
    executor raises the authentication error and leaves the state as it
    was; each of the six operations that ask for authentication therefore
    ends with that error without a request having been attempted. *)
Theorem C1_auth_gate_before_network rt c w :
  token c = None \/ token c = Some [] ->
  (forall method endpoint data,
      _request rt method endpoint data true (c, w)
      = (Raise AuthenticationError, (c, w)))
  /\ (forall op, auth_required op = true ->
        fst (run rt op (c, w)) = Raise AuthenticationError
        /\ sent (snd (snd (run rt op (c, w)))) = sent w).
Proof.
  intros Ht. apply token_unset_or_empty in Ht. split.
  - intros. rewrite _request_spec, Ht. reflexivity.
  - intros op Ha.
    destruct op; try discriminate Ha; cbn [run];
      unfold post, like_post, comment, follow_user, send_dm, get_notifications;
      rewrite bind_print, bind_request, Ht; split; reflexivity.
Qed.

Lemma C1_auth_gate_witness :
  fst (run (runtime_with (always (Response 200 (Some PNone))) true false)
         (CreatePost (lit "hello")) (fresh_client, empty_world))
  = Raise AuthenticationError
  /\ sent (snd (snd (run (runtime_with (always (Response 200 (Some PNone))) true false)
                       (CreatePost (lit "hello")) (fresh_client, empty_world))))
     = [].
Proof.
  apply (proj2 (C1_auth_gate_before_network
                  (runtime_with (always (Response 200 (Some PNone))) true false)
                  fresh_client empty_world (or_introl eq_refl))
           (CreatePost (lit "hello")) eq_refl).
Defined.

(** ** Rules for postconditions *)

Lemma wp_bind {A B} (m : M A) (k : A -> M B) Q s :
  wp m (fun r s' => match r with
                    | Ret a => wp (k a) Q s'
                    | Raise e => Q (Raise e) s'
                    end) s ->
  wp (bind m k) Q s.
Proof. unfold wp, bind. destruct (m s) as [[a|e] s']; cbn; auto. Qed.

Lemma wp_ret {A} (a : A) (Q : result A -> state -> Prop) s :
  Q (Ret a) s -> wp (ret a) Q s.
Proof. auto. Qed.

Lemma wp_raise {A} e (Q : result A -> state -> Prop) s :
  Q (Raise e) s -> wp (raise e) Q s.
Proof. auto. Qed.

Lemma wp_lift {A} (r : result A) (Q : result A -> state -> Prop) s :
  Q r s -> wp (lift r) Q s.
Proof. auto. Qed.

Lemma wp_get_self (Q : result client -> state -> Prop) s :
  Q (Ret (fst s)) s -> wp get_self Q s.
Proof. auto. Qed.

Lemma wp_print l (Q : result unit -> state -> Prop) s :
  Q (Ret tt) (fst s, add_line l (snd s)) -> wp (print l) Q s.
Proof. destruct s; auto. Qed.

Lemma wp_set_token t (Q : result unit -> state -> Prop) s :
  Q (Ret tt) (mkClient (base_url (fst s)) t (username (fst s)) (user_id (fst s)), snd s) ->
  wp (set_token t) Q s.
Proof. destruct s; auto. Qed.

Lemma wp_set_username v (Q : result unit -> state -> Prop) s :
  Q (Ret tt) (mkClient (base_url (fst s)) (token (fst s)) v (user_id (fst s)), snd s) ->
  wp (set_username v) Q s.
Proof. destruct s; auto. Qed.

Lemma wp_set_user_id v (Q : result unit -> state -> Prop) s :
  Q (Ret tt) (mkClient (base_url (fst s)) (token (fst s)) (username (fst s)) v, snd s) ->
  wp (set_user_id v) Q s.
Proof. destruct s; auto. Qed.

(** A loop with an invariant [I]; a raise inside the body leaves the loop. *)
Lemma wp_for_each {A} (l : list A) (body : A -> M unit) (I : state -> Prop)
    (Q : result unit -> state -> Prop) :
  (forall x s, In x l -> I s ->
     wp (body x) (fun r s' => match r with
                              | Ret _ => I s'
                              | Raise e => Q (Raise e) s'
                              end) s) ->
  (forall s, I s -> Q (Ret tt) s) ->
  forall s, I s -> wp (for_each l body) Q s.
Proof.
  induction l as [|x l IH]; intros Hb HQ s Hs; cbn [for_each].
  - apply wp_ret. auto.
  - apply wp_bind. assert (H := Hb x s (or_introl eq_refl) Hs).
    unfold wp in H |- *. destruct (body x s) as [[[]|e] s']; cbn in H |- *; auto.
    apply IH; auto. intros; apply Hb; auto. right; auto.
Qed.

(** The executor, by cases: the gate, an unsupported method, a failure
    handled by the [except] branch, an exception of another class left to
    the caller, and a decoded body. *)
Lemma wp_request rt m ep d a (Q : result pyval -> state -> Prop) s :
  (a = true -> token_truthy (token (fst s)) = false ->
     Q (Raise AuthenticationError) s) ->
  (verb rt m = None -> Q (Raise (ValueError "Unsupported HTTP method: " m)) s) ->
  (forall q e, request_of rt (fst s) m ep d = Some q ->
     Q (Raise (SystemExit 1))
       (fst s, add_line [Lit "❌ API request failed: "; FmtExn e]
                 (add_request q (snd s)))) ->
  (forall q e, request_of rt (fst s) m ep d = Some q ->
     is_Exception e = true -> is_RequestException rt e = false ->
     Q (Raise e) (fst s, add_request q (snd s))) ->
  (forall q st v, request_of rt (fst s) m ep d = Some q ->
     server rt (sent (snd s)) q = Response st (Some v) ->
     is_http_error st = false ->
     Q (Ret v) (fst s, add_request q (snd s))) ->
  wp (_request rt m ep d a) Q s.
Proof.
  intros Hgate Hverb Hfail Hjson Hok.
  destruct s as [c w]. unfold wp. rewrite _request_spec. cbn [fst snd] in *.
  assert (Hsent : match request_of rt c m ep d with
                  | Some q => Q (fst (outcome rt c w q)) (snd (outcome rt c w q))
                  | None => Q (Raise (ValueError "Unsupported HTTP method: " m)) (c, w)
                  end).
  { destruct (request_of rt c m ep d) as [q|] eqn:Hq.
    - unfold outcome, failed.
      destruct (server rt (sent w) q) as [x|e He|st [v|]] eqn:Hs; cbn [fst snd];
        eauto.
      + destruct (is_RequestException rt e) eqn:Hr; cbn [fst snd]; eauto.
      + destruct (is_http_error st) eqn:Hst; cbn [fst snd]; eauto.
      + destruct (is_http_error st) eqn:Hst; cbn [fst snd]; eauto.
        destruct (json_error_is_request_exception rt) eqn:Hj; cbn [fst snd]; eauto.
    - apply Hverb. unfold request_of in Hq.
      destruct (verb rt m); [discriminate|reflexivity]. }
  destruct a; cbn [andb negb].
  - destruct (token_truthy (token c)) eqn:Ht; cbn [negb]; [|auto].
    destruct (request_of rt c m ep d); exact Hsent.
  - destruct (request_of rt c m ep d); exact Hsent.
Qed.

Ltac wp_step :=
  match goal with
  | |- wp (bind _ _) _ _ => apply wp_bind
  | |- wp (ret _) _ _ => apply wp_ret
  | |- wp (raise _) _ _ => apply wp_raise
  | |- wp (lift ?r) _ _ => apply wp_lift; destruct r eqn:?
  | |- wp get_self _ _ => apply wp_get_self
  | |- wp (print _) _ _ => apply wp_print
  | |- wp (set_token _) _ _ => apply wp_set_token
  | |- wp (set_username _) _ _ => apply wp_set_username
  | |- wp (set_user_id _) _ _ => apply wp_set_user_id
  | |- wp (if ?b then _ else _) _ _ => destruct b eqn:?
  | |- wp (match ?v with _ => _ end) _ _ => destruct v eqn:?
  end.

Lemma verb_GET rt : verb rt (lit "GET") = Some GET.
Proof. reflexivity. Qed.

Lemma verb_POST rt : verb rt (lit "POST") = Some POST.
Proof. reflexivity. Qed.

(** ** Token persistence *)

Lemma MinSoAI_spec rt url w :
  readable rt w = true ->
  MinSoAI rt url w = (Ret tt, (mkClient url (loaded_token w) PNone PNone, w)).
Proof.
  unfold readable, MinSoAI, _load_token, loaded_token, bind, token_file_exists,
    read_token_file, set_token.
  destruct w as [[text|] out sn]; cbn [token_file]; [intros ->|]; reflexivity.
Qed.

Lemma MinSoAI_unreadable rt url w :
  readable rt w = false ->
  MinSoAI rt url w = (Raise UnicodeDecodeError, (mkClient url None PNone PNone, w)).
Proof.
  unfold readable, MinSoAI, _load_token, bind, token_file_exists, read_token_file.
  destruct w as [[text|] out sn]; cbn [token_file]; [intros ->|discriminate].
  reflexivity.
Qed.

Lemma _save_token_spec rt tok c w :
  _save_token rt tok (c, w) =
  match tok with
  | PStr t =>
      if encodes rt t then
        (Ret tt, (mkClient (base_url c) (Some t) (username c) (user_id c),
                  mkWorld (Some (text_write rt t)) (stdout w) (sent w)))
      else (Raise UnicodeEncodeError, (c, mkWorld (Some []) (stdout w) (sent w)))
  | _ => (Raise TypeError, (c, mkWorld (Some []) (stdout w) (sent w)))
  end.
Proof.
  unfold _save_token, bind, open_token_file_w, write_token_file, set_token.
  destruct tok; try reflexivity. cbn [token_file stdout sent].
  destruct (encodes rt s); reflexivity.
Qed.

Lemma wp_save_token rt tok (Q : result unit -> state -> Prop) s :
  match tok with
  | PStr t =>
      if encodes rt t then
        Q (Ret tt)
          (mkClient (base_url (fst s)) (Some t) (username (fst s)) (user_id (fst s)),
           mkWorld (Some (text_write rt t)) (stdout (snd s)) (sent (snd s)))
      else Q (Raise UnicodeEncodeError)
             (fst s, mkWorld (Some []) (stdout (snd s)) (sent (snd s)))
  | _ => Q (Raise TypeError)
           (fst s, mkWorld (Some []) (stdout (snd s)) (sent (snd s)))
  end ->
  wp (_save_token rt tok) Q s.
Proof.
  destruct s as [c w]. unfold wp. rewrite _save_token_spec.
  destruct tok; auto. cbn [fst snd]. destruct (encodes rt s); auto.
Qed.

Ltac wp_go :=
  match goal with
  | |- wp (_save_token ?rt ?t) _ _ =>
      apply wp_save_token;
      match goal with
      | |- if encodes rt ?x then _ else _ =>
          destruct (encodes rt x) eqn:?; try discriminate
      | |- _ =>
          destruct t eqn:?;
          try match goal with
              | |- if encodes rt ?x then _ else _ => destruct (encodes rt x) eqn:?
              end
      end
  | _ => wp_step
  end.

(** ** C8: logout *)

(** C8. [logout] always returns; afterwards the token file does not exist
    and [token], [username] and [user_id] are [None]; a client created after
    it finds no token.  Nothing depends on the file having existed. *)
Theorem C8_logout_clears_session c w :
  fst (logout (c, w)) = Ret tt
  /\ token_file (snd (snd (logout (c, w)))) = None
  /\ fst (snd (logout (c, w))) = mkClient (base_url c) None PNone PNone
  /\ forall rt url,
       MinSoAI rt url (snd (snd (logout (c, w))))
       = (Ret tt, (mkClient url None PNone PNone, snd (snd (logout (c, w))))).
Proof.
  unfold logout, MinSoAI, _load_token, bind, token_file_exists.
  destruct w as [[text|] out sn]; cbn; repeat split; auto.
Qed.

(** ** C10: registration is always as an AI account *)

(** C10. Whatever the arguments and the state, [register] sends exactly one
    request: a POST to [/auth/register] whose JSON body holds the given
    username, password and bio, and ["isAI": true]. *)
Theorem C10_register_body_isAI rt username password bio c w :
  sent (snd (snd (register rt username password bio (c, w))))
  = sent w
    ++ [mkRequest POST (base_url c ++ lit "/auth/register") (request_headers c)
          (Some (PDict [(lit "username", PStr username);
                        (lit "password", PStr password);
                        (lit "bio", PStr bio);
                        (lit "isAI", PBool true)]))].
Proof.
  change (wp (register rt username password bio)
            (fun _ s' =>
               sent (snd s')
               = sent w
                 ++ [mkRequest POST (base_url c ++ lit "/auth/register")
                       (request_headers c)
                       (Some (PDict [(lit "username", PStr username);
                                     (lit "password", PStr password);
                                     (lit "bio", PStr bio);
                                     (lit "isAI", PBool true)]))]) (c, w)).
  unfold register.
  apply wp_bind, wp_print, wp_bind, wp_request; cbn [fst snd];
    try discriminate; intros q; intros;
    try match goal with
        | H : request_of _ _ _ _ _ = Some _ |- _ => injection H as <-
        end.
  1, 2: reflexivity.
  repeat (wp_go; cbn -[request_headers]; try reflexivity).
Qed.

(** ** C2: transport failures *)

(** C2, as stated, fails: on an HTTP 500 reply the executor does not hand
    an error to its caller, it ends the process with [sys.exit(1)]. *)
Lemma C2_counterexample :
  let r := fst (_request (runtime_with (always (Response 500 None)) true false)
                  (lit "GET") (lit "/health") None false
                  (fresh_client, empty_world)) in
  ~ (fails_with_error r /\ ~ terminates_process r).
Proof.
  intros r [_ H]. apply H. exists 1. reflexivity.
Qed.

(** C2, amended. Once the call into the library is made, a
    [RequestException] raised while sending and a reply with a status from
    400 to 599 make the executor print the single line
    ["❌ API request failed: <error>"] and raise [SystemExit(1)] itself; so
    does a body that is not JSON when the library's [JSONDecodeError] is a
    [RequestException], and otherwise that error goes to the caller as an
    ordinary exception.  An exception of any other class that comes out of
    the call ([UnicodeEncodeError] for a header value outside latin-1, say)
    is not caught by the executor either: it reaches the caller as it is,
    with nothing printed. *)
Theorem C2_executor_exits_on_transport_failure
    rt method endpoint data auth c w q :
  auth && negb (token_truthy (token c)) = false ->
  request_of rt c method endpoint data = Some q ->
  (forall detail, server rt (sent w) q = SendFails detail ->
     _request rt method endpoint data auth (c, w)
     = failed (RequestException detail) c (add_request q w))
  /\ (forall status body, server rt (sent w) q = Response status body ->
        is_http_error status = true ->
        _request rt method endpoint data auth (c, w)
        = failed (HTTPError status) c (add_request q w))
  /\ (forall status, server rt (sent w) q = Response status None ->
        is_http_error status = false ->
        _request rt method endpoint data auth (c, w)
        = if json_error_is_request_exception rt
          then failed JSONDecodeError c (add_request q w)
          else (Raise JSONDecodeError, (c, add_request q w)))
  /\ (forall e ordinary, server rt (sent w) q = CallRaises e ordinary ->
        _request rt method endpoint data auth (c, w)
        = if is_RequestException rt e
          then failed e c (add_request q w)
          else (Raise e, (c, add_request q w))).
Proof.
  intros Hgate Hq. rewrite _request_spec, Hgate, Hq. unfold outcome.
  repeat split; intros.
  - rewrite H. reflexivity.
  - rewrite H, H0. reflexivity.
  - rewrite H, H0. reflexivity.
  - rewrite H. reflexivity.
Qed.

Lemma C2_executor_exits_witness :
  _request (runtime_with (always (Response 500 None)) true false)
    (lit "GET") (lit "/health") None false (fresh_client, empty_world)
  = (Raise (SystemExit 1),
     (fresh_client,
      mkWorld None
        [[Lit "❌ API request failed: "; FmtExn (HTTPError 500)]]
        [mkRequest GET (lit "http://localhost:5000/api/health")
           [(lit "Content-Type", lit "application/json")] None]))
  /\ _request (runtime_with (always (CallRaises UnicodeEncodeError eq_refl)) true false)
       (lit "GET") (lit "/health") None false
       (mkClient default_base_url (Some [8364%N]) PNone PNone, empty_world)
     = (Raise UnicodeEncodeError,
        (mkClient default_base_url (Some [8364%N]) PNone PNone,
         mkWorld None []
           [mkRequest GET (lit "http://localhost:5000/api/health")
              [(lit "Content-Type", lit "application/json");
               (lit "Authorization", lit "Bearer " ++ [8364%N])] None])).
Proof.
  split.
  - apply (proj1 (proj2 (C2_executor_exits_on_transport_failure
                           (runtime_with (always (Response 500 None)) true false)
                           (lit "GET") (lit "/health") None false
                           fresh_client empty_world
                           (mkRequest GET (lit "http://localhost:5000/api/health")
                              [(lit "Content-Type", lit "application/json")] None)
                           eq_refl eq_refl))
             500 None eq_refl eq_refl).
  - apply (proj2 (proj2 (proj2 (C2_executor_exits_on_transport_failure
                           (runtime_with
                              (always (CallRaises UnicodeEncodeError eq_refl))
                              true false)
                           (lit "GET") (lit "/health") None false
                           (mkClient default_base_url (Some [8364%N]) PNone PNone)
                           empty_world
                           (mkRequest GET (lit "http://localhost:5000/api/health")
                              [(lit "Content-Type", lit "application/json");
                               (lit "Authorization", lit "Bearer " ++ [8364%N])]
                              None)
                           eq_refl eq_refl)))
             UnicodeEncodeError eq_refl eq_refl).
Defined.

(** ** C3: saving and loading the token *)

Lemma text_read_write rt s :
  no_carriage_return s = true -> text_read (text_write rt s) = s.
Proof.
  unfold text_write, os_linesep.
  induction s as [|c s IH]; cbn [flat_map no_carriage_return forallb]; intros H.
  - reflexivity.
  - apply andb_prop in H as [Hc Hs]. specialize (IH Hs).
    apply negb_true_iff in Hc.
    destruct (N.eqb c LF) eqn:Hlf.
    + apply N.eqb_eq in Hlf. subst c.
      destruct (crlf_platform rt); cbn; rewrite IH; reflexivity.
    + cbn [app text_read]. rewrite Hc, IH. reflexivity.
Qed.

Lemma lstrip_fixed c s : is_space c = false -> lstrip (c :: s) = c :: s.
Proof. intros H. cbn. rewrite H. reflexivity. Qed.

Lemma strip_fixed s : edge_space_free s = true -> strip s = s.
Proof.
  destruct s as [|c s]; [reflexivity|].
  unfold edge_space_free. intros H.
  apply andb_prop in H as [Hc Hl]. apply negb_true_iff in Hc, Hl.
  unfold strip, rstrip. rewrite (lstrip_fixed c s Hc).
  destruct (exists_last (l := c :: s)) as [l' [a E]]; [discriminate|].
  rewrite E in Hl |- *. rewrite last_last in Hl.
  rewrite rev_app_distr. cbn [rev app]. rewrite (lstrip_fixed a _ Hl).
  cbn [rev]. rewrite rev_involutive. reflexivity.
Qed.

Lemma encodable_ascii rt c : is_ascii c = true -> encodable rt c = true.
Proof.
  unfold encodable, is_surrogate, is_ascii. intros H. rewrite H.
  apply N.ltb_lt in H. rewrite orb_true_l, andb_true_r. apply negb_true_iff.
  apply andb_false_intro1. apply N.leb_gt. lia.
Qed.

Lemma encodes_text_write rt s :
  encodes rt s = true -> encodes rt (text_write rt s) = true.
Proof.
  unfold encodes, text_write, os_linesep.
  induction s as [|c s IH]; cbn [flat_map forallb]; [reflexivity|].
  intros H. apply andb_prop in H as [Hc Hs]. rewrite forallb_app, (IH Hs), andb_true_r.
  destruct (N.eqb c LF).
  - destruct (crlf_platform rt); cbn [forallb];
      rewrite ?(encodable_ascii rt CR), ?(encodable_ascii rt LF); reflexivity.
  - cbn [forallb]. rewrite Hc. reflexivity.
Qed.

(** What a new client holds after a token has been saved, in general. *)
Lemma save_then_load rt tok url c w :
  encodes rt tok = true ->
  loaded_token (snd (snd (_save_token rt (PStr tok) (c, w))))
  = Some (strip (text_read (text_write rt tok)))
  /\ MinSoAI rt url (snd (snd (_save_token rt (PStr tok) (c, w))))
     = (Ret tt,
        (mkClient url (Some (strip (text_read (text_write rt tok)))) PNone PNone,
         snd (snd (_save_token rt (PStr tok) (c, w))))).
Proof.
  intros H. rewrite _save_token_spec, H. cbn [snd].
  rewrite MinSoAI_spec by (apply encodes_text_write; exact H).
  split; reflexivity.
Qed.




(** ** C5: the bearer header *)

Lemma request_of_headers rt c method endpoint data q :
  request_of rt c method endpoint data = Some q ->
  req_headers q = request_headers c.
Proof.
  unfold request_of. destruct (verb rt method); [|discriminate].
  intros H. injection H as <-. reflexivity.
Qed.

Lemma request_headers_bearer c x t :
  token c = Some (x :: t) ->
  lookup (lit "Authorization") (request_headers c) = Some (lit "Bearer " ++ x :: t).
Proof. unfold request_headers. intros ->. reflexivity. Qed.

(** Every request the executor adds to those already sent carries the
    bearer header of a non-empty token. *)
Lemma executor_attaches_bearer rt method endpoint data auth c w x t :
  token c = Some (x :: t) ->
  forall q,
    In q (sent (snd (snd (_request rt method endpoint data auth (c, w))))) ->
    In q (sent w) \/ carries_bearer (x :: t) q.
Proof.
  intros Ht.
  change (wp (_request rt method endpoint data auth)
            (fun _ s' => forall q, In q (sent (snd s')) ->
                                   In q (sent w) \/ carries_bearer (x :: t) q)
            (c, w)).
  apply wp_request; cbn [fst snd add_line add_request sent]; intros; auto;
    match goal with
    | H : In _ (_ ++ [_]) |- _ =>
        apply in_app_or in H as [H|[<-|[]]]; [left; exact H|right]
    end;
    unfold carries_bearer;
    erewrite request_of_headers by eassumption;
    apply request_headers_bearer; exact Ht.
Qed.

(** With a token that is unset or empty, no request the executor adds has
    an [Authorization] header. *)
Lemma executor_omits_bearer rt method endpoint data auth c w :
  token_truthy (token c) = false ->
  forall q,
    In q (sent (snd (snd (_request rt method endpoint data auth (c, w))))) ->
    In q (sent w) \/ lookup (lit "Authorization") (req_headers q) = None.
Proof.
  intros Ht.
  change (wp (_request rt method endpoint data auth)
            (fun _ s' => forall q, In q (sent (snd s')) ->
                                   In q (sent w)
                                   \/ lookup (lit "Authorization") (req_headers q)
                                      = None)
            (c, w)).
  apply wp_request; cbn [fst snd add_line add_request sent]; intros; auto;
    match goal with
    | H : In _ (_ ++ [_]) |- _ =>
        apply in_app_or in H as [H|[<-|[]]]; [left; exact H|right]
    end;
    erewrite request_of_headers by eassumption;
    unfold request_headers; destruct (token c) as [[|x t]|];
    try discriminate Ht; reflexivity.
Qed.

(** C5, as stated, fails: the token can be present and empty (a token file
    that is empty or blank, a reply whose [token] is [""]).  The client
    built from an empty token file holds the token [""], and its request
    goes out with the content type as its only header. *)
Lemma C5_counterexample :
  let rt := runtime_with (always (Response 200 (Some PNone))) true false in
  let ai := snd (MinSoAI rt default_base_url (mkWorld (Some []) [] [])) in
  token (fst ai) = Some []
  /\ sent (snd (snd (_request rt (lit "GET") (lit "/health") None false ai)))
     = [mkRequest GET (lit "http://localhost:5000/api/health")
          [(lit "Content-Type", lit "application/json")] None]
  /\ forall q,
       In q (sent (snd (snd (_request rt (lit "GET") (lit "/health") None false ai)))) ->
       ~ carries_bearer [] q.
Proof.
  cbv zeta. split; [reflexivity|split; [reflexivity|]].
  intros q [<-|[]]. unfold carries_bearer. discriminate.
Qed.

(** C5, amended. With a non-empty token in the session, every request the
    executor sends has [Authorization: Bearer <token>], whatever
    [auth_required] is; with a token that is unset or empty, none has an
    [Authorization] header.  And when the server answers [register] with the
    example response, [register] returns it, the token ["tok123"] is in
    memory and on disk, a later client loads it, and every later request of
    the executor carries [Bearer tok123]. *)
Theorem C5_bearer_header_attached rt :
  (forall method endpoint data auth c w x t,
      token c = Some (x :: t) ->
      forall q,
        In q (sent (snd (snd (_request rt method endpoint data auth (c, w))))) ->
        In q (sent w) \/ carries_bearer (x :: t) q)
  /\ (forall method endpoint data auth c w,
        token c = None \/ token c = Some [] ->
        forall q,
          In q (sent (snd (snd (_request rt method endpoint data auth (c, w))))) ->
          In q (sent w) \/ lookup (lit "Authorization") (req_headers q) = None)
  /\ (forall username password bio c w status,
        server rt (sent w) (register_request c username password bio)
        = Response status (Some mock_register_response) ->
        is_http_error status = false ->
        let after := snd (register rt username password bio (c, w)) in
        fst (register rt username password bio (c, w)) = Ret mock_register_response
        /\ token (fst after) = Some (lit "tok123")
        /\ token_file (snd after) = Some (lit "tok123")
        /\ (forall url,
              MinSoAI rt url (snd after)
              = (Ret tt, (mkClient url (Some (lit "tok123")) PNone PNone, snd after)))
        /\ forall method endpoint data auth q,
             In q (sent (snd (snd (_request rt method endpoint data auth after)))) ->
             In q (sent (snd after)) \/ carries_bearer (lit "tok123") q).
Proof.
  split; [|split].
  - intros. eapply executor_attaches_bearer; eassumption.
  - intros method endpoint data auth c w Ht.
    apply executor_omits_bearer. apply token_unset_or_empty. exact Ht.
  - intros username password bio c w status Hsrv Hst after.
    assert (E : register rt username password bio (c, w)
                = (Ret mock_register_response,
                   (mkClient (base_url c) (Some (lit "tok123"))
                      (PStr (lit "bot1")) (PStr (lit "u1")),
                    mkWorld (Some (lit "tok123"))
                      ((((stdout w
                          ++ [[Lit "ℹ️  Registering AI agent '";
                               Fmt (PStr username); Lit "'..."]])
                         ++ [[Lit "✅ Registration successful!"]])
                        ++ [[Lit "ℹ️  Username: "; Fmt (PStr (lit "bot1"))]])
                       ++ [[Lit "ℹ️  User ID: "; Fmt (PStr (lit "u1"))]])
                      (sent w ++ [register_request c username password bio])))).
    { unfold register. rewrite bind_print, bind_request.
      cbn [andb]. unfold request_of. rewrite verb_POST.
      fold (register_request c username password bio).
      unfold outcome. cbn [add_line sent]. rewrite Hsrv, Hst.
      vm_compute. reflexivity. }
    subst after. rewrite E. cbn [fst snd token token_file].
    split; [reflexivity|split; [reflexivity|split; [reflexivity|split]]].
    { intros url. rewrite MinSoAI_spec by reflexivity. reflexivity. }
    intros method endpoint data auth q Hq.
    eapply executor_attaches_bearer with (x := 116%N) (t := lit "ok123") in Hq;
      [exact Hq | reflexivity].
Qed.

Lemma C5_bearer_header_witness :
  sent (snd (snd (_request (runtime_with (always (Response 200 (Some PNone))) true false)
                    (lit "GET") (lit "/health") None false
                    (mkClient default_base_url (Some (lit "tok123")) PNone PNone,
                     empty_world))))
  = [mkRequest GET (lit "http://localhost:5000/api/health")
       [(lit "Content-Type", lit "application/json");
        (lit "Authorization", lit "Bearer tok123")] None]
  /\ (forall q,
        In q (sent (snd (snd (_request
                                (runtime_with (always (Response 200 (Some PNone)))
                                   true false)
                                (lit "GET") (lit "/health") None false
                                (mkClient default_base_url (Some (lit "tok123"))
                                   PNone PNone,
                                 empty_world))))) ->
        In q [] \/ carries_bearer (lit "tok123") q)
  /\ token (fst (snd (register
                        (runtime_with
                           (always (Response 200 (Some mock_register_response)))
                           true false)
                        (lit "bot1") (lit "secret") (lit "a bot")
                        (fresh_client, empty_world))))
     = Some (lit "tok123")
  /\ (forall q,
        In q (sent (snd (snd (_request
                                (runtime_with (always (Response 200 (Some PNone)))
                                   true false)
                                (lit "GET") (lit "/health") None false
                                (mkClient default_base_url (Some []) PNone PNone,
                                 empty_world))))) ->
        In q [] \/ lookup (lit "Authorization") (req_headers q) = None).
Proof.
  split; [reflexivity|split; [|split]].
  3: exact (proj1 (proj2 (C5_bearer_header_attached
                    (runtime_with (always (Response 200 (Some PNone))) true false)))
             (lit "GET") (lit "/health") None false
             (mkClient default_base_url (Some []) PNone PNone)
             empty_world (or_intror eq_refl)).
  - exact (proj1 (C5_bearer_header_attached
                    (runtime_with (always (Response 200 (Some PNone))) true false))
             (lit "GET") (lit "/health") None false
             (mkClient default_base_url (Some (lit "tok123")) PNone PNone)
             empty_world 116%N (lit "ok123") eq_refl).
  - exact (proj1 (proj2 (proj2 (proj2 (C5_bearer_header_attached
                    (runtime_with
                       (always (Response 200 (Some mock_register_response)))
                       true false)))
             (lit "bot1") (lit "secret") (lit "a bot")
             fresh_client empty_world 200 eq_refl eq_refl))).
Defined.

(** ** C4: validation of the response *)

Lemma wp_request_ok rt m ep d a (Q : result pyval -> state -> Prop) s vb st v :
  a && negb (token_truthy (token (fst s))) = false ->
  verb rt m = Some vb ->
  (forall h q, server rt h q = Response st (Some v)) ->
  is_http_error st = false ->
  (forall q, Q (Ret v) (fst s, add_request q (snd s))) ->
  wp (_request rt m ep d a) Q s.
Proof.
  intros Hg Hv Hsrv Hst HQ. destruct s as [c w]. unfold wp.
  rewrite _request_spec. cbn [fst snd] in *. rewrite Hg.
  unfold request_of. rewrite Hv. unfold outcome. rewrite Hsrv, Hst. apply HQ.
Qed.

Lemma quote_ready query :
  negb (existsb is_surrogate query) = true ->
  quote query = Ret (flat_map percent_encode (flat_map utf8 query)).
Proof.
  unfold quote. intros H. apply negb_true_iff in H. rewrite H. reflexivity.
Qed.

Lemma absent_marker_not_accepted op v :
  marker_present op v = false -> marker_accepted op v = false.
Proof.
  unfold marker_present, marker_accepted.
  destruct (marker_of op), v; auto.
  destruct (lookup name d); [discriminate|reflexivity].
Qed.

Ltac split_hyps :=
  repeat match goal with
         | H : _ && _ = true |- _ => apply andb_prop in H as [? ?]
         end.

(** A lookup that the hypotheses say succeeds cannot have raised. *)
Ltac contra E :=
  exfalso; unfold has_key in *;
  repeat (cbn [py_getitem py_get py_contains rbind is_ret] in *;
          repeat match goal with
                 | H : lookup ?k ?d = _, H' : context [lookup ?k ?d] |- _ =>
                     rewrite H in H'
                 end);
  try discriminate;
  repeat match goal with
         | H : is_ret ?r = true |- _ => rewrite E in H; cbn [is_ret rbind] in H
         end;
  (discriminate || congruence).

Ltac must_ret :=
  match goal with
  | |- wp (lift ?r) _ _ =>
      apply wp_lift;
      let E := fresh "E" in
      destruct r eqn:E;
      [ try (cbn [py_getitem py_get py_contains rbind] in E;
             repeat match goal with
                    | H : lookup ?k ?d = _ |- _ => rewrite H in E
                    end;
             injection E as <-)
      | contra E ]
  end.

Ltac go :=
  repeat first [ must_ret
               | match goal with
                 | |- wp (if truthy ?x then _ else raise _) _ _ =>
                     let T := fresh "T" in
                     destruct (truthy x) eqn:T; [ | contra T ]
                 | |- wp (if ?b then _ else raise _) _ _ =>
                     let T := fresh "T" in
                     destruct b eqn:T; [ | contra T ]
                 end
               | wp_go ]; cbn [fst snd].

Ltac unfold_operations :=
  unfold register, login, post, get_posts, get_post, like_post, comment,
    follow_user, send_dm, get_trending, search, get_notifications, health_check.

Section Replies.

(** The server answers with status [st], outside 400..599, and a body that
    decodes to [v]. *)
Variables (rt : runtime) (st : Z) (v : pyval).
Hypothesis Hsrv : forall h q, server rt h q = Response st (Some v).
Hypothesis Hst : is_http_error st = false.

Ltac start :=
  match goal with
  | |- wp (bind (print _) _) _ _ => apply wp_bind, wp_print; cbn [fst snd]
  | H : negb (existsb is_surrogate ?q) = true |- wp (bind (lift (quote ?q)) _) _ _ =>
      apply wp_bind, wp_lift; rewrite (quote_ready q H)
  | |- wp (bind (_request _ _ _ _ _) _) _ _ =>
      apply wp_bind;
      eapply wp_request_ok;
      [ cbn [fst snd andb]; try reflexivity; try assumption
      | first [apply verb_GET | apply verb_POST]
      | exact Hsrv | exact Hst | intros ?; cbn [fst snd] ]
  end.

Lemma rejected_response op c w :
  ready op c = true -> shape_checked op v = true -> marker_accepted op v = false ->
  fst (run rt op (c, w)) = Raise (ResponseShapeError op).
Proof.
  intros Hr Hs Ha.
  change (wp (run rt op) (fun r _ => r = Raise (ResponseShapeError op)) (c, w)).
  unfold ready in Hr. apply andb_prop in Hr as [Hr1 Hr2].
  destruct op; cbn [auth_required negb orb] in Hr1; cbn [run]; unfold_operations.
  all: try (repeat start; [rewrite Hr1; reflexivity|]).
  all: try (repeat start).
  all: unfold marker_accepted, shape_checked in *; cbn [marker_of] in *.
  all: try (destruct v; try discriminate; apply wp_raise; reflexivity).
  all: try (destruct v as [| | | | |?|d]; try discriminate;
            apply wp_bind, wp_lift; cbn [py_get py_contains];
            destruct (lookup _ d); try discriminate; cbn [truthy]; rewrite ?Ha;
            apply wp_raise; reflexivity).
  unfold get_profile. apply wp_bind, wp_get_self. cbn [fst]. rewrite Hr2.
  cbn [negb]. repeat start.
  destruct v as [| | | | |?|d]; try discriminate;
    apply wp_bind, wp_lift; cbn [py_get py_contains];
    destruct (lookup _ d); try discriminate; cbn [truthy]; rewrite ?Ha;
    apply wp_raise; reflexivity.
Qed.

Ltac finish_ret :=
  match goal with
  | |- forall r', _ = Ret r' -> r' = v => intros ? ?
  | H : Raise _ = Ret _ |- _ => discriminate H
  | H : Ret ?x = Ret ?r', Hs : server rt _ _ = Response _ (Some ?x) |- ?r' = v =>
      injection H as <-; rewrite Hsrv in Hs; injection Hs as _ Hs;
      symmetry; exact Hs
  end.

Ltac walk :=
  repeat first
    [ finish_ret
    | match goal with
      | |- wp (for_each _ _) _ _ =>
          apply wp_for_each with (I := fun _ => True);
          [intros ? ? _ _|intros ? _|exact I]
      | |- wp (_request _ _ _ _ _) _ _ => apply wp_request; intros
      | |- True => exact I
      end
    | wp_go ]; cbn [fst snd].

Lemma returned_response op c w r' :
  fst (run rt op (c, w)) = Ret r' -> r' = v.
Proof.
  revert r'.
  change (wp (run rt op) (fun r _ => forall r', r = Ret r' -> r' = v) (c, w)).
  destruct op; cbn [run]; unfold_operations; unfold get_profile.
  all: repeat walk.
Qed.

Lemma accepted_response op c w :
  ready op c = true -> marker_accepted op v = true -> reads_succeed rt op v = true ->
  fst (run rt op (c, w)) = Ret v.
Proof.
  intros Hr Ha Hd.
  change (wp (run rt op) (fun r _ => r = Ret v) (c, w)).
  unfold ready in Hr. apply andb_prop in Hr as [Hr1 Hr2].
  unfold marker_accepted in Ha.
  destruct op; cbn [auth_required negb orb] in Hr1; cbn [run marker_of] in *;
    unfold_operations.
  all: try (repeat start; [rewrite Hr1; reflexivity|]).
  all: try (repeat start).
  all: destruct v as [| | | | |l|d] eqn:Ev; try discriminate.
  all: cbn [reads_succeed] in Hd; split_hyps.
  all: try (destruct (lookup _ d) as [x|] eqn:El; [|discriminate]).
  all: try solve [go; reflexivity].
  1, 2: destruct (lookup (lit "token") d) as [[| | | |t| |]|] eqn:Et;
        try discriminate; split_hyps; go; reflexivity.
  4: { unfold get_profile. apply wp_bind, wp_get_self. cbn [fst]. rewrite Hr2.
       cbn [negb]. repeat start. go; reflexivity. }
  all: apply wp_bind, wp_print, wp_bind; cbn [fst snd];
    [ apply wp_for_each with (I := fun _ => True);
      [ intros p s Hp _;
        pose proof (proj1 (forallb_forall _ _) Hd p Hp) as Hx; cbn beta in Hx;
        unfold shows_in_listing, notification_shows in Hx; split_hyps; go; exact I
      | intros s _; apply wp_ret; reflexivity
      | exact I ] ].
Qed.

(** C4, amended. The operation sends its request and the server's reply
    decodes to [v].  If the marker is absent from an object, or the reply is
    not an array where one is expected, the operation raises the exception
    named after it; it does the same when a marker read with [.get] ([user],
    [id], [status]) is there but falsy.  Whenever the operation returns, it
    returns [v] itself.  And it does return when the marker passes the test,
    the fields it goes on to print or store can be read and, for [register]
    and [login], the token is text that can be written to the token file;
    for [post], [comment], [send_dm], [like_post], [follow_user] and
    [health_check] this asks nothing more. *)
Theorem C4_marker_validation op c w :
  ready op c = true ->
  (shape_checked op v = true -> marker_present op v = false ->
     fst (run rt op (c, w)) = Raise (ResponseShapeError op))
  /\ (shape_checked op v = true -> marker_accepted op v = false ->
        fst (run rt op (c, w)) = Raise (ResponseShapeError op))
  /\ (forall r', fst (run rt op (c, w)) = Ret r' -> r' = v)
  /\ (marker_accepted op v = true -> reads_succeed rt op v = true ->
        fst (run rt op (c, w)) = Ret v).
Proof.
  intros Hr. repeat split.
  - intros Hs Hp. apply rejected_response; auto.
    apply absent_marker_not_accepted; exact Hp.
  - intros. apply rejected_response; auto.
  - intros. eapply returned_response; eauto.
  - intros. apply accepted_response; auto.
Qed.

End Replies.

(** C4, as stated, fails: a [status] field that is present but empty is
    rejected by [health_check], which tests [response.get("status")]. *)
Lemma C4_counterexample :
  let v := PDict [(lit "status", PStr [])] in
  let rt := runtime_with (always (Response 200 (Some v))) true false in
  marker_present HealthCheck v = true
  /\ fst (run rt HealthCheck (fresh_client, empty_world))
     = Raise (ResponseShapeError HealthCheck)
  /\ fst (run rt HealthCheck (fresh_client, empty_world)) <> Ret v.
Proof. cbv zeta. repeat split. discriminate. Qed.

Lemma C4_marker_validation_witness :
  fst (run (runtime_with
              (always (Response 200 (Some (PDict [(lit "status", PStr (lit "ok"))]))))
              true false)
         HealthCheck (fresh_client, empty_world))
  = Ret (PDict [(lit "status", PStr (lit "ok"))])
  /\ fst (run (runtime_with (always (Response 200 (Some (PDict [])))) true false)
            HealthCheck (fresh_client, empty_world))
     = Raise (ResponseShapeError HealthCheck).
Proof.
  split.
  - exact (proj2 (proj2 (proj2
             (C4_marker_validation
                (runtime_with
                   (always (Response 200
                              (Some (PDict [(lit "status", PStr (lit "ok"))]))))
                   true false)
                200 (PDict [(lit "status", PStr (lit "ok"))])
                (fun _ _ => eq_refl) eq_refl
                HealthCheck fresh_client empty_world eq_refl)))
             eq_refl eq_refl).
  - exact (proj1
             (C4_marker_validation
                (runtime_with (always (Response 200 (Some (PDict [])))) true false)
                200 (PDict [])
                (fun _ _ => eq_refl) eq_refl
                HealthCheck fresh_client empty_world eq_refl)
             eq_refl eq_refl).
Defined.

(** ** Exact runs *)

Lemma wp_eq {A} (m : M A) s x : wp m (fun r s' => (r, s') = x) s -> m s = x.
Proof. unfold wp. destruct (m s). auto. Qed.

Lemma wp_of_eq {A} (m : M A) (Q : result A -> state -> Prop) s r s' :
  m s = (r, s') -> Q r s' -> wp m Q s.
Proof. unfold wp. intros ->. auto. Qed.

Lemma print_all_nil w : print_all [] w = w.
Proof. destruct w. unfold print_all. cbn. rewrite app_nil_r. reflexivity. Qed.

Lemma print_all_app ls ls' w :
  print_all ls' (print_all ls w) = print_all (ls ++ ls') w.
Proof. unfold print_all. cbn. rewrite app_assoc. reflexivity. Qed.

Lemma add_line_print_all l w : add_line l w = print_all [l] w.
Proof. reflexivity. Qed.

(** A loop whose body only prints. *)
Lemma for_each_prints {A} (l : list A) (body : A -> M unit) (lines : A -> list line) :
  (forall x, In x l ->
     forall c w, body x (c, w) = (Ret tt, (c, print_all (lines x) w))) ->
  forall c w, for_each l body (c, w) = (Ret tt, (c, print_all (flat_map lines l) w)).
Proof.
  induction l as [|x l IH]; intros Hb c w; cbn [for_each flat_map].
  - rewrite print_all_nil. reflexivity.
  - unfold bind. rewrite (Hb x (or_introl eq_refl)).
    rewrite IH by (intros; apply Hb; right; assumption).
    rewrite print_all_app. reflexivity.
Qed.

Ltac use_values :=
  repeat match goal with
         | E : ?r = Ret _ |- context [?r] => rewrite E
         end; cbn [value_of].

Ltac same_output :=
  use_values; unfold print_all, add_line; cbn;
  repeat rewrite <- app_assoc; reflexivity.

Lemma listing_body head p c w :
  shows_in_listing p && has_key (lit "id") p = true ->
  (content <- lift (display_content p) ;;
   username <- lift (display_username p) ;;
   likes <- lift (display_likes p) ;;
   comments <- lift (display_comments p) ;;
   print [Lit head; Fmt username; Lit ": "; Fmt content] ;;
   id <- lift (py_getitem p (lit "id")) ;;
   print [Lit "   ❤️  "; Fmt likes; Lit " likes | 💬 "; Fmt comments;
          Lit " comments | 🆔 "; Fmt id] ;;
   print []) (c, w)
  = (Ret tt, (c, print_all (listing_lines head p) w)).
Proof.
  intros H. unfold shows_in_listing in H. split_hyps.
  apply wp_eq. go. unfold listing_lines. same_output.
Qed.

Lemma trending_body p c w :
  shows_in_listing p
  && is_ret (py_get p (lit "trendingScore") (PStr (lit "N/A"))) = true ->
  (content <- lift (display_content p) ;;
   username <- lift (display_username p) ;;
   likes <- lift (display_likes p) ;;
   comments <- lift (display_comments p) ;;
   score <- lift (py_get p (lit "trendingScore") (PStr (lit "N/A"))) ;;
   print [Lit "🔥 @"; Fmt username; Lit ": "; Fmt content] ;;
   print [Lit "   ❤️  "; Fmt likes; Lit " likes | 💬 "; Fmt comments;
          Lit " comments | 📈 Score: "; Fmt score] ;;
   print []) (c, w)
  = (Ret tt, (c, print_all (trending_lines p) w)).
Proof.
  intros H. unfold shows_in_listing in H. split_hyps.
  apply wp_eq. go. unfold trending_lines. same_output.
Qed.

Lemma wp_request_get rt ep (Q : result pyval -> state -> Prop) s st v :
  (forall h q, server rt h q = Response st (Some v)) ->
  is_http_error st = false ->
  Q (Ret v) (fst s, add_request (get_request (fst s) ep) (snd s)) ->
  wp (_request rt (lit "GET") ep None false) Q s.
Proof.
  intros Hsrv Hst HQ. destruct s as [c w]. unfold wp.
  rewrite _request_spec. cbn [fst snd andb] in *.
  unfold request_of. rewrite verb_GET. unfold outcome. rewrite Hsrv, Hst. apply HQ.
Qed.

Ltac fetch Hsrv Hst :=
  apply wp_eq;
  apply wp_bind, wp_print, wp_bind; cbn [fst snd];
  eapply wp_request_get; [exact Hsrv|exact Hst|]; cbn [fst snd].

Ltac listing Hok body_lemma lines :=
  apply wp_bind, wp_print, wp_bind; cbn [fst snd];
  eapply wp_of_eq;
  [ apply (for_each_prints _ _ lines);
    intros p Hp c' w'; apply body_lemma;
    exact (proj1 (forallb_forall _ _) Hok p Hp)
  | apply wp_ret; rewrite add_line_print_all, print_all_app; reflexivity ].

Lemma get_posts_run rt st limit offset c w posts :
  (forall h q, server rt h q = Response st (Some (PList posts))) ->
  is_http_error st = false ->
  forallb (fun p => shows_in_listing p && has_key (lit "id") p) posts = true ->
  get_posts rt limit offset (c, w)
  = (Ret (PList posts),
     (c, print_all
           ([Lit "✅ Posts retrieved successfully!"]
            :: flat_map (listing_lines "📝 @") posts)
           (add_request
              (get_request c (lit "/posts?limit=" ++ str_of_int limit
                              ++ lit "&offset=" ++ str_of_int offset))
              (add_line [Lit "ℹ️  Fetching "; Fmt (PInt limit); Lit " posts..."]
                 w)))).
Proof.
  intros Hsrv Hst Hok. unfold get_posts. fetch Hsrv Hst.
  listing Hok listing_body (listing_lines "📝 @").
Qed.

Lemma search_run rt st query limit c w posts encoded :
  (forall h q, server rt h q = Response st (Some (PList posts))) ->
  is_http_error st = false ->
  quote query = Ret encoded ->
  forallb (fun p => shows_in_listing p && has_key (lit "id") p) posts = true ->
  search rt query limit (c, w)
  = (Ret (PList posts),
     (c, print_all
           ([Lit "✅ Search results for '"; Fmt (PStr query); Lit "':"]
            :: flat_map (listing_lines "🔍 @") posts)
           (add_request
              (get_request c (lit "/search?q=" ++ encoded
                              ++ lit "&limit=" ++ str_of_int limit))
              (add_line [Lit "ℹ️  Searching for '"; Fmt (PStr query); Lit "'..."]
                 w)))).
Proof.
  intros Hsrv Hst Hq Hok. unfold search. apply wp_eq.
  apply wp_bind, wp_print, wp_bind, wp_lift. rewrite Hq. cbn [fst snd].
  apply wp_bind. eapply wp_request_get; [exact Hsrv|exact Hst|]; cbn [fst snd].
  listing Hok listing_body (listing_lines "🔍 @").
Qed.

Lemma get_trending_run rt st limit c w posts :
  (forall h q, server rt h q = Response st (Some (PList posts))) ->
  is_http_error st = false ->
  forallb (fun p => shows_in_listing p
                    && is_ret (py_get p (lit "trendingScore") (PStr (lit "N/A"))))
    posts = true ->
  get_trending rt limit (c, w)
  = (Ret (PList posts),
     (c, print_all
           ([Lit "✅ Trending posts retrieved!"] :: flat_map trending_lines posts)
           (add_request
              (get_request c (lit "/posts/trending?limit=" ++ str_of_int limit))
              (add_line [Lit "ℹ️  Fetching "; Fmt (PInt limit);
                         Lit " trending posts..."] w)))).
Proof.
  intros Hsrv Hst Hok. unfold get_trending. fetch Hsrv Hst.
  listing Hok trending_body trending_lines.
Qed.

Lemma get_post_run rt st v post_id c w :
  (forall h q, server rt h q = Response st (Some v)) ->
  is_http_error st = false ->
  marker_accepted (GetPost post_id) v = true ->
  reads_succeed rt (GetPost post_id) v = true ->
  get_post rt post_id (c, w)
  = (Ret v,
     (c, print_all (get_post_lines v)
           (add_request (get_request c (lit "/posts/" ++ post_id))
              (add_line [Lit "ℹ️  Fetching post "; Fmt (PStr post_id); Lit "..."]
                 w)))).
Proof.
  intros Hsrv Hst Ha Hd. unfold get_post. fetch Hsrv Hst.
  unfold marker_accepted in Ha. cbn [marker_of] in Ha.
  destruct v as [| | | | | |d] eqn:Ev; try discriminate.
  cbn [reads_succeed] in Hd. split_hyps.
  destruct (lookup (lit "id") d) as [x|] eqn:El; [|discriminate].
  go. unfold get_post_lines. same_output.
Qed.

(** ** Listings that stop early

    The body of a listing loop does nothing but print, so when the posts at
    the head of the list can be shown, their lines are on the output
    whatever happens further down the list. *)

Lemma print_all_add_line l ls w : add_line l (print_all ls w) = print_all (ls ++ [l]) w.
Proof. unfold add_line, print_all. cbn. rewrite app_assoc. reflexivity. Qed.

Ltac prints_step :=
  first [ wp_step
        | match goal with
          | |- exists more, _ = (_, print_all more _) => eexists; reflexivity
          end ];
  cbn [fst snd]; rewrite ?print_all_add_line.

Ltac only_prints c w :=
  match goal with
  | |- exists r more, ?m _ = _ =>
      let H := fresh "H" in
      assert (H : wp m (fun _ s' => exists more, s' = (c, print_all more w))
                    (c, print_all [] w)) by (repeat prints_step);
      rewrite print_all_nil in H; unfold wp in H;
      let more := fresh "more" in
      destruct H as [more H]; eexists; exists more;
      apply injective_projections; [reflexivity|exact H]
  end.

Lemma listing_body_only_prints head p c w :
  exists r more,
    (content <- lift (display_content p) ;;
     username <- lift (display_username p) ;;
     likes <- lift (display_likes p) ;;
     comments <- lift (display_comments p) ;;
     print [Lit head; Fmt username; Lit ": "; Fmt content] ;;
     id <- lift (py_getitem p (lit "id")) ;;
     print [Lit "   ❤️  "; Fmt likes; Lit " likes | 💬 "; Fmt comments;
            Lit " comments | 🆔 "; Fmt id] ;;
     print []) (c, w)
    = (r, (c, print_all more w)).
Proof. only_prints c w. Qed.

Lemma trending_body_only_prints p c w :
  exists r more,
    (content <- lift (display_content p) ;;
     username <- lift (display_username p) ;;
     likes <- lift (display_likes p) ;;
     comments <- lift (display_comments p) ;;
     score <- lift (py_get p (lit "trendingScore") (PStr (lit "N/A"))) ;;
     print [Lit "🔥 @"; Fmt username; Lit ": "; Fmt content] ;;
     print [Lit "   ❤️  "; Fmt likes; Lit " likes | 💬 "; Fmt comments;
            Lit " comments | 📈 Score: "; Fmt score] ;;
     print []) (c, w)
    = (r, (c, print_all more w)).
Proof. only_prints c w. Qed.

Lemma for_each_only_prints {A} (l : list A) (body : A -> M unit) c :
  (forall x w, exists r more, body x (c, w) = (r, (c, print_all more w))) ->
  forall w, exists r more, for_each l body (c, w) = (r, (c, print_all more w)).
Proof.
  intros Hb. induction l as [|x l IH]; intros w; cbn [for_each].
  - exists (Ret tt), []. rewrite print_all_nil. reflexivity.
  - destruct (Hb x w) as [[[]|e] [m1 E1]]; unfold bind; rewrite E1.
    + destruct (IH (print_all m1 w)) as [r [m2 E2]]. rewrite E2, print_all_app.
      eauto.
    + eauto.
Qed.

Lemma for_each_split {A} (l1 l2 : list A) (body : A -> M unit) s :
  for_each (l1 ++ l2) body s
  = bind (for_each l1 body) (fun _ => for_each l2 body) s.
Proof.
  revert s. induction l1 as [|x l1 IH]; intros s; cbn [app for_each].
  - reflexivity.
  - unfold bind. destruct (body x s) as [[[]|e] s'].
    + rewrite IH. reflexivity.
    + reflexivity.
Qed.

(** A loop over [good ++ rest] whose body shows the lines of every element
    of [good]: whatever happens in [rest], those lines have been printed. *)
Lemma loop_shows_prefix {A} (good rest : list A) (body : A -> M unit)
    (lines : A -> list line) c w :
  (forall x, In x good ->
     forall c w, body x (c, w) = (Ret tt, (c, print_all (lines x) w))) ->
  (forall x w, exists r more, body x (c, w) = (r, (c, print_all more w))) ->
  exists r more,
    for_each (good ++ rest) body (c, w)
    = (r, (c, print_all (flat_map lines good ++ more) w)).
Proof.
  intros Hg Hb. rewrite for_each_split. unfold bind.
  rewrite (for_each_prints good body lines Hg).
  destruct (for_each_only_prints rest body c Hb (print_all (flat_map lines good) w))
    as [r [more E]].
  rewrite E, print_all_app. eauto.
Qed.

Lemma printed_next_intro w intro q header ls more :
  printed_next w (intro :: header :: ls)
    (print_all (ls ++ more) (add_line header (add_request q (add_line intro w)))).
Proof. exists more. cbn. repeat rewrite <- app_assoc. reflexivity. Qed.

(** The loop of a listing, entered after the first line, the request and
    the heading. *)
Ltac shows_prefix Hok good rest lines body_lemma only_prints_lemma :=
  apply wp_bind, wp_print, wp_bind; cbn [fst snd];
  match goal with
  | |- wp (for_each _ ?body) _ (?c0, ?w0) =>
      let r := fresh "r" in
      let more := fresh "more" in
      let E := fresh "E" in
      destruct (loop_shows_prefix good rest body lines c0 w0) as [r [more E]];
      [ intros p Hp c' w'; apply body_lemma;
        exact (proj1 (forallb_forall _ _) Hok p Hp)
      | intros p w'; apply only_prints_lemma
      | eapply wp_of_eq; [exact E|];
        destruct r; [apply wp_ret|]; apply printed_next_intro ]
  end.

Lemma get_posts_shows_prefix rt st limit offset c w good rest :
  (forall h q, server rt h q = Response st (Some (PList (good ++ rest)))) ->
  is_http_error st = false ->
  forallb (fun p => shows_in_listing p && has_key (lit "id") p) good = true ->
  printed_next w
    ([Lit "ℹ️  Fetching "; Fmt (PInt limit); Lit " posts..."]
     :: [Lit "✅ Posts retrieved successfully!"]
     :: flat_map (listing_lines "📝 @") good)
    (snd (snd (get_posts rt limit offset (c, w)))).
Proof.
  intros Hsrv Hst Hok.
  change (wp (get_posts rt limit offset)
            (fun _ s' =>
               printed_next w
                 ([Lit "ℹ️  Fetching "; Fmt (PInt limit); Lit " posts..."]
                  :: [Lit "✅ Posts retrieved successfully!"]
                  :: flat_map (listing_lines "📝 @") good) (snd s')) (c, w)).
  unfold get_posts.
  apply wp_bind, wp_print, wp_bind; cbn [fst snd].
  eapply wp_request_get; [exact Hsrv|exact Hst|]; cbn [fst snd].
  shows_prefix Hok good rest (listing_lines "📝 @") listing_body
    listing_body_only_prints.
Qed.

Lemma search_shows_prefix rt st query limit c w good rest :
  (forall h q, server rt h q = Response st (Some (PList (good ++ rest)))) ->
  is_http_error st = false ->
  existsb is_surrogate query = false ->
  forallb (fun p => shows_in_listing p && has_key (lit "id") p) good = true ->
  printed_next w
    ([Lit "ℹ️  Searching for '"; Fmt (PStr query); Lit "'..."]
     :: [Lit "✅ Search results for '"; Fmt (PStr query); Lit "':"]
     :: flat_map (listing_lines "🔍 @") good)
    (snd (snd (search rt query limit (c, w)))).
Proof.
  intros Hsrv Hst Hq Hok.
  change (wp (search rt query limit)
            (fun _ s' =>
               printed_next w
                 ([Lit "ℹ️  Searching for '"; Fmt (PStr query); Lit "'..."]
                  :: [Lit "✅ Search results for '"; Fmt (PStr query); Lit "':"]
                  :: flat_map (listing_lines "🔍 @") good) (snd s')) (c, w)).
  unfold search.
  apply wp_bind, wp_print, wp_bind, wp_lift. unfold quote. rewrite Hq.
  cbn [fst snd]. apply wp_bind.
  eapply wp_request_get; [exact Hsrv|exact Hst|]; cbn [fst snd].
  shows_prefix Hok good rest (listing_lines "🔍 @") listing_body
    listing_body_only_prints.
Qed.

Lemma get_trending_shows_prefix rt st limit c w good rest :
  (forall h q, server rt h q = Response st (Some (PList (good ++ rest)))) ->
  is_http_error st = false ->
  forallb (fun p => shows_in_listing p
                    && is_ret (py_get p (lit "trendingScore") (PStr (lit "N/A"))))
    good = true ->
  printed_next w
    ([Lit "ℹ️  Fetching "; Fmt (PInt limit); Lit " trending posts..."]
     :: [Lit "✅ Trending posts retrieved!"]
     :: flat_map trending_lines good)
    (snd (snd (get_trending rt limit (c, w)))).
Proof.
  intros Hsrv Hst Hok.
  change (wp (get_trending rt limit)
            (fun _ s' =>
               printed_next w
                 ([Lit "ℹ️  Fetching "; Fmt (PInt limit); Lit " trending posts..."]
                  :: [Lit "✅ Trending posts retrieved!"]
                  :: flat_map trending_lines good) (snd s')) (c, w)).
  unfold get_trending.
  apply wp_bind, wp_print, wp_bind; cbn [fst snd].
  eapply wp_request_get; [exact Hsrv|exact Hst|]; cbn [fst snd].
  shows_prefix Hok good rest trending_lines trending_body
    trending_body_only_prints.
Qed.

(** ** C6: author and counts *)

Lemma display_count_primary post field alt :
  absent_or_truthy field post = true ->
  display_count (PDict post) field alt = Ret (specified_count post field alt).
Proof.
  unfold absent_or_truthy, display_count, specified_count. cbn [py_get rbind].
  destruct (lookup field post) as [n|]; cbn [truthy]; [intros ->|intros _]; reflexivity.
Qed.

Lemma display_count_fallback post field alt :
  present_but_falsy field post = true ->
  display_count (PDict post) field alt
  = Ret (match lookup alt post with Some n => n | None => PInt 0 end).
Proof.
  unfold present_but_falsy, display_count. cbn [py_get rbind].
  destruct (lookup field post) as [n|]; [|discriminate].
  intros H. apply negb_true_iff in H. rewrite H. reflexivity.
Qed.

Lemma display_username_primary post :
  absent_or_truthy (lit "username") post = true ->
  (lookup (lit "username") post = None -> author_is_object post = true) ->
  display_username (PDict post) = Ret (specified_username post).
Proof.
  unfold absent_or_truthy, author_is_object, display_username, specified_username.
  cbn [py_get rbind].
  destruct (lookup (lit "username") post) as [u|]; cbn [truthy].
  - intros -> _. reflexivity.
  - intros _ H. specialize (H eq_refl).
    destruct (lookup (lit "author") post) as [[| | | | | |a]|];
      try discriminate; reflexivity.
Qed.

Lemma display_username_fallback post :
  present_but_falsy (lit "username") post = true ->
  author_is_object post = true ->
  display_username (PDict post)
  = Ret (match lookup (lit "author") post with
         | Some (PDict a) =>
             match lookup (lit "username") a with
             | Some u => u
             | None => PStr (lit "unknown")
             end
         | _ => PStr (lit "unknown")
         end).
Proof.
  unfold present_but_falsy, author_is_object, display_username.
  cbn [py_get rbind].
  destruct (lookup (lit "username") post) as [u|]; [|discriminate].
  intros H. apply negb_true_iff in H. rewrite H.
  destruct (lookup (lit "author") post) as [[| | | | | |a]|];
    try discriminate; reflexivity.
Qed.

(** C6, as stated, fails: with ["username": ""] and ["likes": 0] present
    next to [author.username] and [likeCount], [get_post] shows the author's
    name and [likeCount], not the fields that are present. *)
Lemma C6_counterexample :
  let post := [(lit "id", PStr (lit "p1"));
               (lit "content", PStr (lit "hi"));
               (lit "createdAt", PStr (lit "today"));
               (lit "username", PStr []);
               (lit "author", PDict [(lit "username", PStr (lit "alice"))]);
               (lit "likes", PInt 0);
               (lit "likeCount", PInt 7)] in
  let rt := runtime_with (always (Response 200 (Some (PDict post)))) true false in
  stdout (snd (snd (get_post rt (lit "p1") (fresh_client, empty_world))))
  = [ [Lit "ℹ️  Fetching post "; Fmt (PStr (lit "p1")); Lit "..."];
      [Lit "✅ Post retrieved successfully!"];
      [Lit "📝 @"; Fmt (PStr (lit "alice")); Lit ": "; Fmt (PStr (lit "hi"))];
      [Lit "   ❤️  "; Fmt (PInt 7); Lit " likes | 💬 "; Fmt (PInt 0);
       Lit " comments"];
      [Lit "   📅 Created: "; Fmt (PStr (lit "today"))] ]
  /\ specified_username post = PStr []
  /\ specified_count post (lit "likes") (lit "likeCount") = PInt 0
  /\ display_username (PDict post) <> Ret (specified_username post)
  /\ display_likes (PDict post) <> Ret (specified_count post (lit "likes") (lit "likeCount")).
Proof. cbv zeta. repeat split; vm_compute; discriminate. Qed.

(** C6, amended. For a post that is a JSON object: the author shown is
    [username] when that field is present and truthy; when it is absent or
    falsy it is [author.username] ([author] being an object or absent), and
    ["unknown"] when that is absent too.  A count shown is [likes]
    ([comments]) when present and truthy; when absent or falsy it is
    [likeCount] ([commentCount]) if present and 0 otherwise.  These are the
    values printed wherever a post is displayed: by [get_post] for the post
    it fetched, and by [get_posts], [search] and [get_trending] for every
    post of the list they received, however long; when a post further down
    the list cannot be shown, they are still the values printed for the
    posts before it. *)
Theorem C6_display_resolution post :
  (absent_or_truthy (lit "username") post = true ->
     (lookup (lit "username") post = None -> author_is_object post = true) ->
     display_username (PDict post) = Ret (specified_username post))
  /\ (present_but_falsy (lit "username") post = true ->
        author_is_object post = true ->
        display_username (PDict post)
        = Ret (match lookup (lit "author") post with
               | Some (PDict a) =>
                   match lookup (lit "username") a with
                   | Some u => u
                   | None => PStr (lit "unknown")
                   end
               | _ => PStr (lit "unknown")
               end))
  /\ (forall field alt,
        (absent_or_truthy field post = true ->
           display_count (PDict post) field alt = Ret (specified_count post field alt))
        /\ (present_but_falsy field post = true ->
              display_count (PDict post) field alt
              = Ret (match lookup alt post with Some n => n | None => PInt 0 end)))
  /\ (forall rt st post_id c w,
        (forall h q, server rt h q = Response st (Some (PDict post))) ->
        is_http_error st = false ->
        marker_accepted (GetPost post_id) (PDict post) = true ->
        reads_succeed rt (GetPost post_id) (PDict post) = true ->
        get_post rt post_id (c, w)
        = (Ret (PDict post),
           (c, print_all (get_post_lines (PDict post))
                 (add_request (get_request c (lit "/posts/" ++ post_id))
                    (add_line [Lit "ℹ️  Fetching post "; Fmt (PStr post_id);
                               Lit "..."] w)))))
  /\ (forall rt st posts c w,
        (forall h q, server rt h q = Response st (Some (PList posts))) ->
        is_http_error st = false ->
        (forallb (fun p => shows_in_listing p && has_key (lit "id") p) posts = true ->
           (forall limit offset,
               get_posts rt limit offset (c, w)
               = (Ret (PList posts),
                  (c, print_all
                        ([Lit "✅ Posts retrieved successfully!"]
                         :: flat_map (listing_lines "📝 @") posts)
                        (add_request
                           (get_request c (lit "/posts?limit=" ++ str_of_int limit
                                           ++ lit "&offset=" ++ str_of_int offset))
                           (add_line [Lit "ℹ️  Fetching "; Fmt (PInt limit);
                                      Lit " posts..."] w)))))
           /\ (forall query limit encoded,
                 quote query = Ret encoded ->
                 search rt query limit (c, w)
                 = (Ret (PList posts),
                    (c, print_all
                          ([Lit "✅ Search results for '"; Fmt (PStr query);
                            Lit "':"]
                           :: flat_map (listing_lines "🔍 @") posts)
                          (add_request
                             (get_request c (lit "/search?q=" ++ encoded
                                             ++ lit "&limit=" ++ str_of_int limit))
                             (add_line [Lit "ℹ️  Searching for '";
                                        Fmt (PStr query); Lit "'..."] w))))))
        /\ (forallb (fun p => shows_in_listing p
                              && is_ret (py_get p (lit "trendingScore")
                                           (PStr (lit "N/A")))) posts = true ->
            forall limit,
              get_trending rt limit (c, w)
              = (Ret (PList posts),
                 (c, print_all
                       ([Lit "✅ Trending posts retrieved!"]
                        :: flat_map trending_lines posts)
                       (add_request
                          (get_request c (lit "/posts/trending?limit="
                                          ++ str_of_int limit))
                          (add_line [Lit "ℹ️  Fetching "; Fmt (PInt limit);
                                     Lit " trending posts..."] w))))))
  /\ (forall rt st good rest c w,
        (forall h q, server rt h q = Response st (Some (PList (good ++ rest)))) ->
        is_http_error st = false ->
        (forallb (fun p => shows_in_listing p && has_key (lit "id") p) good = true ->
           (forall limit offset,
               printed_next w
                 ([Lit "ℹ️  Fetching "; Fmt (PInt limit); Lit " posts..."]
                  :: [Lit "✅ Posts retrieved successfully!"]
                  :: flat_map (listing_lines "📝 @") good)
                 (snd (snd (get_posts rt limit offset (c, w)))))
           /\ (forall query limit,
                 existsb is_surrogate query = false ->
                 printed_next w
                   ([Lit "ℹ️  Searching for '"; Fmt (PStr query); Lit "'..."]
                    :: [Lit "✅ Search results for '"; Fmt (PStr query); Lit "':"]
                    :: flat_map (listing_lines "🔍 @") good)
                   (snd (snd (search rt query limit (c, w))))))
        /\ (forallb (fun p => shows_in_listing p
                              && is_ret (py_get p (lit "trendingScore")
                                           (PStr (lit "N/A")))) good = true ->
            forall limit,
              printed_next w
                ([Lit "ℹ️  Fetching "; Fmt (PInt limit); Lit " trending posts..."]
                 :: [Lit "✅ Trending posts retrieved!"]
                 :: flat_map trending_lines good)
                (snd (snd (get_trending rt limit (c, w))))))
  /\ (forall head,
        absent_or_truthy (lit "username") post = true ->
        (lookup (lit "username") post = None -> author_is_object post = true) ->
        absent_or_truthy (lit "likes") post = true ->
        absent_or_truthy (lit "comments") post = true ->
        listing_lines head (PDict post)
        = [ [Lit head; Fmt (specified_username post); Lit ": ";
             Fmt (value_of (display_content (PDict post)))];
            [Lit "   ❤️  ";
             Fmt (specified_count post (lit "likes") (lit "likeCount"));
             Lit " likes | 💬 ";
             Fmt (specified_count post (lit "comments") (lit "commentCount"));
             Lit " comments | 🆔 ";
             Fmt (value_of (py_getitem (PDict post) (lit "id")))];
            [] ]).
Proof.
  split; [apply display_username_primary|].
  split; [apply display_username_fallback|].
  split; [intros; split; [apply display_count_primary|apply display_count_fallback]|].
  split; [|split; [|split]].
  - intros. eapply get_post_run; eassumption.
  - intros rt st posts c w Hsrv Hst. split.
    + intros Hok. split; intros.
      * apply (get_posts_run rt st); assumption.
      * apply (search_run rt st); assumption.
    + intros Hok limit. apply (get_trending_run rt st); assumption.
  - intros rt st good rest c w Hsrv Hst. split.
    + intros Hok. split; intros.
      * apply (get_posts_shows_prefix rt st _ _ _ _ good rest); assumption.
      * apply (search_shows_prefix rt st _ _ _ _ good rest); assumption.
    + intros Hok limit.
      apply (get_trending_shows_prefix rt st _ _ _ good rest); assumption.
  - intros head Hu Ha Hl Hc. unfold listing_lines, display_likes, display_comments.
    rewrite (display_username_primary post Hu Ha),
      (display_count_primary post _ _ Hl), (display_count_primary post _ _ Hc).
    reflexivity.
Qed.

Lemma C6_display_resolution_witness :
  display_username example_post = Ret (PStr (lit "alice"))
  /\ display_likes example_post = Ret (PInt 3)
  /\ display_comments example_post = Ret (PInt 0)
  /\ stdout (snd (snd (get_trending
                         (runtime_with
                            (always (Response 200
                                       (Some (PList [example_post; example_post]))))
                            true false)
                         10 (fresh_client, empty_world))))
     = [ [Lit "ℹ️  Fetching "; Fmt (PInt 10); Lit " trending posts..."];
         [Lit "✅ Trending posts retrieved!"];
         [Lit "🔥 @"; Fmt (PStr (lit "alice")); Lit ": ";
          Fmt (PStr (xs 100 ++ lit "..."))];
         [Lit "   ❤️  "; Fmt (PInt 3); Lit " likes | 💬 "; Fmt (PInt 0);
          Lit " comments | 📈 Score: "; Fmt (PStr (lit "N/A"))];
         [];
         [Lit "🔥 @"; Fmt (PStr (lit "alice")); Lit ": ";
          Fmt (PStr (xs 100 ++ lit "..."))];
         [Lit "   ❤️  "; Fmt (PInt 3); Lit " likes | 💬 "; Fmt (PInt 0);
          Lit " comments | 📈 Score: "; Fmt (PStr (lit "N/A"))];
         [] ].
Proof.
  split; [|split; [|split]].
  4: { rewrite (proj2 (proj1 (proj2 (proj2 (proj2 (proj2
                                                       (C6_display_resolution [])))))
                         (runtime_with
                            (always (Response 200
                                       (Some (PList [example_post; example_post]))))
                            true false)
                         200 [example_post; example_post] fresh_client empty_world
                         (fun _ _ => eq_refl) eq_refl)
                  eq_refl 10).
       reflexivity. }
  - exact (proj1 (C6_display_resolution
                    [(lit "id", PStr (lit "p1"));
                     (lit "content", PStr (xs 150));
                     (lit "author", PDict [(lit "username", PStr (lit "alice"))]);
                     (lit "likeCount", PInt 3)])
             eq_refl (fun _ => eq_refl)).
  - exact (proj1 (proj1 (proj2 (proj2 (C6_display_resolution
                    [(lit "id", PStr (lit "p1"));
                     (lit "content", PStr (xs 150));
                     (lit "author", PDict [(lit "username", PStr (lit "alice"))]);
                     (lit "likeCount", PInt 3)])))
                    (lit "likes") (lit "likeCount")) eq_refl).
  - exact (proj1 (proj1 (proj2 (proj2 (C6_display_resolution
                    [(lit "id", PStr (lit "p1"));
                     (lit "content", PStr (xs 150));
                     (lit "author", PDict [(lit "username", PStr (lit "alice"))]);
                     (lit "likeCount", PInt 3)])))
                    (lit "comments") (lit "commentCount")) eq_refl).
Defined.

(** ** C7: truncation of the content *)

Lemma display_content_long p s :
  py_getitem p (lit "content") = Ret (PStr s) ->
  (100 <? Z.of_nat (List.length s)) = true ->
  display_content p = Ret (PStr (firstn 100 s ++ lit "...")).
Proof.
  intros Hc Hl. unfold display_content. rewrite Hc. cbn [rbind py_len].
  rewrite Hl. reflexivity.
Qed.

Lemma display_content_short p s :
  py_getitem p (lit "content") = Ret (PStr s) ->
  (100 <? Z.of_nat (List.length s)) = false ->
  display_content p = Ret (PStr s).
Proof.
  intros Hc Hl. unfold display_content. rewrite Hc. cbn [rbind py_len].
  rewrite Hl. reflexivity.
Qed.

(** C7, as stated, fails: [get_post] prints the content of the post it
    fetched in full, however long. *)
Lemma C7_counterexample :
  let post := PDict [(lit "id", PStr (lit "p1"));
                     (lit "content", PStr (xs 150));
                     (lit "createdAt", PStr (lit "today"));
                     (lit "author", PDict [(lit "username", PStr (lit "alice"))]);
                     (lit "likeCount", PInt 3)] in
  let rt := runtime_with (always (Response 200 (Some post))) true false in
  stdout (snd (snd (get_post rt (lit "p1") (fresh_client, empty_world))))
  = [ [Lit "ℹ️  Fetching post "; Fmt (PStr (lit "p1")); Lit "..."];
      [Lit "✅ Post retrieved successfully!"];
      [Lit "📝 @"; Fmt (PStr (lit "alice")); Lit ": "; Fmt (PStr (xs 150))];
      [Lit "   ❤️  "; Fmt (PInt 3); Lit " likes | 💬 "; Fmt (PInt 0);
       Lit " comments"];
      [Lit "   📅 Created: "; Fmt (PStr (lit "today"))] ]
  /\ List.length (xs 150) = 150%nat
  /\ xs 150 <> firstn 100 (xs 150) ++ lit "...".
Proof. cbv zeta. repeat split. vm_compute. discriminate. Qed.

(** C7, amended. In the listings ([get_posts], [search], [get_trending]) a
    content string longer than 100 characters is shown as its first 100
    characters followed by ["..."], a shorter one as it is; the operation
    returns the list it received, contents untouched.  ([get_post] shows the
    content in full.) *)
Theorem C7_listing_truncates_display_only rt st posts c w :
  (forall h q, server rt h q = Response st (Some (PList posts))) ->
  is_http_error st = false ->
  (forallb (fun p => shows_in_listing p && has_key (lit "id") p) posts = true ->
     (forall limit offset,
         get_posts rt limit offset (c, w)
         = (Ret (PList posts),
            (c, print_all
                  ([Lit "✅ Posts retrieved successfully!"]
                   :: flat_map (listing_lines "📝 @") posts)
                  (add_request
                     (get_request c (lit "/posts?limit=" ++ str_of_int limit
                                     ++ lit "&offset=" ++ str_of_int offset))
                     (add_line [Lit "ℹ️  Fetching "; Fmt (PInt limit);
                                Lit " posts..."] w)))))
     /\ (forall query limit encoded,
           quote query = Ret encoded ->
           search rt query limit (c, w)
           = (Ret (PList posts),
              (c, print_all
                    ([Lit "✅ Search results for '"; Fmt (PStr query); Lit "':"]
                     :: flat_map (listing_lines "🔍 @") posts)
                    (add_request
                       (get_request c (lit "/search?q=" ++ encoded
                                       ++ lit "&limit=" ++ str_of_int limit))
                       (add_line [Lit "ℹ️  Searching for '"; Fmt (PStr query);
                                  Lit "'..."] w))))))
  /\ (forallb (fun p => shows_in_listing p
                        && is_ret (py_get p (lit "trendingScore")
                                     (PStr (lit "N/A")))) posts = true ->
      forall limit,
        get_trending rt limit (c, w)
        = (Ret (PList posts),
           (c, print_all
                 ([Lit "✅ Trending posts retrieved!"]
                  :: flat_map trending_lines posts)
                 (add_request
                    (get_request c (lit "/posts/trending?limit="
                                    ++ str_of_int limit))
                    (add_line [Lit "ℹ️  Fetching "; Fmt (PInt limit);
                               Lit " trending posts..."] w)))))
  /\ (forall p s,
        In p posts ->
        py_getitem p (lit "content") = Ret (PStr s) ->
        value_of (display_content p)
        = if 100 <? Z.of_nat (List.length s)
          then PStr (firstn 100 s ++ lit "...")
          else PStr s).
Proof.
  intros Hsrv Hst. split; [|split].
  - intros Hok. split; intros.
    + apply (get_posts_run rt st); assumption.
    + apply (search_run rt st); assumption.
  - intros Hok limit. apply (get_trending_run rt st); assumption.
  - intros p s _ Hc.
    destruct (100 <? Z.of_nat (List.length s)) eqn:Hl.
    + rewrite (display_content_long p s Hc Hl). reflexivity.
    + rewrite (display_content_short p s Hc Hl). reflexivity.
Qed.

Lemma C7_listing_truncates_witness :
  get_posts (runtime_with (always (Response 200 (Some (PList [example_post]))))
               true false) 10 0 (fresh_client, empty_world)
  = (Ret (PList [example_post]),
     (fresh_client,
      mkWorld None
        [ [Lit "ℹ️  Fetching "; Fmt (PInt 10); Lit " posts..."];
          [Lit "✅ Posts retrieved successfully!"];
          [Lit "📝 @"; Fmt (PStr (lit "alice")); Lit ": ";
           Fmt (PStr (xs 100 ++ lit "..."))];
          [Lit "   ❤️  "; Fmt (PInt 3); Lit " likes | 💬 "; Fmt (PInt 0);
           Lit " comments | 🆔 "; Fmt (PStr (lit "p1"))];
          [] ]
        [mkRequest GET (lit "http://localhost:5000/api/posts?limit=10&offset=0")
           [(lit "Content-Type", lit "application/json")] None])).
Proof.
  rewrite (proj1 (proj1 (C7_listing_truncates_display_only
                           (runtime_with
                              (always (Response 200 (Some (PList [example_post]))))
                              true false)
                           200 [example_post] fresh_client empty_world
                           (fun _ _ => eq_refl) eq_refl)
                    eq_refl) 10 0).
  reflexivity.
Defined.

(** ** C9: exit statuses *)

(** *** Pure expressions raise ordinary exceptions only *)

Lemma pure_ret {A} (a : A) : pure (Ret a).
Proof. intros e H. discriminate. Qed.

Lemma pure_rbind {A B} (r : result A) (k : A -> result B) :
  pure r -> (forall a, pure (k a)) -> pure (rbind r k).
Proof.
  intros Hr Hk e. destruct r as [a|e']; cbn [rbind].
  - apply Hk.
  - intros H. injection H as <-. apply Hr. reflexivity.
Qed.

Lemma pure_py_get v k d : pure (py_get v k d).
Proof. destruct v; intros e H; cbn in H; try discriminate; injection H as <-; reflexivity. Qed.

Lemma pure_py_getitem v k : pure (py_getitem v k).
Proof.
  destruct v; intros e H; cbn in H; try (injection H as <-; reflexivity).
  destruct (lookup k d); [discriminate|injection H as <-; reflexivity].
Qed.

Lemma pure_py_contains k v : pure (py_contains k v).
Proof. destruct v; intros e H; cbn in H; try discriminate; injection H as <-; reflexivity. Qed.

Lemma pure_py_len v : pure (py_len v).
Proof. destruct v; intros e H; cbn in H; try discriminate; injection H as <-; reflexivity. Qed.

Lemma pure_py_truncate v : pure (py_truncate v).
Proof. destruct v; intros e H; cbn in H; try discriminate; injection H as <-; reflexivity. Qed.

Lemma pure_notification_icon v : pure (notification_icon v).
Proof. destruct v; intros e H; cbn in H; try discriminate; injection H as <-; reflexivity. Qed.

Lemma pure_quote s : pure (quote s).
Proof.
  unfold quote. intros e H. destruct (existsb is_surrogate s); [|discriminate].
  injection H as <-. reflexivity.
Qed.

Create HintDb pure.
#[local] Hint Resolve pure_ret pure_py_get pure_py_getitem pure_py_contains
  pure_py_len pure_py_truncate pure_notification_icon pure_quote : pure.

Lemma pure_if {A} (b : bool) (x y : result A) : pure x -> pure y -> pure (if b then x else y).
Proof. destruct b; auto. Qed.

Lemma pure_display_username p : pure (display_username p).
Proof.
  unfold display_username. apply pure_rbind; auto with pure.
  intros u. apply pure_if; auto with pure. apply pure_rbind; auto with pure.
Qed.

Lemma pure_display_count p f a : pure (display_count p f a).
Proof.
  unfold display_count. apply pure_rbind; auto with pure.
  intros u. apply pure_if; auto with pure.
Qed.

Lemma pure_display_content p : pure (display_content p).
Proof.
  unfold display_content. repeat (apply pure_rbind; auto with pure; intros).
  apply pure_if; auto with pure.
Qed.

#[local] Hint Resolve pure_display_username pure_display_count pure_display_content : pure.

Lemma pure_display_likes p : pure (display_likes p).
Proof. unfold display_likes. auto with pure. Qed.
Lemma pure_display_comments p : pure (display_comments p).
Proof. unfold display_comments. auto with pure. Qed.
#[local] Hint Resolve pure_display_likes pure_display_comments : pure.

(** *** A [SystemExit] comes from the executor only *)

Lemma exits_cleanly_ret {A} (a : A) s : exits_cleanly (Ret a) s.
Proof. intros code H. discriminate. Qed.

Lemma exits_cleanly_exception {A} e s :
  is_Exception e = true -> exits_cleanly (@Raise A e) s.
Proof. intros He code H. injection H as ->. discriminate. Qed.

Lemma exits_cleanly_failed {A} c e w :
  exits_cleanly (@Raise A (SystemExit 1))
    (c, add_line [Lit "❌ API request failed: "; FmtExn e] w).
Proof. intros code H. injection H as <-. split; [reflexivity|]. exists e, w. reflexivity. Qed.

Lemma wp_lift_pure {A} (r : result A) (Q : result A -> state -> Prop) s :
  pure r ->
  (forall a, r = Ret a -> Q (Ret a) s) ->
  (forall e, is_Exception e = true -> Q (Raise e) s) ->
  wp (lift r) Q s.
Proof. intros Hp Hr He. unfold wp, lift. cbn. destruct r; auto. Qed.

Ltac prove_pure :=
  solve [ auto with pure ]
  || (apply pure_rbind; [prove_pure | intros; prove_pure]).

Lemma logout_spec c w :
  logout (c, w)
  = (Ret tt, (mkClient (base_url c) None PNone PNone,
              mkWorld None (stdout w ++ [[Lit "✅ Logged out successfully"]]) (sent w))).
Proof.
  unfold logout, bind, token_file_exists. destruct w as [[text|] out sn]; reflexivity.
Qed.

Lemma wp_logout (Q : result unit -> state -> Prop) s :
  Q (Ret tt) (mkClient (base_url (fst s)) None PNone PNone,
              mkWorld None (stdout (snd s) ++ [[Lit "✅ Logged out successfully"]])
                (sent (snd s))) ->
  wp logout Q s.
Proof. destruct s as [c w]. unfold wp. rewrite logout_spec. auto. Qed.

Ltac clean_step :=
  match goal with
  | |- exits_cleanly (Ret _) _ => apply exits_cleanly_ret
  | |- exits_cleanly (Raise (SystemExit 1)) _ => apply exits_cleanly_failed
  | H : is_Exception ?e = true |- exits_cleanly (Raise ?e) _ =>
      apply exits_cleanly_exception; exact H
  | |- exits_cleanly (Raise _) _ => apply exits_cleanly_exception; reflexivity
  | |- True => exact I
  | |- wp (lift ?r) _ _ =>
      apply wp_lift_pure; [prove_pure | intros ? _ | intros ? ?]
  | |- wp (for_each _ _) _ _ =>
      apply wp_for_each with (I := fun _ => True);
      [intros ? ? _ _|intros ? _|exact I]
  | |- wp (_request _ _ _ _ _) _ _ => apply wp_request; intros
  | |- wp logout _ _ => apply wp_logout
  | _ => wp_go
  end; cbn [fst snd].

Lemma dispatch_exits_cleanly rt argv s : wp (dispatch rt argv) exits_cleanly s.
Proof.
  unfold dispatch, limit_arg.
  repeat match goal with
         | |- context [str_eqb ?a ?b] => destruct (str_eqb a b)
         end.
  all: unfold_operations; unfold get_profile.
  all: repeat clean_step.
Qed.

(** *** [main] *)

Lemma main_spec rt argv w :
  (2 <= List.length argv)%nat ->
  readable rt w = true ->
  main rt argv w
  = (fst (try_except (dispatch rt argv) is_Exception
            (fun e => print [Lit "❌ Error: "; FmtExn e] ;; sys_exit 1)
            (started_client w, w)),
     snd (snd (try_except (dispatch rt argv) is_Exception
                 (fun e => print [Lit "❌ Error: "; FmtExn e] ;; sys_exit 1)
                 (started_client w, w)))).
Proof.
  intros Hn Hr. unfold main.
  destruct (List.length argv <? 2)%nat eqn:E; [apply Nat.ltb_lt in E; lia|].
  rewrite MinSoAI_spec by exact Hr. fold (started_client w).
  destruct (try_except _ _ _ _) as [r [c' w']]. reflexivity.
Qed.

(** The constructor runs before the [try] block: what it raises leaves
    [main] as it is. *)
Lemma main_unreadable rt argv w :
  (2 <= List.length argv)%nat ->
  readable rt w = false ->
  main rt argv w = (Raise UnicodeDecodeError, w).
Proof.
  intros Hn Hr. unfold main.
  destruct (List.length argv <? 2)%nat eqn:E; [apply Nat.ltb_lt in E; lia|].
  rewrite MinSoAI_unreadable by exact Hr. reflexivity.
Qed.

Ltac eval_eqb :=
  repeat match goal with
         | |- context [str_eqb (lit ?a) (lit ?b)] =>
             let v := eval vm_compute in (str_eqb (lit a) (lit b)) in
             change (str_eqb (lit a) (lit b)) with v
         end; cbv iota.







(** * Further properties *)

(** ** The executor's requests *)

Lemma request_of_shape rt c method endpoint data q :
  request_of rt c method endpoint data = Some q ->
  req_url q = base_url c ++ endpoint
  /\ req_headers q = request_headers c
  /\ req_json q = match req_method q with POST | PUT => data | _ => None end
  /\ verb rt method = Some (req_method q).
Proof.
  unfold request_of. destruct (verb rt method) as [v|]; [|discriminate].
  intros H. injection H as <-. cbn. auto.
Qed.

(** What was sent before stays, and at most one request is added. *)
Lemma executor_sends_at_most_one rt method endpoint data auth c w :
  let after := snd (snd (_request rt method endpoint data auth (c, w))) in
  sent after = sent w
  \/ exists q, request_of rt c method endpoint data = Some q
               /\ sent after = sent w ++ [q].
Proof.
  change (wp (_request rt method endpoint data auth)
            (fun _ s' =>
               sent (snd s') = sent w
               \/ exists q, request_of rt c method endpoint data = Some q
                            /\ sent (snd s') = sent w ++ [q]) (c, w)).
  apply wp_request; cbn [fst snd add_line add_request sent]; intros; eauto.
Qed.

(** X1. Every request the executor sends goes to [base_url + endpoint]
    with [Content-Type: application/json]; [data] travels as its JSON body
    with POST and PUT and is dropped with GET and DELETE. *)
Theorem X1_executor_request_shape rt method endpoint data auth c w q :
  In q (sent (snd (snd (_request rt method endpoint data auth (c, w))))) ->
  In q (sent w)
  \/ (req_url q = base_url c ++ endpoint
      /\ lookup (lit "Content-Type") (req_headers q) = Some (lit "application/json")
      /\ req_json q = match req_method q with POST | PUT => data | _ => None end).
Proof.
  intros Hin.
  destruct (executor_sends_at_most_one rt method endpoint data auth c w)
    as [E|[q' [Hq E]]]; cbv zeta in E; rewrite E in Hin; [left; exact Hin|].
  apply in_app_or in Hin as [Hin|[<-|[]]]; [left; exact Hin|right].
  destruct (request_of_shape _ _ _ _ _ _ Hq) as (Hu & Hh & Hj & _).
  repeat split; auto. rewrite Hh. unfold request_headers.
  destruct (token c) as [[|x t]|]; reflexivity.
Qed.

Lemma X1_executor_request_shape_witness :
  let q := mkRequest GET (lit "http://localhost:5000/api/health")
             [(lit "Content-Type", lit "application/json")] None in
  In q []
  \/ (req_url q = base_url fresh_client ++ lit "/health"
      /\ lookup (lit "Content-Type") (req_headers q) = Some (lit "application/json")
      /\ req_json q = match req_method q with
                      | POST | PUT => Some (PDict [])
                      | _ => None
                      end).
Proof.
  exact (X1_executor_request_shape
           (runtime_with (always (Response 200 (Some PNone))) true false)
           (lit "get") (lit "/health") (Some (PDict [])) false
           fresh_client empty_world _ (or_introl eq_refl)).
Defined.

(** X2. Without a token (unset or empty) the executor sends no
    [Authorization] header: the only header is the content type. *)
Theorem X2_executor_without_token_sends_no_credentials
    rt method endpoint data auth c w q :
  token_truthy (token c) = false ->
  In q (sent (snd (snd (_request rt method endpoint data auth (c, w))))) ->
  In q (sent w)
  \/ req_headers q = [(lit "Content-Type", lit "application/json")].
Proof.
  intros Ht Hin.
  destruct (executor_sends_at_most_one rt method endpoint data auth c w)
    as [E|[q' [Hq E]]]; cbv zeta in E; rewrite E in Hin; [left; exact Hin|].
  apply in_app_or in Hin as [Hin|[<-|[]]]; [left; exact Hin|right].
  destruct (request_of_shape _ _ _ _ _ _ Hq) as (_ & Hh & _). rewrite Hh.
  unfold request_headers. destruct (token c) as [[|x t]|]; try reflexivity.
  discriminate Ht.
Qed.

Lemma X2_executor_without_token_witness :
  let q := mkRequest POST (lit "http://localhost:5000/api/auth/login")
             [(lit "Content-Type", lit "application/json")] (Some (PDict [])) in
  In q [] \/ req_headers q = [(lit "Content-Type", lit "application/json")].
Proof.
  exact (X2_executor_without_token_sends_no_credentials
           (runtime_with (always (SendFails [])) true false)
           (lit "POST") (lit "/auth/login") (Some (PDict [])) false
           (mkClient default_base_url (Some []) PNone PNone) empty_world _
           eq_refl (or_introl eq_refl)).
Defined.

Lemma ascii_upper_ascii c : is_ascii c = true -> is_ascii (ascii_upper c) = true.
Proof.
  unfold is_ascii, ascii_upper. intros H. apply N.ltb_lt in H.
  destruct ((97 <=? c) && (c <=? 122))%N eqn:E; apply N.ltb_lt; lia.
Qed.

Lemma ascii_upper_idem c : ascii_upper (ascii_upper c) = ascii_upper c.
Proof.
  unfold ascii_upper.
  destruct ((97 <=? c) && (c <=? 122))%N eqn:E; [|rewrite E; reflexivity].
  apply andb_prop in E as [E1 E2]. apply N.leb_le in E1, E2.
  destruct ((97 <=? c - 32) && (c - 32 <=? 122))%N eqn:E'; [|reflexivity].
  apply andb_prop in E' as [E3 _]. apply N.leb_le in E3. lia.
Qed.

Lemma upper_ascii rt s :
  forallb is_ascii s = true ->
  upper rt s = map ascii_upper s
  /\ upper rt (map ascii_upper s) = map ascii_upper s.
Proof.
  intros H. unfold upper. rewrite H. split; [reflexivity|].
  assert (H' : forallb is_ascii (map ascii_upper s) = true).
  { rewrite forallb_forall in *. intros x Hx. apply in_map_iff in Hx as [y [<- Hy]].
    apply ascii_upper_ascii. auto. }
  rewrite H', map_map. apply map_ext. intros. apply ascii_upper_idem.
Qed.

Lemma verb_supported rt method :
  In (upper rt method) supported_methods -> verb rt method <> None.
Proof.
  unfold verb, supported_methods. cbn [In].
  intros [<-|[<-|[<-|[<-|[]]]]]; eval_eqb; discriminate.
Qed.

(** X3. The method is matched without regard to case: an ASCII spelling of
    GET, POST, PUT or DELETE in any case runs exactly as the upper-case
    one. *)
Theorem X3_executor_method_case_insensitive rt method endpoint data auth c w :
  forallb is_ascii method = true ->
  In (map ascii_upper method) supported_methods ->
  _request rt method endpoint data auth (c, w)
  = _request rt (map ascii_upper method) endpoint data auth (c, w).
Proof.
  intros Ha Hin. destruct (upper_ascii rt method Ha) as [E1 E2].
  assert (Hv : verb rt method <> None) by (apply verb_supported; rewrite E1; exact Hin).
  rewrite !_request_spec.
  assert (E : verb rt (map ascii_upper method) = verb rt method).
  { unfold verb. rewrite E1, E2. reflexivity. }
  unfold request_of. rewrite E.
  destruct (verb rt method); [reflexivity|contradiction].
Qed.

Lemma X3_executor_method_case_witness :
  _request (runtime_with (always (Response 200 (Some PNone))) true false)
    (lit "Post") (lit "/posts") None false (fresh_client, empty_world)
  = _request (runtime_with (always (Response 200 (Some PNone))) true false)
      (lit "POST") (lit "/posts") None false (fresh_client, empty_world).
Proof.
  exact (X3_executor_method_case_insensitive
           (runtime_with (always (Response 200 (Some PNone))) true false)
           (lit "Post") (lit "/posts") None false fresh_client empty_world
           eq_refl (or_intror (or_introl eq_refl))).
Defined.

(** X4. A method that in upper case is none of GET, POST, PUT, DELETE never
    gets a request sent.  The executor raises to its caller: the
    authentication error when [auth_required] is set and no token is held,
    since the gate comes before the test of the method, and [ValueError]
    otherwise.  Nothing is printed, and the [except] branch with its
    [sys.exit(1)] is not taken. *)
Theorem X4_executor_rejects_unsupported_method rt method endpoint data auth c w :
  existsb (str_eqb (upper rt method)) supported_methods = false ->
  _request rt method endpoint data auth (c, w)
  = (Raise (if auth && negb (token_truthy (token c))
            then AuthenticationError
            else ValueError "Unsupported HTTP method: " method),
     (c, w)).
Proof.
  intros Hv. rewrite _request_spec.
  destruct (auth && negb (token_truthy (token c))); [reflexivity|].
  cbn [existsb supported_methods] in Hv.
  repeat (apply orb_false_elim in Hv as [? Hv]).
  unfold request_of, verb.
  repeat match goal with H : str_eqb _ _ = false |- _ => rewrite H; clear H end.
  reflexivity.
Qed.

Lemma X4_executor_rejects_witness :
  _request (runtime_with (always (Response 200 (Some PNone))) true false)
    (lit "PATCH") (lit "/posts") None false (fresh_client, empty_world)
  = (Raise (ValueError "Unsupported HTTP method: " (lit "PATCH")),
     (fresh_client, empty_world))
  /\ _request (runtime_with (always (Response 200 (Some PNone))) true false)
       (lit "PATCH") (lit "/posts") None true (fresh_client, empty_world)
     = (Raise AuthenticationError, (fresh_client, empty_world)).
Proof.
  split.
  - exact (X4_executor_rejects_unsupported_method
             (runtime_with (always (Response 200 (Some PNone))) true false)
             (lit "PATCH") (lit "/posts") None false fresh_client empty_world
             eq_refl).
  - exact (X4_executor_rejects_unsupported_method
             (runtime_with (always (Response 200 (Some PNone))) true false)
             (lit "PATCH") (lit "/posts") None true fresh_client empty_world
             eq_refl).
Defined.

(** ** One request per operation *)

Lemma one_request_GET rt c ep d q w :
  request_of rt c (lit "GET") ep d = Some q ->
  at_most_one_request c (sent w) (sent w ++ [q]).
Proof.
  unfold request_of. rewrite verb_GET. intros H. injection H as <-.
  right. eexists. split; [reflexivity|]. cbn. repeat split; eauto.
Qed.

Lemma one_request_POST rt c ep d q w :
  request_of rt c (lit "POST") ep d = Some q ->
  at_most_one_request c (sent w) (sent w ++ [q]).
Proof.
  unfold request_of. rewrite verb_POST. intros H. injection H as <-.
  right. eexists. split; [reflexivity|]. cbn. repeat split; eauto.
Qed.

Lemma wp_save_token_sent rt tok (Q : result unit -> state -> Prop) s :
  (forall r s', sent (snd s') = sent (snd s) -> Q r s') ->
  wp (_save_token rt tok) Q s.
Proof.
  intros H. apply wp_save_token.
  destruct tok; try destruct (encodes rt _); apply H; reflexivity.
Qed.

(** Nothing but the executor sends anything. *)
Ltac sent_step :=
  match goal with
  | |- at_most_one_request _ ?l ?l => left; reflexivity
  | H : request_of _ _ (lit "GET") _ _ = Some _
    |- at_most_one_request _ _ (_ ++ [_]) => exact (one_request_GET _ _ _ _ _ _ H)
  | H : request_of _ _ (lit "POST") _ _ = Some _
    |- at_most_one_request _ _ (_ ++ [_]) => exact (one_request_POST _ _ _ _ _ _ H)
  | H : sent (snd ?s) = _ |- at_most_one_request _ _ (sent (snd ?s)) => rewrite H
  | H : sent ?w = _ |- at_most_one_request _ _ (sent ?w) => rewrite H
  | |- True => exact I
  | |- sent _ = _ => reflexivity || assumption
  | |- wp (for_each _ _) _ ?s =>
      apply wp_for_each with (I := fun s' => sent (snd s') = sent (snd s));
      [intros ? ? _ ?|intros ? ?|reflexivity]
  | |- wp (_request _ _ _ _ _) _ _ => apply wp_request; intros
  | |- wp (_save_token _ _) _ _ => apply wp_save_token_sent; intros [?|?] ? ?
  | |- wp logout _ _ => apply wp_logout
  | _ => wp_go
  end; cbn [fst snd add_line add_request sent].

(** X5. Each of the fourteen operations sends at most one request, a GET
    or a POST to a URL under the client's base URL with the client's
    headers, and leaves the requests sent before it in place. *)
Theorem X5_operation_sends_at_most_one_request rt op c w :
  at_most_one_request c (sent w) (sent (snd (snd (run rt op (c, w))))).
Proof.
  change (wp (run rt op)
            (fun _ s' => at_most_one_request c (sent w) (sent (snd s'))) (c, w)).
  destruct op; cbn [run]; unfold_operations; unfold get_profile.
  all: repeat sent_step.
Qed.

Lemma dispatch_sends_at_most_one_request rt argv c w :
  wp (dispatch rt argv)
    (fun _ s' => at_most_one_request c (sent w) (sent (snd s'))) (c, w).
Proof.
  unfold dispatch, limit_arg.
  repeat match goal with
         | |- context [str_eqb ?a ?b] => destruct (str_eqb a b)
         end.
  all: unfold_operations; unfold get_profile.
  all: repeat sent_step.
Qed.

(** X6. One run of [main] attempts at most one HTTP request, whatever the
    command line and the server; it is never a PUT or a DELETE. *)
Theorem X6_main_sends_at_most_one_request rt argv w :
  at_most_one_request (started_client w) (sent w) (sent (snd (main rt argv w))).
Proof.
  unfold main.
  destruct (List.length argv <? 2)%nat; [left; reflexivity|].
  destruct (readable rt w) eqn:Hread;
    [|rewrite MinSoAI_unreadable by exact Hread; left; reflexivity].
  rewrite MinSoAI_spec by exact Hread. fold (started_client w).
  assert (H := dispatch_sends_at_most_one_request rt argv (started_client w) w).
  unfold wp in H. unfold try_except.
  destruct (dispatch rt argv (started_client w, w)) as [[[]|e] [c' w']];
    cbn [fst snd] in H; [exact H|].
  destruct (is_Exception e); cbn; exact H.
Qed.

(** ** The session across operations *)

Ltac frame_step :=
  match goal with
  | |- session _ = session _ => reflexivity || assumption
  | |- True => exact I
  | |- wp (for_each _ _) _ ?s =>
      apply wp_for_each with (I := fun s' => session s' = session s);
      [intros ? ? _ ?|intros ? ?|reflexivity]
  | |- wp (_request _ _ _ _ _) _ _ => apply wp_request; intros
  | _ => wp_go
  end; cbn [fst snd].

Lemma session_add_line l s x :
  session s = x -> session (fst s, add_line l (snd s)) = x.
Proof. intros <-. reflexivity. Qed.

(** X7. Apart from [register] and [login], no operation changes the client
    object or the token file, whatever the server answers and however the
    operation ends. *)
Theorem X7_other_operations_keep_session rt op c w :
  signs_in op = false ->
  session (snd (run rt op (c, w))) = session (c, w).
Proof.
  intros Hop.
  change (wp (run rt op) (fun _ s' => session s' = session (c, w)) (c, w)).
  destruct op; try discriminate Hop; cbn [run]; unfold_operations; unfold get_profile.
  all: repeat frame_step.
  all: try (apply session_add_line; assumption).
Qed.

Lemma X7_other_operations_witness :
  session (snd (run (runtime_with (always (Response 200 (Some (PList [example_post]))))
                      true false)
                  (ListPosts 10 0)
                  (mkClient default_base_url (Some (lit "tok123")) PNone PNone,
                   mkWorld (Some (lit "tok123")) [] [])))
  = (mkClient default_base_url (Some (lit "tok123")) PNone PNone,
     Some (lit "tok123")).
Proof.
  exact (X7_other_operations_keep_session
           (runtime_with (always (Response 200 (Some (PList [example_post]))))
              true false)
           (ListPosts 10 0)
           (mkClient default_base_url (Some (lit "tok123")) PNone PNone)
           (mkWorld (Some (lit "tok123")) [] []) eq_refl).
Defined.

Lemma dispatch_keeps_session rt argv s :
  existsb (str_eqb (lower rt (arg argv 1)))
    [lit "register"; lit "login"; lit "logout"] = false ->
  wp (dispatch rt argv) (fun _ s' => session s' = session s) s.
Proof.
  intros Hn. cbn [existsb] in Hn.
  repeat (apply orb_false_elim in Hn as [? Hn]).
  unfold dispatch, limit_arg.
  repeat match goal with H : str_eqb _ _ = false |- _ => rewrite H; clear H end.
  repeat match goal with
         | |- context [str_eqb ?a ?b] => destruct (str_eqb a b)
         end.
  all: unfold_operations; unfold get_profile.
  all: repeat frame_step.
  all: try (apply session_add_line; assumption).
Qed.

(** X8. Only the commands [register], [login] and [logout] touch the token
    file: after any other command line it is as it was, transport failures
    and error exits included. *)
Theorem X8_main_keeps_token_file rt argv w :
  existsb (str_eqb (lower rt (arg argv 1)))
    [lit "register"; lit "login"; lit "logout"] = false ->
  token_file (snd (main rt argv w)) = token_file w.
Proof.
  intros Hn. unfold main.
  destruct (List.length argv <? 2)%nat; [reflexivity|].
  destruct (readable rt w) eqn:Hread;
    [|rewrite MinSoAI_unreadable by exact Hread; reflexivity].
  rewrite MinSoAI_spec by exact Hread. fold (started_client w).
  assert (H := dispatch_keeps_session rt argv (started_client w, w) Hn).
  unfold wp in H. unfold try_except.
  destruct (dispatch rt argv (started_client w, w)) as [[[]|e] [c' w']];
    cbn [fst snd] in H; unfold session in H; cbn [fst snd] in H;
    injection H as _ H; [exact H|].
  destruct (is_Exception e); cbn; exact H.
Qed.

Lemma X8_main_keeps_token_file_witness :
  token_file (snd (main (runtime_with (always (Response 500 None)) true false)
                     [lit "minso-ai.py"; lit "post"; lit "hello"]
                     (mkWorld (Some (lit "tok123")) [] [])))
  = Some (lit "tok123").
Proof.
  exact (X8_main_keeps_token_file
           (runtime_with (always (Response 500 None)) true false)
           [lit "minso-ai.py"; lit "post"; lit "hello"]
           (mkWorld (Some (lit "tok123")) [] []) eq_refl).
Defined.

(** ** Signing in *)

Lemma py_get_interpreter_error v k d e :
  py_get v k d = Raise e -> interpreter_error e = true.
Proof. destruct v; cbn; intros H; try discriminate; injection H as <-; reflexivity. Qed.

Lemma py_getitem_interpreter_error v k e :
  py_getitem v k = Raise e -> interpreter_error e = true.
Proof.
  destruct v; cbn; intros H; try (injection H as <-; reflexivity).
  destruct (lookup k d); [discriminate|injection H as <-; reflexivity].
Qed.

Lemma py_getitem2_interpreter_error v k k' e :
  (u <~ py_getitem v k ;; py_getitem u k') = Raise e -> interpreter_error e = true.
Proof.
  destruct (py_getitem v k) as [u|e'] eqn:E; cbn [rbind].
  - apply py_getitem_interpreter_error.
  - intros H. injection H as <-. eapply py_getitem_interpreter_error; eassumption.
Qed.

Ltac not_interpreter_error :=
  match goal with
  | E : _ = Raise ?e, K : Raise ?e = Raise _ |- _ =>
      first [ apply py_get_interpreter_error in E
            | apply py_getitem_interpreter_error in E
            | apply py_getitem2_interpreter_error in E ];
      injection K as K; rewrite K in E; discriminate E
  end.

(** X9. When [register] or [login] ends with its own "failed" exception, or
    with the executor's [sys.exit(1)], the client object and the token file
    are as they were before the call. *)
Theorem X9_failed_sign_in_keeps_session rt op c w :
  signs_in op = true ->
  fst (run rt op (c, w)) = Raise (ResponseShapeError op)
  \/ terminates_process (fst (run rt op (c, w))) ->
  session (snd (run rt op (c, w))) = session (c, w).
Proof.
  intros Hop.
  change (wp (run rt op)
            (fun r s' => r = Raise (ResponseShapeError op) \/ terminates_process r ->
                         session s' = session (c, w)) (c, w)).
  destruct op; try discriminate Hop; cbn [run]; unfold_operations.
  all: apply wp_bind, wp_print, wp_bind, wp_request; cbn [fst snd]; intros;
    try reflexivity;
    try (match goal with
         | H : _ \/ _ |- _ => destruct H as [H|[? H]]; discriminate H
         end).
  all: repeat (wp_go; cbn [fst snd]).
  all: try reflexivity.
  all: let K := fresh "K" in intros [K|[? K]]; try discriminate K.
  all: not_interpreter_error.
Qed.

Lemma X9_failed_sign_in_witness :
  session (snd (run (runtime_with (always (Response 200 (Some (PDict [])))) true false)
                  (Login (lit "bot1") (lit "secret"))
                  (mkClient default_base_url (Some (lit "old")) PNone PNone,
                   mkWorld (Some (lit "old")) [] [])))
  = (mkClient default_base_url (Some (lit "old")) PNone PNone, Some (lit "old")).
Proof.
  exact (X9_failed_sign_in_keeps_session
           (runtime_with (always (Response 200 (Some (PDict [])))) true false)
           (Login (lit "bot1") (lit "secret"))
           (mkClient default_base_url (Some (lit "old")) PNone PNone)
           (mkWorld (Some (lit "old")) [] []) eq_refl (or_introl eq_refl)).
Defined.

Section SignIn.

(** The server answers with status [st], outside 400..599, and the JSON
    object [d]. *)
Variables (rt : runtime) (st : Z) (d : list (str * pyval)).
Hypothesis Hsrv : forall h q, server rt h q = Response st (Some (PDict d)).
Hypothesis Hst : is_http_error st = false.

Ltac sign_in :=
  unfold_operations;
  apply wp_bind, wp_print, wp_bind; cbn [fst snd];
  eapply wp_request_ok;
    [reflexivity | apply verb_POST | exact Hsrv | exact Hst | intros ?; cbn [fst snd]].

(** X10. When the reply to [register] or [login] has a truthy [user] with
    [username] and [id], and a string [token] that the locale's encoding can
    encode, the operation returns the reply, the client holds that token,
    username and id, and the token file holds the token. *)
Theorem X10_sign_in_stores_identity op c w u t name uid :
  signs_in op = true ->
  lookup (lit "user") d = Some u -> truthy u = true ->
  lookup (lit "token") d = Some (PStr t) ->
  encodes rt t = true ->
  py_getitem u (lit "username") = Ret name ->
  py_getitem u (lit "id") = Ret uid ->
  fst (run rt op (c, w)) = Ret (PDict d)
  /\ session (snd (run rt op (c, w)))
     = (mkClient (base_url c) (Some t) name uid, Some (text_write rt t)).
Proof.
  intros Hop Hu Htr Ht Henc Hn Hi.
  change (wp (run rt op)
            (fun r s' => r = Ret (PDict d)
                         /\ session s'
                            = (mkClient (base_url c) (Some t) name uid,
                               Some (text_write rt t))) (c, w)).
  destruct op; try discriminate Hop; cbn [run]; sign_in.
  all: repeat (apply wp_bind;
               first [ apply wp_lift | apply wp_print | apply wp_save_token
                     | apply wp_set_username | apply wp_set_user_id ];
               cbn [py_get py_getitem rbind fst snd];
               rewrite ?Hu, ?Ht, ?Htr, ?Henc; cbn [rbind]; rewrite ?Hn, ?Hi).
  all: split; reflexivity.
Qed.

(** X11. When the reply has a truthy [user] but a [token] that is not a
    string, the operation raises [TypeError] after [open(..., 'w')] has
    emptied the token file: a token saved earlier is lost, while the client
    object is unchanged. *)
Theorem X11_sign_in_with_bad_token_empties_file op c w u tok :
  signs_in op = true ->
  lookup (lit "user") d = Some u -> truthy u = true ->
  lookup (lit "token") d = Some tok -> is_str tok = false ->
  fst (run rt op (c, w)) = Raise TypeError
  /\ session (snd (run rt op (c, w))) = (c, Some []).
Proof.
  intros Hop Hu Htr Ht Hs.
  change (wp (run rt op)
            (fun r s' => r = Raise TypeError /\ session s' = (c, Some [])) (c, w)).
  destruct op; try discriminate Hop; cbn [run]; sign_in.
  all: repeat (apply wp_bind; first [apply wp_lift | apply wp_save_token ];
               cbn [py_get py_getitem rbind fst snd];
               rewrite ?Hu, ?Ht, ?Htr; cbn [rbind]).
  all: destruct tok; try discriminate Hs; split; reflexivity.
Qed.

(** X28. When the reply has a truthy [user] and a string [token] that the
    locale's encoding cannot encode (a lone surrogate from an unpaired
    escape in the JSON, for any encoding), the operation raises
    [UnicodeEncodeError] after [open(..., 'w')] has emptied the token file:
    a token saved earlier is lost, while the client object is unchanged. *)
Theorem X28_sign_in_with_unencodable_token_empties_file op c w u t :
  signs_in op = true ->
  lookup (lit "user") d = Some u -> truthy u = true ->
  lookup (lit "token") d = Some (PStr t) -> encodes rt t = false ->
  fst (run rt op (c, w)) = Raise UnicodeEncodeError
  /\ session (snd (run rt op (c, w))) = (c, Some []).
Proof.
  intros Hop Hu Htr Ht Henc.
  change (wp (run rt op)
            (fun r s' => r = Raise UnicodeEncodeError /\ session s' = (c, Some []))
            (c, w)).
  destruct op; try discriminate Hop; cbn [run]; sign_in.
  all: repeat (apply wp_bind; first [apply wp_lift | apply wp_save_token ];
               cbn [py_get py_getitem rbind fst snd];
               rewrite ?Hu, ?Ht, ?Htr, ?Henc; cbn [rbind]).
  all: split; reflexivity.
Qed.

(** X12. When the reply has a string [token] that the locale's encoding
    can encode but its [user] lacks [username] or [id], the operation raises
    ([KeyError] or [TypeError]) after the token has been stored: the call
    fails, yet the client and the token file hold the new token. *)
Theorem X12_sign_in_keeps_token_when_user_is_incomplete op c w u t :
  signs_in op = true ->
  lookup (lit "user") d = Some u -> truthy u = true ->
  lookup (lit "token") d = Some (PStr t) ->
  encodes rt t = true ->
  has_key (lit "username") u && has_key (lit "id") u = false ->
  (exists e, fst (run rt op (c, w)) = Raise e /\ interpreter_error e = true)
  /\ token (fst (snd (run rt op (c, w)))) = Some t
  /\ token_file (snd (snd (run rt op (c, w)))) = Some (text_write rt t).
Proof.
  intros Hop Hu Htr Ht Henc Hk.
  change (wp (run rt op)
            (fun r s' => (exists e, r = Raise e /\ interpreter_error e = true)
                         /\ token (fst s') = Some t
                         /\ token_file (snd s') = Some (text_write rt t)) (c, w)).
  unfold has_key in Hk.
  destruct op; try discriminate Hop; cbn [run]; sign_in.
  all: repeat (apply wp_bind; first [apply wp_lift | apply wp_save_token ];
               cbn [py_get py_getitem rbind fst snd];
               rewrite ?Hu, ?Ht, ?Htr, ?Henc; cbn [rbind]).
  all: destruct (py_getitem u (lit "username")) as [n|e] eqn:En;
    [ cbn [is_ret andb] in Hk
    | repeat split; try reflexivity; exists e; split; [reflexivity|];
      eapply py_getitem_interpreter_error; eassumption ].
  all: apply wp_bind, wp_set_username, wp_bind, wp_lift; cbn [fst snd].
  all: destruct (py_getitem u (lit "id")) as [i|e] eqn:Ei; [discriminate Hk|].
  all: repeat split; try reflexivity; exists e; split; [reflexivity|];
    eapply py_getitem_interpreter_error; eassumption.
Qed.

End SignIn.

Lemma X10_sign_in_stores_identity_witness :
  session (snd (run (runtime_with
                       (always (Response 200 (Some mock_register_response)))
                       true false)
                  (Login (lit "bot1") (lit "secret"))
                  (fresh_client, empty_world)))
  = (mkClient default_base_url (Some (lit "tok123"))
       (PStr (lit "bot1")) (PStr (lit "u1")),
     Some (lit "tok123")).
Proof.
  exact (proj2 (X10_sign_in_stores_identity
                  (runtime_with
                     (always (Response 200 (Some mock_register_response)))
                     true false)
                  200
                  [(lit "user", PDict [(lit "username", PStr (lit "bot1"));
                                       (lit "id", PStr (lit "u1"))]);
                   (lit "token", PStr (lit "tok123"))]
                  (fun _ _ => eq_refl) eq_refl
                  (Login (lit "bot1") (lit "secret")) fresh_client empty_world
                  (PDict [(lit "username", PStr (lit "bot1"));
                          (lit "id", PStr (lit "u1"))])
                  (lit "tok123") (PStr (lit "bot1")) (PStr (lit "u1"))
                  eq_refl eq_refl eq_refl eq_refl eq_refl eq_refl eq_refl)).
Defined.

Lemma X11_sign_in_with_bad_token_witness :
  let reply := [(lit "user", PDict [(lit "username", PStr (lit "bot1"));
                                    (lit "id", PStr (lit "u1"))]);
                (lit "token", PNone)] in
  let before := (mkClient default_base_url (Some (lit "old")) PNone PNone,
                 mkWorld (Some (lit "old")) [] []) in
  fst (run (runtime_with (always (Response 200 (Some (PDict reply)))) true false)
         (Login (lit "bot1") (lit "secret")) before)
  = Raise TypeError
  /\ session (snd (run (runtime_with (always (Response 200 (Some (PDict reply))))
                          true false)
                     (Login (lit "bot1") (lit "secret")) before))
     = (fst before, Some []).
Proof.
  exact (X11_sign_in_with_bad_token_empties_file
           (runtime_with
              (always (Response 200
                         (Some (PDict
                                  [(lit "user",
                                    PDict [(lit "username", PStr (lit "bot1"));
                                           (lit "id", PStr (lit "u1"))]);
                                   (lit "token", PNone)]))))
              true false)
           200 _ (fun _ _ => eq_refl) eq_refl
           (Login (lit "bot1") (lit "secret"))
           (mkClient default_base_url (Some (lit "old")) PNone PNone)
           (mkWorld (Some (lit "old")) [] [])
           (PDict [(lit "username", PStr (lit "bot1")); (lit "id", PStr (lit "u1"))])
           PNone eq_refl eq_refl eq_refl eq_refl eq_refl).
Defined.

Lemma X12_sign_in_keeps_token_witness :
  let reply := [(lit "user", PDict [(lit "username", PStr (lit "bot1"))]);
                (lit "token", PStr (lit "tok123"))] in
  token_file
    (snd (snd (run (runtime_with (always (Response 200 (Some (PDict reply))))
                      true false)
                 (Register (lit "bot1") (lit "secret") (lit "a bot"))
                 (fresh_client, empty_world))))
  = Some (lit "tok123").
Proof.
  exact (proj2 (proj2 (X12_sign_in_keeps_token_when_user_is_incomplete
           (runtime_with
              (always (Response 200
                         (Some (PDict
                                  [(lit "user",
                                    PDict [(lit "username", PStr (lit "bot1"))]);
                                   (lit "token", PStr (lit "tok123"))]))))
              true false)
           200 _ (fun _ _ => eq_refl) eq_refl
           (Register (lit "bot1") (lit "secret") (lit "a bot"))
           fresh_client empty_world
           (PDict [(lit "username", PStr (lit "bot1"))])
           (lit "tok123") eq_refl eq_refl eq_refl eq_refl eq_refl eq_refl))).
Defined.

Lemma X28_sign_in_with_unencodable_token_witness :
  let reply := [(lit "user", PDict [(lit "username", PStr (lit "bot1"));
                                    (lit "id", PStr (lit "u1"))]);
                (lit "token", PStr [55296%N])] in
  let before := (mkClient default_base_url (Some (lit "old")) PNone PNone,
                 mkWorld (Some (lit "old")) [] []) in
  fst (run (runtime_with (always (Response 200 (Some (PDict reply)))) true false)
         (Login (lit "bot1") (lit "secret")) before)
  = Raise UnicodeEncodeError
  /\ session (snd (run (runtime_with (always (Response 200 (Some (PDict reply))))
                          true false)
                     (Login (lit "bot1") (lit "secret")) before))
     = (fst before, Some []).
Proof.
  exact (X28_sign_in_with_unencodable_token_empties_file
           (runtime_with
              (always (Response 200
                         (Some (PDict
                                  [(lit "user",
                                    PDict [(lit "username", PStr (lit "bot1"));
                                           (lit "id", PStr (lit "u1"))]);
                                   (lit "token", PStr [55296%N])]))))
              true false)
           200 _ (fun _ _ => eq_refl) eq_refl
           (Login (lit "bot1") (lit "secret"))
           (mkClient default_base_url (Some (lit "old")) PNone PNone)
           (mkWorld (Some (lit "old")) [] [])
           (PDict [(lit "username", PStr (lit "bot1")); (lit "id", PStr (lit "u1"))])
           [55296%N] eq_refl eq_refl eq_refl eq_refl eq_refl).
Defined.

(** ** The token file, once more *)

Lemma lstrip_split s :
  exists p, s = p ++ lstrip s /\ forallb is_space p = true.
Proof.
  induction s as [|c s [p [E Hp]]]; [exists []; auto|].
  cbn [lstrip]. destruct (is_space c) eqn:Hc.
  - exists (c :: p). cbn. rewrite Hc, Hp. split; [f_equal; exact E|reflexivity].
  - exists []. auto.
Qed.

Lemma lstrip_head s c r : lstrip s = c :: r -> is_space c = false.
Proof.
  induction s as [|x s IH]; cbn [lstrip]; [discriminate|].
  destruct (is_space x) eqn:Hx; [exact IH|].
  intros H. injection H as <- _. exact Hx.
Qed.

Lemma lstrip_all_space s : forallb is_space s = true -> lstrip s = [].
Proof.
  induction s as [|c s IH]; cbn; [reflexivity|].
  intros H. apply andb_prop in H as [-> Hs]. auto.
Qed.

Lemma In_lstrip x s : In x (lstrip s) -> In x s.
Proof.
  destruct (lstrip_split s) as [p [E _]]. intros H. rewrite E.
  apply in_or_app. right. exact H.
Qed.

Lemma In_strip x s : In x (strip s) -> In x s.
Proof.
  unfold strip, rstrip. intros H. apply in_rev in H. apply In_lstrip in H.
  apply in_rev in H. apply In_lstrip. exact H.
Qed.

Lemma edge_space_free_ends h t pre a :
  h :: t = pre ++ [a] -> is_space h = false -> is_space a = false ->
  edge_space_free (h :: t) = true.
Proof.
  intros E Hh Ha. unfold edge_space_free. rewrite Hh.
  rewrite E at 1. rewrite last_last, Ha. reflexivity.
Qed.

Lemma rstrip_edge_space_free c l :
  is_space c = false -> edge_space_free (rstrip (c :: l)) = true.
Proof.
  intros Hc. unfold rstrip.
  destruct (lstrip_split (rev (c :: l))) as [p [E Hp]].
  destruct (lstrip (rev (c :: l))) as [|a m] eqn:Em.
  - exfalso. rewrite app_nil_r in E.
    assert (Hin : In c p) by (rewrite <- E; apply in_rev; rewrite rev_involutive; left; reflexivity).
    rewrite forallb_forall in Hp. rewrite (Hp c Hin) in Hc. discriminate.
  - assert (Ha := lstrip_head _ _ _ Em).
    assert (E' : c :: l = (rev m ++ [a]) ++ rev p).
    { rewrite <- (rev_involutive (c :: l)), E, rev_app_distr. reflexivity. }
    cbn [rev]. destruct (rev m) as [|h t] eqn:Er; cbn [app] in E' |- *.
    + injection E' as <- _. unfold edge_space_free. cbn. rewrite Hc. reflexivity.
    + injection E' as <- _.
      apply (edge_space_free_ends c (t ++ [a]) (c :: t) a); auto.
Qed.

Lemma strip_edge_space_free s : edge_space_free (strip s) = true.
Proof.
  unfold strip. destruct (lstrip s) as [|c l] eqn:E; [reflexivity|].
  apply rstrip_edge_space_free. eapply lstrip_head; eassumption.
Qed.

Lemma text_read_chars n : forall s, (List.length s <= n)%nat ->
  forall x, In x (text_read s) -> x = LF \/ (In x s /\ x <> CR).
Proof.
  induction n as [|n IH]; intros s Hn x Hx.
  - destruct s; [contradiction|cbn in Hn; lia].
  - destruct s as [|c s]; [contradiction|]. cbn [text_read] in Hx. cbn in Hn.
    destruct (N.eqb c CR) eqn:Hc.
    + destruct Hx as [<-|Hx]; [left; reflexivity|].
      destruct s as [|c' s]; [contradiction|]. cbn in Hn.
      destruct (N.eqb c' LF).
      * destruct (IH s ltac:(lia) x Hx) as [?|[? ?]]; [left; assumption|].
        right. split; [right; right; assumption|assumption].
      * destruct (IH (c' :: s) ltac:(cbn; lia) x Hx) as [?|[? ?]]; [left; assumption|].
        right. split; [right; assumption|assumption].
    + destruct Hx as [<-|Hx].
      * right. split; [left; reflexivity|]. apply N.eqb_neq. exact Hc.
      * destruct (IH s ltac:(lia) x Hx) as [?|[? ?]]; [left; assumption|].
        right. split; [right; assumption|assumption].
Qed.

Lemma text_read_no_carriage_return s : no_carriage_return (text_read s) = true.
Proof.
  unfold no_carriage_return. apply forallb_forall. intros x Hx.
  apply negb_true_iff, N.eqb_neq.
  destruct (text_read_chars (List.length s) s (le_n _) x Hx) as [->|[_ H]];
    [discriminate|exact H].
Qed.

Lemma strip_no_carriage_return s :
  no_carriage_return s = true -> no_carriage_return (strip s) = true.
Proof.
  unfold no_carriage_return. rewrite !forallb_forall.
  intros H x Hx. apply H. apply In_strip. exact Hx.
Qed.

Lemma loaded_text_encodes rt text :
  encodes rt text = true -> encodes rt (strip (text_read text)) = true.
Proof.
  unfold encodes. rewrite !forallb_forall. intros H x Hx.
  apply In_strip in Hx.
  destruct (text_read_chars (List.length text) text (le_n _) x Hx) as [->|[Hin _]];
    [apply encodable_ascii; reflexivity|auto].
Qed.

(** X13. What [_load_token] reads from a file that decodes has no
    whitespace at either end and no carriage return, and is text the
    locale's encoding has; so it survives a further save and load unchanged:
    a client created after [_save_token] of a loaded token holds that very
    token. *)
Theorem X13_loaded_token_is_stable rt w t :
  readable rt w = true ->
  loaded_token w = Some t ->
  edge_space_free t = true
  /\ no_carriage_return t = true
  /\ encodes rt t = true
  /\ forall url c w',
       MinSoAI rt url (snd (snd (_save_token rt (PStr t) (c, w'))))
       = (Ret tt, (mkClient url (Some t) PNone PNone,
                   snd (snd (_save_token rt (PStr t) (c, w'))))).
Proof.
  unfold readable, loaded_token. destruct (token_file w) as [text|]; [|discriminate].
  intros Hr H. injection H as <-.
  assert (He := strip_edge_space_free (text_read text)).
  assert (Hc := strip_no_carriage_return _ (text_read_no_carriage_return text)).
  assert (Hn := loaded_text_encodes rt text Hr).
  repeat split; auto.
  intros url c w'.
  destruct (save_then_load rt (strip (text_read text)) url c w' Hn) as [_ E].
  rewrite E, (text_read_write rt _ Hc), (strip_fixed _ He). reflexivity.
Qed.

Lemma text_read_all_space s :
  forallb is_space s = true -> forallb is_space (text_read s) = true.
Proof.
  rewrite !forallb_forall. intros H x Hx.
  destruct (text_read_chars (List.length s) s (le_n _) x Hx) as [->|[Hin _]];
    [reflexivity|auto].
Qed.

(** X14. A token file that holds only whitespace (an empty file included),
    in the locale's encoding, loads as the empty token, which every test of
    [self.token] treats as no token. *)
Theorem X14_blank_token_file_is_no_token rt text out sn url :
  forallb is_space text = true ->
  encodes rt text = true ->
  MinSoAI rt url (mkWorld (Some text) out sn)
  = (Ret tt, (mkClient url (Some []) PNone PNone, mkWorld (Some text) out sn))
  /\ token_truthy (loaded_token (mkWorld (Some text) out sn)) = false.
Proof.
  intros H Henc. rewrite MinSoAI_spec by exact Henc.
  unfold loaded_token. cbn [token_file].
  unfold strip, rstrip.
  rewrite (lstrip_all_space _ (text_read_all_space _ H)). split; reflexivity.
Qed.

Lemma X13_loaded_token_is_stable_witness :
  let rt := runtime_with (always (SendFails [])) true true in
  edge_space_free (lit "tok123") = true
  /\ no_carriage_return (lit "tok123") = true
  /\ encodes rt (lit "tok123") = true
  /\ forall url c w',
       MinSoAI rt url (snd (snd (_save_token rt (PStr (lit "tok123")) (c, w'))))
       = (Ret tt, (mkClient url (Some (lit "tok123")) PNone PNone,
                   snd (snd (_save_token rt (PStr (lit "tok123")) (c, w'))))).
Proof.
  exact (X13_loaded_token_is_stable
           (runtime_with (always (SendFails [])) true true)
           (mkWorld (Some (32%N :: lit "tok123" ++ [13%N; 10%N])) [] [])
           (lit "tok123") eq_refl eq_refl).
Defined.

Lemma X14_blank_token_file_witness :
  token_truthy (loaded_token (mkWorld (Some [32%N; 10%N]) [] [])) = false.
Proof.
  exact (proj2 (X14_blank_token_file_is_no_token
                  (runtime_with (always (SendFails [])) true true)
                  [32%N; 10%N] [] [] default_base_url eq_refl eq_refl)).
Defined.

(** ** The command line, once more *)

Lemma main_returns_or_exits rt argv w :
  (List.length argv < 2)%nat \/ readable rt w = true ->
  fst (main rt argv w) = Ret tt \/ fst (main rt argv w) = Raise (SystemExit 1).
Proof.
  intros Hc. unfold main.
  destruct (List.length argv <? 2)%nat eqn:Hn; [left; reflexivity|].
  apply Nat.ltb_ge in Hn. destruct Hc as [Hc|Hread]; [lia|].
  rewrite MinSoAI_spec by exact Hread. fold (started_client w).
  assert (H := dispatch_exits_cleanly rt argv (started_client w, w)).
  unfold wp in H. unfold try_except.
  destruct (dispatch rt argv (started_client w, w)) as [[[]|e] [c' w']];
    cbn [fst snd] in H; [left; reflexivity|].
  destruct (is_Exception e) eqn:He; [right; reflexivity|].
  destruct e; try discriminate He.
  destruct (H code eq_refl) as [-> _]. right. reflexivity.
Qed.

(** X15. Whatever the command line and the server, the exit status of
    [main] is 0 or 1.  With no command, or with a token file that is absent
    or decodes, [main] returns or ends in [SystemExit(1)], so no exception
    escapes as a traceback.  With a command and a token file whose bytes do
    not decode, the constructor, called before the [try] block, raises
    [UnicodeDecodeError] and that exception leaves [main]: nothing has been
    printed or sent, whatever the command was. *)
Theorem X15_main_exit_status_0_or_1 rt argv w :
  (exit_status (fst (main rt argv w)) = 0 \/ exit_status (fst (main rt argv w)) = 1)
  /\ ((List.length argv < 2)%nat \/ readable rt w = true ->
      fst (main rt argv w) = Ret tt \/ fst (main rt argv w) = Raise (SystemExit 1))
  /\ ((2 <= List.length argv)%nat -> readable rt w = false ->
      main rt argv w = (Raise UnicodeDecodeError, w)).
Proof.
  split; [|split].
  - destruct (Nat.lt_ge_cases (List.length argv) 2) as [Hn|Hn].
    + destruct (main_returns_or_exits rt argv w (or_introl Hn)) as [-> | ->]; auto.
    + destruct (readable rt w) eqn:Hread.
      * destruct (main_returns_or_exits rt argv w (or_intror Hread)) as [-> | ->];
          auto.
      * rewrite (main_unreadable rt argv w Hn Hread). right. reflexivity.
  - apply main_returns_or_exits.
  - apply main_unreadable.
Qed.

Lemma X15_main_exit_status_witness :
  let rt := runtime_with (always (Response 200 (Some PNone))) true false in
  main rt [lit "minso-ai.py"; lit "post"] (mkWorld (Some [56575%N]) [] [])
  = (Raise UnicodeDecodeError, mkWorld (Some [56575%N]) [] [])
  /\ (fst (main rt [lit "minso-ai.py"; lit "post"] (mkWorld (Some (lit "tok")) [] []))
      = Ret tt
      \/ fst (main rt [lit "minso-ai.py"; lit "post"] (mkWorld (Some (lit "tok")) [] []))
         = Raise (SystemExit 1)).
Proof.
  split.
  - exact (proj2 (proj2 (X15_main_exit_status_0_or_1
                           (runtime_with (always (Response 200 (Some PNone))) true false)
                           [lit "minso-ai.py"; lit "post"]
                           (mkWorld (Some [56575%N]) [] [])))
             (le_n 2) eq_refl).
  - exact (proj1 (proj2 (X15_main_exit_status_0_or_1
                           (runtime_with (always (Response 200 (Some PNone))) true false)
                           [lit "minso-ai.py"; lit "post"]
                           (mkWorld (Some (lit "tok")) [] [])))
             (or_intror eq_refl)).
Defined.

Lemma gate_stops_operation rt op c w :
  auth_required op = true -> token_truthy (token c) = false ->
  exists intro, run rt op (c, w) = (Raise AuthenticationError, (c, add_line intro w)).
Proof.
  intros Ha Ht. destruct op; try discriminate Ha; cbn [run]; unfold_operations;
    rewrite bind_print, bind_request, Ht; eexists; reflexivity.
Qed.

Lemma bind_raised {A B} (m : M A) (k : A -> M B) s e s' :
  m s = (Raise e, s') -> bind m k s = (Raise e, s').
Proof. unfold bind. intros ->. reflexivity. Qed.

(** X16. With no usable token on disk (no file, or a file that decodes to
    nothing but whitespace), the commands [post], [like] and [follow] (given
    their argument) print their first line and the authentication error, and
    exit with status 1; nothing is sent and the token file is not touched. *)
Theorem X16_commands_without_token_stop_before_network rt argv w :
  readable rt w = true ->
  token_truthy (loaded_token w) = false ->
  In (lower rt (arg argv 1)) [lit "post"; lit "like"; lit "follow"] ->
  (3 <= List.length argv)%nat ->
  exists intro,
    main rt argv w
    = (Raise (SystemExit 1),
       print_all [intro; [Lit "❌ Error: "; FmtExn AuthenticationError]] w).
Proof.
  intros Hread Ht Hin Hn. rewrite main_spec by (assumption || lia).
  assert (Hl : (List.length argv <? 3)%nat = false) by (apply Nat.ltb_ge; lia).
  unfold try_except, dispatch.
  cbn [In] in Hin. repeat destruct Hin as [Hin|Hin]; try contradiction;
    rewrite <- Hin; eval_eqb; rewrite Hl.
  - destruct (gate_stops_operation rt (CreatePost (arg argv 2)) (started_client w) w
                eq_refl Ht) as [intro E].
    exists intro. cbn [run] in E. rewrite (bind_raised _ _ _ _ _ E).
    unfold print_all. cbn. rewrite <- app_assoc. reflexivity.
  - destruct (gate_stops_operation rt (ToggleLike (arg argv 2)) (started_client w) w
                eq_refl Ht) as [intro E].
    exists intro. cbn [run] in E. rewrite (bind_raised _ _ _ _ _ E).
    unfold print_all. cbn. rewrite <- app_assoc. reflexivity.
  - destruct (gate_stops_operation rt (ToggleFollow (arg argv 2)) (started_client w) w
                eq_refl Ht) as [intro E].
    exists intro. cbn [run] in E. rewrite (bind_raised _ _ _ _ _ E).
    unfold print_all. cbn. rewrite <- app_assoc. reflexivity.
Qed.

(** X17. The username is never stored between runs, so the command
    [profile] with no username (or an empty one) always prints one error
    line and exits with status 1 without sending anything, whether the token
    file, read without error, holds a token or not. *)
Theorem X17_profile_needs_a_username rt argv w :
  readable rt w = true ->
  lower rt (arg argv 1) = lit "profile" ->
  List.length argv = 2%nat \/ ((2 < List.length argv)%nat /\ arg argv 2 = []) ->
  main rt argv w
  = (Raise (SystemExit 1),
     add_line [Lit "❌ Error: ";
               FmtExn (Exception_ "No username provided and not logged in")] w).
Proof.
  intros Hread Hc Hn.
  assert (E : profile_target
                (if (2 <? List.length argv)%nat then Some (arg argv 2) else None)
                (started_client w) = PNone).
  { destruct Hn as [Hn|[Hn He]].
    - rewrite Hn. reflexivity.
    - apply Nat.ltb_lt in Hn. rewrite Hn, He. reflexivity. }
  assert (D : dispatch rt argv (started_client w, w)
              = (Raise (Exception_ "No username provided and not logged in"),
                 (started_client w, w))).
  { unfold dispatch. rewrite Hc. eval_eqb.
    unfold get_profile, bind, get_self. cbn [fst]. rewrite E. reflexivity. }
  rewrite main_spec by (assumption || lia). unfold try_except. rewrite D. reflexivity.
Qed.

(** X18. Once the token file has been read without error, a limit that
    [int()] rejects makes [get-posts] and [trending] print one [ValueError]
    line and exit with status 1 before any request is sent. *)
Theorem X18_invalid_limit_stops_before_network rt argv w :
  readable rt w = true ->
  In (lower rt (arg argv 1)) [lit "get-posts"; lit "trending"] ->
  (2 < List.length argv)%nat ->
  parse_int rt (arg argv 2) = None ->
  main rt argv w
  = (Raise (SystemExit 1),
     add_line [Lit "❌ Error: ";
               FmtExn (ValueError "invalid literal for int() with base 10: "
                         (arg argv 2))] w).
Proof.
  intros Hread Hin Hn Hp. rewrite main_spec by (assumption || lia).
  apply Nat.ltb_lt in Hn.
  unfold try_except, dispatch, limit_arg.
  cbn [In] in Hin. repeat destruct Hin as [Hin|Hin]; try contradiction;
    rewrite <- Hin; eval_eqb; rewrite Hn, Hp; reflexivity.
Qed.

Lemma ascii_lower_ascii c : is_ascii c = true -> is_ascii (ascii_lower c) = true.
Proof.
  unfold is_ascii, ascii_lower. intros H. apply N.ltb_lt in H.
  destruct ((65 <=? c) && (c <=? 90))%N eqn:E; apply N.ltb_lt; [|lia].
  apply andb_prop in E as [_ E]. apply N.leb_le in E. lia.
Qed.

Lemma ascii_lower_idem c : ascii_lower (ascii_lower c) = ascii_lower c.
Proof.
  unfold ascii_lower.
  destruct ((65 <=? c) && (c <=? 90))%N eqn:E; [|rewrite E; reflexivity].
  apply andb_prop in E as [E1 E2]. apply N.leb_le in E1, E2.
  destruct ((65 <=? c + 32) && (c + 32 <=? 90))%N eqn:E'; [|reflexivity].
  apply andb_prop in E' as [_ E3]. apply N.leb_le in E3. lia.
Qed.

Lemma lower_idem rt s : forallb is_ascii s = true -> lower rt (lower rt s) = lower rt s.
Proof.
  intros H. unfold lower. rewrite H.
  assert (H' : forallb is_ascii (map ascii_lower s) = true).
  { rewrite forallb_forall in *. intros x Hx. apply in_map_iff in Hx as [y [<- Hy]].
    apply ascii_lower_ascii. auto. }
  rewrite H'. rewrite map_map. apply map_ext. intros. apply ascii_lower_idem.
Qed.

(** X19. The command is matched without regard to case: an ASCII command
    word in any case runs exactly as its lower-case spelling. *)
Theorem X19_command_is_case_insensitive rt prog command args w :
  forallb is_ascii command = true ->
  main rt (prog :: command :: args) w
  = main rt (prog :: map ascii_lower command :: args) w.
Proof.
  intros Ha.
  assert (E : lower rt (map ascii_lower command) = lower rt command).
  { rewrite <- (lower_idem rt command Ha). unfold lower at 2 3. rewrite Ha. reflexivity. }
  unfold main. cbn [List.length Nat.ltb Nat.leb].
  destruct (MinSoAI rt default_base_url w) as [[[]|e] [c' w']]; [|reflexivity].
  unfold dispatch, limit_arg, arg. cbn [nth List.length]. rewrite E. reflexivity.
Qed.

Lemma X16_commands_without_token_witness :
  exists intro,
    main (runtime_with (always (Response 200 (Some PNone))) true false)
      [lit "minso-ai.py"; lit "like"; lit "p1"] (mkWorld (Some [32%N]) [] [])
    = (Raise (SystemExit 1),
       print_all [intro; [Lit "❌ Error: "; FmtExn AuthenticationError]]
         (mkWorld (Some [32%N]) [] [])).
Proof.
  exact (X16_commands_without_token_stop_before_network
           (runtime_with (always (Response 200 (Some PNone))) true false)
           [lit "minso-ai.py"; lit "like"; lit "p1"] (mkWorld (Some [32%N]) [] [])
           eq_refl eq_refl (or_intror (or_introl eq_refl)) (le_n 3)).
Defined.

Lemma X17_profile_needs_a_username_witness :
  main (runtime_with (always (Response 200 (Some PNone))) true false)
    [lit "minso-ai.py"; lit "profile"] (mkWorld (Some (lit "tok123")) [] [])
  = (Raise (SystemExit 1),
     mkWorld (Some (lit "tok123"))
       [[Lit "❌ Error: ";
         FmtExn (Exception_ "No username provided and not logged in")]] []).
Proof.
  exact (X17_profile_needs_a_username
           (runtime_with (always (Response 200 (Some PNone))) true false)
           [lit "minso-ai.py"; lit "profile"] (mkWorld (Some (lit "tok123")) [] [])
           eq_refl eq_refl (or_introl eq_refl)).
Defined.

Lemma X18_invalid_limit_witness :
  main (runtime_with (always (Response 200 (Some PNone))) true false)
    [lit "minso-ai.py"; lit "get-posts"; lit "many"] empty_world
  = (Raise (SystemExit 1),
     mkWorld None
       [[Lit "❌ Error: ";
         FmtExn (ValueError "invalid literal for int() with base 10: "
                   (lit "many"))]] []).
Proof.
  exact (X18_invalid_limit_stops_before_network
           (runtime_with (always (Response 200 (Some PNone))) true false)
           [lit "minso-ai.py"; lit "get-posts"; lit "many"] empty_world
           eq_refl (or_introl eq_refl) (le_n 3) eq_refl).
Defined.

Lemma X19_command_is_case_insensitive_witness :
  main (runtime_with (always (Response 200 (Some PNone))) true false)
    [lit "minso-ai.py"; lit "LogOut"] empty_world
  = main (runtime_with (always (Response 200 (Some PNone))) true false)
      [lit "minso-ai.py"; lit "logout"] empty_world.
Proof.
  exact (X19_command_is_case_insensitive
           (runtime_with (always (Response 200 (Some PNone))) true false)
           (lit "minso-ai.py") (lit "LogOut") [] empty_world eq_refl).
Defined.

(** ** Listings and profiles, once more *)

(** X20. When a post of the listing has no usable [content], [get_posts]
    raises at that post: the posts before it have been shown, the later
    ones are not, and the operation does not return the list. *)
Theorem X20_listing_stops_at_first_broken_post
    rt st limit offset c w good bad rest e :
  (forall h q, server rt h q = Response st (Some (PList (good ++ bad :: rest)))) ->
  is_http_error st = false ->
  forallb (fun p => shows_in_listing p && has_key (lit "id") p) good = true ->
  display_content bad = Raise e ->
  get_posts rt limit offset (c, w)
  = (Raise e,
     (c, print_all
           ([Lit "✅ Posts retrieved successfully!"]
            :: flat_map (listing_lines "📝 @") good)
           (add_request
              (get_request c (lit "/posts?limit=" ++ str_of_int limit
                              ++ lit "&offset=" ++ str_of_int offset))
              (add_line [Lit "ℹ️  Fetching "; Fmt (PInt limit); Lit " posts..."]
                 w)))).
Proof.
  intros Hsrv Hst Hok Hbad. unfold get_posts. fetch Hsrv Hst.
  apply wp_bind, wp_print, wp_bind; cbn [fst snd].
  eapply wp_of_eq.
  - rewrite for_each_split. unfold bind at 1.
    rewrite (for_each_prints good _ (listing_lines "📝 @"))
      by (intros p Hp c' w'; apply listing_body;
          exact (proj1 (forallb_forall _ _) Hok p Hp)).
    cbn [for_each]. unfold bind at 1 2. unfold lift at 1. rewrite Hbad. reflexivity.
  - cbv beta iota.
    rewrite (add_line_print_all [Lit "✅ Posts retrieved successfully!"]), print_all_app.
    reflexivity.
Qed.

(** X21. For a post whose content is a string, the content shown is never
    longer than 103 characters, agrees with the content on the first 100,
    and is the content itself when that has at most 100 characters. *)
Theorem X21_displayed_content_is_bounded p s s' :
  py_getitem p (lit "content") = Ret (PStr s) ->
  display_content p = Ret (PStr s') ->
  (List.length s' <= 103)%nat
  /\ firstn 100 s' = firstn 100 s
  /\ ((List.length s <= 100)%nat -> s' = s).
Proof.
  intros Hc. unfold display_content. rewrite Hc. cbn [rbind py_len].
  destruct (100 <? Z.of_nat (List.length s)) eqn:Hl.
  - apply Z.ltb_lt in Hl. unfold py_truncate. intros H.
    assert (E : s' = firstn 100 s ++ lit "...") by congruence. subst s'. clear H.
    rewrite length_app, firstn_length_le by lia.
    repeat split.
    + change (List.length (lit "...")) with 3%nat. lia.
    + rewrite firstn_app, firstn_firstn, firstn_length_le by lia.
      rewrite Nat.sub_diag, Nat.min_id. cbn [firstn]. rewrite app_nil_r. reflexivity.
    + intros. lia.
  - apply Z.ltb_ge in Hl. intros H. assert (E : s' = s) by congruence. subst s'.
    repeat split. lia.
Qed.

Lemma request_of_GET rt c ep d q :
  request_of rt c (lit "GET") ep d = Some q -> q = get_request c ep.
Proof. unfold request_of. rewrite verb_GET. intros H. injection H as <-. reflexivity. Qed.

Ltac exact_step :=
  match goal with
  | H : request_of _ _ (lit "GET") _ _ = Some _ |- _ =>
      apply request_of_GET in H; subst
  | |- _ = _ :> list request => reflexivity || assumption
  | |- True => exact I
  | |- wp (for_each _ _) _ ?s =>
      apply wp_for_each with (I := fun s' => sent (snd s') = sent (snd s));
      [intros ? ? _ ?|intros ? ?|reflexivity]
  | |- wp (_request _ (lit "GET") _ None false) _ _ =>
      apply wp_request; [discriminate|rewrite verb_GET; discriminate|intros ..]
  | _ => wp_go
  end; cbn [fst snd add_line add_request sent].

(** X22. [get_profile] asks for [/users/<name>] where the name is the
    argument when one is given, and otherwise the username the client holds
    from a sign-in; the request goes out without authentication being
    required. *)
Theorem X22_profile_looks_up_argument_or_session rt name c w x n :
  name = Some (x :: n)
  \/ ((name = None \/ name = Some []) /\ username c = PStr (x :: n)) ->
  sent (snd (snd (get_profile rt name (c, w))))
  = sent w ++ [get_request c (lit "/users/" ++ x :: n)].
Proof.
  intros Hn.
  assert (E : profile_target name c = PStr (x :: n)).
  { destruct Hn as [->|[[->| ->] Hu]]; cbn; auto. }
  change (wp (get_profile rt name)
            (fun _ s' => sent (snd s')
                         = sent w ++ [get_request c (lit "/users/" ++ x :: n)])
            (c, w)).
  unfold get_profile. apply wp_bind, wp_get_self. cbn [fst snd].
  rewrite E. cbn [truthy negb format_value].
  repeat exact_step.
Qed.

(** X23. From the command line, once the token file has been read without
    error: [get-posts] and [trending] without a limit ask for 10 items
    ([get-posts] from offset 0); [search] asks for 10, with the query as
    [urllib.parse.quote] encodes it; and a query that [quote] cannot encode
    (a lone surrogate, which is what an undecodable byte on the command
    line becomes) ends the run with exit status 1 before anything is
    sent. *)
Theorem X23_listing_commands_default_to_ten rt argv w :
  readable rt w = true ->
  (lower rt (arg argv 1) = lit "get-posts" -> List.length argv = 2%nat ->
   sent (snd (main rt argv w))
   = sent w ++ [get_request (started_client w) (lit "/posts?limit=10&offset=0")])
  /\ (lower rt (arg argv 1) = lit "trending" -> List.length argv = 2%nat ->
      sent (snd (main rt argv w))
      = sent w ++ [get_request (started_client w) (lit "/posts/trending?limit=10")])
  /\ (lower rt (arg argv 1) = lit "search" -> (3 <= List.length argv)%nat ->
      existsb is_surrogate (arg argv 2) = false ->
      sent (snd (main rt argv w))
      = sent w ++ [get_request (started_client w)
                     (lit "/search?q="
                      ++ flat_map percent_encode (flat_map utf8 (arg argv 2))
                      ++ lit "&limit=10")])
  /\ (lower rt (arg argv 1) = lit "search" -> (3 <= List.length argv)%nat ->
      existsb is_surrogate (arg argv 2) = true ->
      fst (main rt argv w) = Raise (SystemExit 1)
      /\ sent (snd (main rt argv w)) = sent w
      /\ token_file (snd (main rt argv w)) = token_file w).
Proof.
  intros Hread.
  assert (K : forall X,
             wp (dispatch rt argv) (fun _ s' => sent (snd s') = X)
               (started_client w, w) ->
             (2 <= List.length argv)%nat ->
             sent (snd (main rt argv w)) = X).
  { intros X H Hn. rewrite main_spec by assumption. unfold wp in H. unfold try_except.
    destruct (dispatch rt argv (started_client w, w)) as [[[]|e] [c' w']];
      cbn [fst snd] in H |- *; [exact H|].
    destruct (is_Exception e); cbn; exact H. }
  split; [|split; [|split]]; intros Hc Hn.
  - apply K; try lia. unfold dispatch, limit_arg; rewrite Hc; eval_eqb.
    rewrite Hn. cbn [Nat.ltb Nat.leb]. unfold get_posts. repeat exact_step.
  - apply K; try lia. unfold dispatch, limit_arg; rewrite Hc; eval_eqb.
    rewrite Hn. cbn [Nat.ltb Nat.leb]. unfold get_trending. repeat exact_step.
  - intros Hq. apply K; try lia. unfold dispatch, limit_arg; rewrite Hc; eval_eqb.
    assert (Hl : (List.length argv <? 3)%nat = false) by (apply Nat.ltb_ge; lia).
    rewrite Hl. unfold search.
    apply wp_bind, wp_bind, wp_print, wp_bind, wp_lift. unfold quote. rewrite Hq.
    cbn [fst snd]. repeat exact_step.
  - intros Hq.
    assert (D : dispatch rt argv (started_client w, w)
                = (Raise UnicodeEncodeError,
                   (started_client w,
                    add_line [Lit "ℹ️  Searching for '"; Fmt (PStr (arg argv 2));
                              Lit "'..."] w))).
    { unfold dispatch. rewrite Hc. eval_eqb.
      assert (Hl : (List.length argv <? 3)%nat = false) by (apply Nat.ltb_ge; lia).
      rewrite Hl. unfold search, bind, print, lift, quote. rewrite Hq. reflexivity. }
    rewrite main_spec by (assumption || lia). unfold try_except. rewrite D.
    repeat split.
Qed.

Lemma X20_listing_stops_witness :
  get_posts (runtime_with
               (always (Response 200 (Some (PList [example_post; PDict []]))))
               true false) 10 0 (fresh_client, empty_world)
  = (Raise (KeyError (lit "content")),
     (fresh_client,
      print_all
        ([Lit "✅ Posts retrieved successfully!"]
         :: flat_map (listing_lines "📝 @") [example_post])
        (add_request
           (get_request fresh_client
              (lit "/posts?limit=" ++ str_of_int 10
               ++ lit "&offset=" ++ str_of_int 0))
           (add_line [Lit "ℹ️  Fetching "; Fmt (PInt 10); Lit " posts..."]
              empty_world)))).
Proof.
  exact (X20_listing_stops_at_first_broken_post
           (runtime_with
              (always (Response 200 (Some (PList [example_post; PDict []]))))
              true false)
           200 10 0 fresh_client empty_world [example_post] (PDict []) []
           (KeyError (lit "content")) (fun _ _ => eq_refl) eq_refl eq_refl eq_refl).
Defined.

Lemma X21_displayed_content_witness :
  (List.length (xs 100 ++ lit "...") <= 103)%nat
  /\ firstn 100 (xs 100 ++ lit "...") = firstn 100 (xs 150)
  /\ ((List.length (xs 150) <= 100)%nat -> xs 100 ++ lit "..." = xs 150).
Proof.
  exact (X21_displayed_content_is_bounded example_post (xs 150)
           (xs 100 ++ lit "...") eq_refl eq_refl).
Defined.

Lemma X22_profile_looks_up_witness :
  sent (snd (snd (get_profile
                    (runtime_with (always (Response 200 (Some PNone))) true false)
                    None
                    (mkClient default_base_url (Some (lit "tok123"))
                       (PStr (lit "bot1")) (PStr (lit "u1")),
                     empty_world))))
  = [get_request
       (mkClient default_base_url (Some (lit "tok123"))
          (PStr (lit "bot1")) (PStr (lit "u1")))
       (lit "/users/" ++ lit "bot1")].
Proof.
  exact (X22_profile_looks_up_argument_or_session
           (runtime_with (always (Response 200 (Some PNone))) true false)
           None
           (mkClient default_base_url (Some (lit "tok123"))
              (PStr (lit "bot1")) (PStr (lit "u1")))
           empty_world 98%N (lit "ot1")
           (or_intror (conj (or_introl eq_refl) eq_refl))).
Defined.

Lemma X23_listing_commands_default_witness :
  let rt := runtime_with (always (Response 200 (Some (PList [])))) true false in
  sent (snd (main rt [lit "minso-ai.py"; lit "trending"] empty_world))
  = [get_request fresh_client (lit "/posts/trending?limit=10")]
  /\ sent (snd (main rt [lit "minso-ai.py"; lit "search"; lit "hello world"]
                  empty_world))
     = [get_request fresh_client (lit "/search?q=hello%20world&limit=10")]
  /\ (fst (main rt [lit "minso-ai.py"; lit "search"; [56575%N]] empty_world)
      = Raise (SystemExit 1)
      /\ sent (snd (main rt [lit "minso-ai.py"; lit "search"; [56575%N]] empty_world))
         = []
      /\ token_file (snd (main rt [lit "minso-ai.py"; lit "search"; [56575%N]]
                            empty_world))
         = None).
Proof.
  split; [|split].
  - exact (proj1 (proj2 (X23_listing_commands_default_to_ten
                           (runtime_with (always (Response 200 (Some (PList []))))
                              true false)
                           [lit "minso-ai.py"; lit "trending"] empty_world eq_refl))
             eq_refl eq_refl).
  - exact (proj1 (proj2 (proj2 (X23_listing_commands_default_to_ten
                           (runtime_with (always (Response 200 (Some (PList []))))
                              true false)
                           [lit "minso-ai.py"; lit "search"; lit "hello world"]
                           empty_world eq_refl)))
             eq_refl (le_n 3) eq_refl).
  - exact (proj2 (proj2 (proj2 (X23_listing_commands_default_to_ten
                           (runtime_with (always (Response 200 (Some (PList []))))
                              true false)
                           [lit "minso-ai.py"; lit "search"; [56575%N]]
                           empty_world eq_refl)))
             eq_refl (le_n 3) eq_refl).
Defined.

(** ** What the other operations send and show *)

Lemma request_of_POST rt c ep d q :
  request_of rt c (lit "POST") ep d = Some q ->
  q = mkRequest POST (base_url c ++ ep) (request_headers c) d.
Proof. unfold request_of. rewrite verb_POST. intros H. injection H as <-. reflexivity. Qed.

Ltac posted_step :=
  match goal with
  | H : request_of _ _ (lit "POST") _ _ = Some _ |- _ =>
      apply request_of_POST in H; subst
  | |- _ = _ :> list request => reflexivity || assumption
  | |- wp (_request _ (lit "POST") _ _ true) _ _ =>
      apply wp_request; [|rewrite verb_POST; discriminate|intros ..]
  | _ => wp_go
  end; cbn [fst snd add_line add_request sent].

(** X24. With a non-empty token, [post], [like_post], [comment],
    [follow_user] and [send_dm] each send exactly one POST to their endpoint,
    with the bearer header and with exactly the JSON body built from their
    arguments (none for the two toggles), whatever the server then answers. *)
Theorem X24_authenticated_posts_send_what_they_were_given
    rt op c w ep body x t :
  posted op = Some (ep, body) ->
  token c = Some (x :: t) ->
  sent (snd (snd (run rt op (c, w))))
  = sent w
    ++ [mkRequest POST (base_url c ++ ep)
          [(lit "Content-Type", lit "application/json");
           (lit "Authorization", lit "Bearer " ++ x :: t)]
          body].
Proof.
  intros Hp Ht.
  assert (Hh : request_headers c
               = [(lit "Content-Type", lit "application/json");
                  (lit "Authorization", lit "Bearer " ++ x :: t)])
    by (unfold request_headers; rewrite Ht; reflexivity).
  rewrite <- Hh.
  change (wp (run rt op)
            (fun _ s' => sent (snd s')
                         = sent w ++ [mkRequest POST (base_url c ++ ep)
                                        (request_headers c) body]) (c, w)).
  destruct op; try discriminate Hp; cbn [posted] in Hp; injection Hp as <- <-;
    cbn [run]; unfold_operations.
  all: apply wp_bind, wp_print, wp_bind; cbn [fst snd].
  all: apply wp_request; cbn [fst snd];
    [ intros _ Hf; rewrite Ht in Hf; discriminate Hf
    | rewrite verb_POST; discriminate | intros .. ].
  all: repeat posted_step.
Qed.

Lemma wp_request_sent rt m ep d a (Q : result pyval -> state -> Prop) s vb st v :
  a && negb (token_truthy (token (fst s))) = false ->
  verb rt m = Some vb ->
  (forall h q, server rt h q = Response st (Some v)) ->
  is_http_error st = false ->
  Q (Ret v)
    (fst s,
     add_request
       (mkRequest vb (base_url (fst s) ++ ep) (request_headers (fst s))
          (match vb with POST | PUT => d | _ => None end))
       (snd s)) ->
  wp (_request rt m ep d a) Q s.
Proof.
  intros Hg Hv Hsrv Hst HQ. destruct s as [c w]. unfold wp.
  rewrite _request_spec. cbn [fst snd] in *. rewrite Hg.
  unfold request_of. rewrite Hv. unfold outcome. rewrite Hsrv, Hst. apply HQ.
Qed.

Lemma notification_body n c w :
  notification_shows n = true ->
  (icon <- lift (kind <~ py_get n (lit "type") PNone ;; notification_icon kind) ;;
   message <- lift (py_getitem n (lit "message")) ;;
   print [Lit icon; Lit " "; Fmt message] ;;
   read <- lift (py_get n (lit "read") PNone) ;;
   (if negb (truthy read) then print [Lit "   📍 Unread"] else ret tt) ;;
   print []) (c, w)
  = (Ret tt, (c, print_all (notification_lines n) w)).
Proof.
  intros H. unfold notification_shows, has_key in H. split_hyps.
  unfold notification_lines.
  destruct (kind <~ py_get n (lit "type") PNone ;; notification_icon kind)
    as [icon|] eqn:Ei; [|discriminate].
  destruct (py_getitem n (lit "message")) as [m|] eqn:Em; [|discriminate].
  destruct (py_get n (lit "read") PNone) as [r|] eqn:Er; [|discriminate].
  cbn [value_of]. unfold bind, lift, print, ret.
  destruct (truthy r); cbn; unfold print_all; cbn;
    repeat rewrite <- app_assoc; reflexivity.
Qed.

(** X25. [get_notifications] shows each notification as its icon and
    message, marks it unread when [read] is absent or falsy, and returns the
    list it received. *)
Theorem X25_notifications_are_listed rt st ns c w :
  (forall h q, server rt h q = Response st (Some (PList ns))) ->
  is_http_error st = false ->
  token_truthy (token c) = true ->
  forallb notification_shows ns = true ->
  get_notifications rt (c, w)
  = (Ret (PList ns),
     (c, print_all
           ([Lit "✅ Notifications retrieved!"] :: flat_map notification_lines ns)
           (add_request (get_request c (lit "/notifications"))
              (add_line [Lit "ℹ️  Fetching notifications..."] w)))).
Proof.
  intros Hsrv Hst Ht Hok. unfold get_notifications. apply wp_eq.
  apply wp_bind, wp_print, wp_bind; cbn [fst snd].
  eapply wp_request_sent;
    [ cbn [fst]; rewrite Ht; reflexivity | apply verb_GET | exact Hsrv | exact Hst
    | cbn [fst snd] ].
  apply wp_bind, wp_print, wp_bind; cbn [fst snd].
  eapply wp_of_eq.
  - apply (for_each_prints ns _ notification_lines).
    intros n Hn c' w'. apply notification_body.
    exact (proj1 (forallb_forall _ _) Hok n Hn).
  - apply wp_ret.
    rewrite (add_line_print_all [Lit "✅ Notifications retrieved!"]), print_all_app.
    reflexivity.
Qed.


(** X26. [like_post] and [follow_user] report the state the server
    returned: "liked" / "now following" when [isLiked] / [isFollowing] is
    truthy, "unliked" / "unfollowed" otherwise; either way the reply is
    returned. *)
Theorem X26_toggles_report_the_new_state rt st d c w x :
  (forall h q, server rt h q = Response st (Some (PDict d))) ->
  is_http_error st = false ->
  token_truthy (token c) = true ->
  (forall post_id,
      lookup (lit "isLiked") d = Some x ->
      like_post rt post_id (c, w)
      = (Ret (PDict d),
         (c, print_all
               [ [Lit "ℹ️  Toggling like for post "; Fmt (PStr post_id); Lit "..."];
                 [Lit (if truthy x then "✅ Post liked! ❤️" else "✅ Post unliked! 💔")] ]
               (add_request
                  (mkRequest POST (base_url c ++ lit "/posts/" ++ post_id ++ lit "/like")
                     (request_headers c) None) w))))
  /\ (forall username,
        lookup (lit "isFollowing") d = Some x ->
        follow_user rt username (c, w)
        = (Ret (PDict d),
           (c, print_all
                 [ [Lit "ℹ️  Toggling follow for user "; Fmt (PStr username); Lit "..."];
                   if truthy x
                   then [Lit "✅ Now following @"; Fmt (PStr username); Lit "! 👥"]
                   else [Lit "✅ Unfollowed @"; Fmt (PStr username); Lit "! ❌"] ]
                 (add_request
                    (mkRequest POST
                       (base_url c ++ lit "/users/" ++ username ++ lit "/follow")
                       (request_headers c) None) w)))).
Proof.
  intros Hsrv Hst Ht. split; intros arg Hl; apply wp_eq.
  - unfold like_post. apply wp_bind, wp_print, wp_bind; cbn [fst snd].
    eapply wp_request_sent;
      [ cbn [fst]; rewrite Ht; reflexivity | apply verb_POST | exact Hsrv | exact Hst
      | cbn [fst snd] ].
    apply wp_bind, wp_lift. cbn [py_contains]. rewrite Hl.
    apply wp_bind, wp_lift. cbn [py_getitem]. rewrite Hl.
    apply wp_bind.
    destruct (truthy x); apply wp_print, wp_ret; unfold print_all, add_line, add_request;
      cbn; repeat rewrite <- app_assoc; reflexivity.
  - unfold follow_user. apply wp_bind, wp_print, wp_bind; cbn [fst snd].
    eapply wp_request_sent;
      [ cbn [fst]; rewrite Ht; reflexivity | apply verb_POST | exact Hsrv | exact Hst
      | cbn [fst snd] ].
    apply wp_bind, wp_lift. cbn [py_contains]. rewrite Hl.
    apply wp_bind, wp_lift. cbn [py_getitem]. rewrite Hl.
    apply wp_bind.
    destruct (truthy x); apply wp_print, wp_ret; unfold print_all, add_line, add_request;
      cbn; repeat rewrite <- app_assoc; reflexivity.
Qed.

(** X27. [health_check] on a reply with a truthy [status] prints the
    status, and the uptime and version with ["N/A"] standing in for a field
    that is absent, and returns the reply. *)
Theorem X27_health_check_shows_defaults rt st d c w status :
  (forall h q, server rt h q = Response st (Some (PDict d))) ->
  is_http_error st = false ->
  lookup (lit "status") d = Some status -> truthy status = true ->
  health_check rt (c, w)
  = (Ret (PDict d),
     (c, print_all
           [ [Lit "ℹ️  Checking API health..."];
             [Lit "✅ API is healthy! 🚀"];
             [Lit "ℹ️  Status: "; Fmt status];
             [Lit "ℹ️  Uptime: ";
              Fmt (match lookup (lit "uptime") d with
                   | Some v => v
                   | None => PStr (lit "N/A")
                   end)];
             [Lit "ℹ️  Version: ";
              Fmt (match lookup (lit "version") d with
                   | Some v => v
                   | None => PStr (lit "N/A")
                   end)] ]
           (add_request (get_request c (lit "/health")) w))).
Proof.
  intros Hsrv Hst Hl Htr. unfold health_check. apply wp_eq.
  apply wp_bind, wp_print, wp_bind; cbn [fst snd].
  eapply wp_request_sent;
    [ reflexivity | apply verb_GET | exact Hsrv | exact Hst | cbn [fst snd] ].
  apply wp_bind, wp_lift. cbn [py_get]. rewrite Hl, Htr.
  apply wp_bind, wp_print, wp_bind, wp_lift. cbn [py_getitem]. rewrite Hl.
  apply wp_bind, wp_print, wp_bind, wp_lift. cbn [py_get].
  apply wp_bind, wp_print, wp_bind, wp_lift. cbn [py_get].
  apply wp_bind, wp_print, wp_ret.
  unfold print_all, add_line, add_request, get_request. cbn.
  repeat rewrite <- app_assoc. reflexivity.
Qed.

Lemma X24_authenticated_posts_witness :
  sent (snd (snd (run (runtime_with (always (SendFails [])) true false)
                    (SendMessage (lit "alice") (lit "hi"))
                    (mkClient default_base_url (Some (lit "tok123")) PNone PNone,
                     empty_world))))
  = [mkRequest POST (lit "http://localhost:5000/api/messages")
       [(lit "Content-Type", lit "application/json");
        (lit "Authorization", lit "Bearer tok123")]
       (Some (PDict [(lit "recipientUsername", PStr (lit "alice"));
                     (lit "content", PStr (lit "hi"))]))].
Proof.
  exact (X24_authenticated_posts_send_what_they_were_given
           (runtime_with (always (SendFails [])) true false)
           (SendMessage (lit "alice") (lit "hi"))
           (mkClient default_base_url (Some (lit "tok123")) PNone PNone)
           empty_world (lit "/messages")
           (Some (PDict [(lit "recipientUsername", PStr (lit "alice"));
                         (lit "content", PStr (lit "hi"))]))
           116%N (lit "ok123") eq_refl eq_refl).
Defined.

Lemma X25_notifications_are_listed_witness :
  let n := PDict [(lit "type", PStr (lit "follow"));
                  (lit "message", PStr (lit "alice followed you"))] in
  let c := mkClient default_base_url (Some (lit "tok123")) PNone PNone in
  get_notifications (runtime_with (always (Response 200 (Some (PList [n]))))
                       true false) (c, empty_world)
  = (Ret (PList [n]),
     (c, print_all
           ([Lit "✅ Notifications retrieved!"] :: flat_map notification_lines [n])
           (add_request (get_request c (lit "/notifications"))
              (add_line [Lit "ℹ️  Fetching notifications..."] empty_world)))).
Proof.
  exact (X25_notifications_are_listed
           (runtime_with
              (always (Response 200
                         (Some (PList
                                  [PDict [(lit "type", PStr (lit "follow"));
                                          (lit "message",
                                           PStr (lit "alice followed you"))]]))))
              true false)
           200 _
           (mkClient default_base_url (Some (lit "tok123")) PNone PNone)
           empty_world (fun _ _ => eq_refl) eq_refl eq_refl eq_refl).
Defined.

Lemma X26_toggles_report_witness :
  let c := mkClient default_base_url (Some (lit "tok123")) PNone PNone in
  fst (like_post (runtime_with
                    (always (Response 200
                               (Some (PDict [(lit "isLiked", PBool false)]))))
                    true false)
         (lit "p1") (c, empty_world))
  = Ret (PDict [(lit "isLiked", PBool false)]).
Proof.
  exact (f_equal fst
           (proj1 (X26_toggles_report_the_new_state
                     (runtime_with
                        (always (Response 200
                                   (Some (PDict [(lit "isLiked", PBool false)]))))
                        true false)
                     200 [(lit "isLiked", PBool false)]
                     (mkClient default_base_url (Some (lit "tok123")) PNone PNone)
                     empty_world (PBool false)
                     (fun _ _ => eq_refl) eq_refl eq_refl)
              (lit "p1") eq_refl)).
Defined.

Lemma X27_health_check_shows_defaults_witness :
  fst (health_check
         (runtime_with
            (always (Response 200 (Some (PDict [(lit "status", PStr (lit "ok"))]))))
            true false)
         (fresh_client, empty_world))
  = Ret (PDict [(lit "status", PStr (lit "ok"))]).
Proof.
  exact (f_equal fst
           (X27_health_check_shows_defaults
              (runtime_with
                 (always (Response 200
                            (Some (PDict [(lit "status", PStr (lit "ok"))]))))
                 true false)
              200 [(lit "status", PStr (lit "ok"))] fresh_client empty_world
              (PStr (lit "ok")) (fun _ _ => eq_refl) eq_refl eq_refl eq_refl)).
Defined.
